(** * Snowflake timestamp extractor: [dissecting_snowflakes.py]

    A shallow embedding of the script: identifier normalisation
    ([int] first, URL-safe base64 as the fallback), extraction of the upper
    timestamp bits, the epoch offset, and the range heuristic
    [guess_timestamp_format] with its decoders.  Python integers are [Z],
    Python floats are IEEE-754 binary64 values ([spec_float] at precision 53),
    exceptions are an explicit result type. *)

From Stdlib Require Import ZArith List String Ascii Bool Lia.
From Stdlib Require Import SpecFloat.
From Stdlib Require Decimal DecimalString DecimalN DecimalPos DecimalZ.
Import ListNotations.
Local Open Scope string_scope.
Local Open Scope Z_scope.

(** ** Python exceptions and results *)

Inductive exn : Type :=
| ValueError (msg : string)
| OverflowError (msg : string)
| OSError (msg : string)
| BinasciiError (msg : string).

Inductive result (A : Type) : Type :=
| Ok (a : A)
| Raise (e : exn).
Arguments Ok {A} a.
Arguments Raise {A} e.

Definition bind {A B : Type} (r : result A) (k : A -> result B) : result B :=
  match r with
  | Ok a => k a
  | Raise e => Raise e
  end.

Declare Scope py_scope.
Notation "x <- r ;; k" := (bind r (fun x => k))
  (at level 61, r at next level, right associativity) : py_scope.
Notation "r ;;; k" := (bind r (fun _ => k))
  (at level 61, right associativity) : py_scope.
Local Open Scope py_scope.

Definition is_ok {A : Type} (r : result A) : bool :=
  match r with Ok _ => true | Raise _ => false end.

(** ** Integer operators *)

(** [a >> n] on Python integers: a negative count raises, otherwise the
    shift is the floor of [a / 2^n]. *)
Definition py_rshift (a n : Z) : result Z :=
  if n <? 0 then Raise (ValueError "negative shift count")
  else Ok (Z.shiftr a n).

(** ** Text *)

Definition code (c : ascii) : Z := Z.of_N (N_of_ascii c).
Definition chars (s : string) : list ascii := list_ascii_of_string s.
Definition text (l : list ascii) : string := string_of_list_ascii l.

Definition is_ascii (c : ascii) : bool := code c <? 128.
Definition is_digit (c : ascii) : bool := (48 <=? code c) && (code c <=? 57).
Definition digit_value (c : ascii) : Z := code c - 48.

(** White space as [int] sees it: the ASCII blanks and the four separator
    controls that [str.isspace] accepts. *)
Definition is_space (c : ascii) : bool :=
  let n := code c in
  ((9 <=? n) && (n <=? 13)) || ((28 <=? n) && (n <=? 32)).

Fixpoint skip_spaces (l : list ascii) : list ascii :=
  match l with
  | c :: l' => if is_space c then skip_spaces l' else l
  | [] => []
  end.

(** [str(n)] for an integer. *)
Definition py_str_int (n : Z) : string := DecimalString.NilZero.string_of_int (Z.to_int n).

(** ** [int(text)] in base 10

    Optional white space, an optional sign, digits with single underscores
    allowed between them, optional white space.  The model reads ASCII text:
    a character outside ASCII is not a digit here.  The interpreter's optional
    cap on the number of digits is not modelled. *)
Fixpoint int_digits (acc : Z) (l : list ascii) : option Z :=
  match l with
  | [] => Some acc
  | c :: l' =>
      if is_digit c then int_digits (acc * 10 + digit_value c) l'
      else if (code c =? 95) then
        match l' with
        | d :: l'' =>
            if is_digit d then int_digits (acc * 10 + digit_value d) l''
            else None
        | [] => None
        end
      else if is_space c then
        if forallb is_space l' then Some acc else None
      else None
  end.

Definition invalid_literal : exn :=
  ValueError "invalid literal for int() with base 10".

Definition py_int (s : string) : result Z :=
  let l := skip_spaces (chars s) in
  let '(neg, l) :=
    match l with
    | c :: l' =>
        if code c =? 43 then (false, l')
        else if code c =? 45 then (true, l')
        else (false, l)
    | [] => (false, l)
    end in
  match l with
  | c :: _ =>
      if is_digit c then
        match int_digits 0 l with
        | Some n => Ok (if neg then - n else n)
        | None => Raise invalid_literal
        end
      else Raise invalid_literal
  | [] => Raise invalid_literal
  end.

(** ** [base64.urlsafe_b64decode] *)

Module Base64.

(** [table_a2b_base64]: the value of an alphabet character, [None] for
    every other byte. *)
Definition table_a2b (c : ascii) : option Z :=
  let n := code c in
  if (65 <=? n) && (n <=? 90) then Some (n - 65)
  else if (97 <=? n) && (n <=? 122) then Some (n - 71)
  else if (48 <=? n) && (n <=? 57) then Some (n + 4)
  else if n =? 43 then Some 62
  else if n =? 47 then Some 63
  else None.

Definition PAD : Z := 61.

(** The decoder's registers. [out] is kept in reverse. *)
Record state : Type := mk_state {
  quad_pos : Z;
  leftchar : Z;
  pads : Z;
  out : list Z
}.

Definition init : state := mk_state 0 0 0 [].

Definition byte (z : Z) : Z := Z.land z 255.

(** One alphabet character. *)
Definition push (st : state) (this_ch : Z) : state :=
  let lc := leftchar st in
  if quad_pos st =? 0 then mk_state 1 this_ch 0 (out st)
  else if quad_pos st =? 1 then
    mk_state 2 (Z.land this_ch 15) 0
      (byte (Z.lor (Z.shiftl lc 2) (Z.shiftr this_ch 4)) :: out st)
  else if quad_pos st =? 2 then
    mk_state 3 (Z.land this_ch 3) 0
      (byte (Z.lor (Z.shiftl lc 4) (Z.shiftr this_ch 2)) :: out st)
  else
    mk_state 0 0 0 (byte (Z.lor (Z.shiftl lc 6) this_ch) :: out st).

(** The loop of [binascii.a2b_base64] without strict mode: padding that
    completes a quad stops the scan, other padding and every byte outside
    the alphabet are skipped. *)
Fixpoint scan (st : state) (l : list ascii) : state * bool :=
  match l with
  | [] => (st, false)
  | c :: l' =>
      if code c =? PAD then
        if 2 <=? quad_pos st then
          let st' := mk_state (quad_pos st) (leftchar st) (pads st + 1) (out st) in
          if 4 <=? quad_pos st + (pads st + 1) then (st', true)
          else scan st' l'
        else scan st l'
      else
        match table_a2b c with
        | Some v => scan (push st v) l'
        | None => scan st l'
        end
  end.

Definition a2b_base64 (l : list ascii) : result (list Z) :=
  let '(st, done) := scan init l in
  if done then Ok (rev (out st))
  else if quad_pos st =? 0 then Ok (rev (out st))
  else if quad_pos st =? 1 then
    Raise (BinasciiError
      "Invalid base64-encoded string: number of data characters cannot be 1 more than a multiple of 4")
  else Raise (BinasciiError "Incorrect padding").

(** [s.translate(_urlsafe_decode_translation)]: [-] to [+], [_] to [/]. *)
Definition urlsafe_translate (c : ascii) : ascii :=
  if code c =? 45 then "+"%char
  else if code c =? 95 then "/"%char
  else c.

Definition urlsafe_b64decode (s : string) : result (list Z) :=
  let l := chars s in
  if forallb is_ascii l then a2b_base64 (map urlsafe_translate l)
  else Raise (ValueError "string argument should contain only ASCII characters").

(** The URL-safe alphabet of RFC 4648, section 5. *)
Definition urlsafe_char (v : Z) : ascii :=
  if v <? 26 then ascii_of_N (Z.to_N (v + 65))
  else if v <? 52 then ascii_of_N (Z.to_N (v + 71))
  else if v <? 62 then ascii_of_N (Z.to_N (v - 4))
  else if v =? 62 then "-"%char
  else "_"%char.

(** [base64.urlsafe_b64encode]: three bytes to four characters, the last
    group padded with [=]. *)
Fixpoint encode (bs : list Z) : list ascii :=
  match bs with
  | b0 :: b1 :: b2 :: rest =>
      urlsafe_char (Z.shiftr b0 2)
      :: urlsafe_char (Z.lor (Z.shiftl (Z.land b0 3) 4) (Z.shiftr b1 4))
      :: urlsafe_char (Z.lor (Z.shiftl (Z.land b1 15) 2) (Z.shiftr b2 6))
      :: urlsafe_char (Z.land b2 63)
      :: encode rest
  | [b0; b1] =>
      [urlsafe_char (Z.shiftr b0 2);
       urlsafe_char (Z.lor (Z.shiftl (Z.land b0 3) 4) (Z.shiftr b1 4));
       urlsafe_char (Z.shiftl (Z.land b1 15) 2);
       "="%char]
  | [b0] =>
      [urlsafe_char (Z.shiftr b0 2);
       urlsafe_char (Z.shiftl (Z.land b0 3) 4);
       "="%char; "="%char]
  | [] => []
  end.

Definition urlsafe_b64encode (bs : list Z) : string := text (encode bs).

End Base64.

(** [int.from_bytes(bs, 'big')] *)
Definition from_bytes_big (bs : list Z) : Z :=
  fold_left (fun acc b => acc * 256 + b) bs 0.

(** ** Identifier normalisation (lines 244-252)

    [snowflake_length] starts at 64 and is only recomputed on the base64
    path; the bare [except:] sends every failure of [int] there. *)
Definition snowflake_int (snowflake : string) : result (Z * Z) :=
  match py_int snowflake with
  | Ok n => Ok (n, 64)
  | Raise _ =>
      snowflake_bytes <- Base64.urlsafe_b64decode (snowflake ++ "==") ;;
      Ok (from_bytes_big snowflake_bytes,
          Z.of_nat (List.length snowflake_bytes) * 8)
  end.

(** ** Extraction (lines 265-281) *)

(** [ts_bits = snowflake_int >> (snowflake_length - number_of_ts_bits)] *)
Definition ts_bits (snowflake_int snowflake_length number_of_ts_bits : Z)
  : result Z :=
  py_rshift snowflake_int (snowflake_length - number_of_ts_bits).

(** [epoch_adjusted_ts = int(ts_bits) + epoch_offset] *)
Definition epoch_adjusted_ts
  (snowflake_int snowflake_length number_of_ts_bits epoch_offset : Z)
  : result Z :=
  t <- ts_bits snowflake_int snowflake_length number_of_ts_bits ;;
  Ok (t + epoch_offset).

(** ** Floats: IEEE-754 binary64 *)

Module F64.
Definition prec : Z := 53.
Definition emax : Z := 1024.

Definition of_Z (z : Z) : spec_float := binary_normalize prec emax z 0 false.
Definition add : spec_float -> spec_float -> spec_float := SFadd prec emax.
Definition sub : spec_float -> spec_float -> spec_float := SFsub prec emax.
Definition mul : spec_float -> spec_float -> spec_float := SFmul prec emax.
Definition div : spec_float -> spec_float -> spec_float := SFdiv prec emax.

Definition is_finite (f : spec_float) : bool :=
  match f with
  | S754_zero _ | S754_finite _ _ _ => true
  | _ => false
  end.

(** The integer part, rounded toward zero (C [modf], first result). *)
Definition trunc (f : spec_float) : Z :=
  match f with
  | S754_finite s m e =>
      let a := if 0 <=? e then Zpos m * 2 ^ e else Zpos m / 2 ^ (- e) in
      if s then - a else a
  | _ => 0
  end.

(** The fractional part, with the sign of the argument (C [modf]); it is
    exactly representable. *)
Definition frac (f : spec_float) : spec_float :=
  match f with
  | S754_finite s m e =>
      if 0 <=? e then S754_zero s
      else
        let r := Zpos m mod 2 ^ (- e) in
        binary_normalize prec emax (if s then - r else r) e s
  | S754_zero s => S754_zero s
  | S754_infinity s => S754_zero s
  | S754_nan => S754_nan
  end.

(** Round to the nearest integer, ties to even
    ([_PyTime_RoundHalfEven]). *)
Definition round_half_even (f : spec_float) : Z :=
  match f with
  | S754_finite s m e =>
      let a :=
        if 0 <=? e then Zpos m * 2 ^ e
        else
          let d := 2 ^ (- e) in
          let q := Zpos m / d in
          let r := Zpos m mod d in
          match 2 * r ?= d with
          | Lt => q
          | Gt => q + 1
          | Eq => if Z.even q then q else q + 1
          end in
      if s then - a else a
  | _ => 0
  end.
End F64.

(** [float(n)] for a Python integer: the nearest double, ties to even;
    an integer that rounds beyond the largest double raises. *)
Definition py_float (n : Z) : result spec_float :=
  match F64.of_Z n with
  | S754_infinity _ => Raise (OverflowError "int too large to convert to float")
  | f => Ok f
  end.

(** [a / b] on two Python integers (true division): the correctly rounded
    double of the exact quotient. *)
Definition py_int_truediv (a b : Z) : result spec_float :=
  match a, b with
  | _, Z0 => Raise (ValueError "division by zero")
  | Z0, Zpos _ => Ok (S754_zero false)
  | Z0, Zneg _ => Ok (S754_zero true)
  | _, _ =>
      let sa := a <? 0 in
      let sb := b <? 0 in
      match F64.div (S754_finite sa (Z.to_pos (Z.abs a)) 0)
                    (S754_finite sb (Z.to_pos (Z.abs b)) 0) with
      | S754_infinity _ =>
          Raise (OverflowError "integer division result too large for a float")
      | f => Ok f
      end
  end.

(** ** Calendar instants: [datetime.datetime] *)

Record datetime : Type := mk_datetime {
  year : Z; month : Z; day : Z;
  hour : Z; minute : Z; second : Z; microsecond : Z
}.

Definition MINYEAR : Z := 1.
Definition MAXYEAR : Z := 9999.

(** Days since 1970-01-01 to the proleptic Gregorian date (what [gmtime]
    computes from the day count). *)
Definition civil_from_days (days : Z) : Z * Z * Z :=
  let z := days + 719468 in
  let era := z / 146097 in
  let doe := z - era * 146097 in
  let yoe := (doe - doe / 1460 + doe / 36524 - doe / 146096) / 365 in
  let y := yoe + era * 400 in
  let doy := doe - (365 * yoe + yoe / 4 - yoe / 100) in
  let mp := (5 * doy + 2) / 153 in
  let d := doy - (153 * mp + 2) / 5 + 1 in
  let m := if mp <? 10 then mp + 3 else mp - 9 in
  (if m <=? 2 then y + 1 else y, m, d).

(** The broken-down time of [t] seconds since the Unix epoch, with [us]
    microseconds. *)
Definition broken_down (t us : Z) : datetime :=
  let days := t / 86400 in
  let rem := t mod 86400 in
  let '(y, m, d) := civil_from_days days in
  mk_datetime y m d (rem / 3600) (rem mod 3600 / 60) (rem mod 60) us.

(** What the C library under the interpreter supports. [time_t] holds
    [time_t_min <= t < - time_t_min]; [gmtime]/[localtime] succeed on
    [gmtime_min <= t <= gmtime_max]; [utc_offset t] is the local zone's offset
    from UTC, in seconds, at instant [t]. *)
Record platform : Type := mk_platform {
  time_t_min : Z;
  gmtime_min : Z;
  gmtime_max : Z;
  utc_offset : Z -> Z
}.

(** 64-bit Linux with glibc, local zone UTC: [gmtime] fails only when the year
    does not fit the C [int] field [tm_year]. *)
Definition linux64 : platform :=
  mk_platform (- 2 ^ 63) (-67768040609740800) 67768036191676799 (fun _ => 0).

(** 64-bit Windows, local zone UTC: [gmtime_s] rejects negative times and
    times after 3000-12-31 23:59:59. *)
Definition windows64 : platform :=
  mk_platform (- 2 ^ 63) 0 32535215999 (fun _ => 0).

(** The constructor's range check on the year. *)
Definition new_datetime (d : datetime) : result datetime :=
  if (year d <? MINYEAR) || (MAXYEAR <? year d)
  then Raise (ValueError "year is out of range")
  else Ok d.

(** [_PyTime_ObjectToTimeval] on a float, rounding half to even: whole
    seconds and microseconds. *)
Definition timeval_of_float (P : platform) (f : spec_float) : result (Z * Z) :=
  match f with
  | S754_nan => Raise (ValueError "Invalid value NaN (not a number)")
  | S754_infinity _ =>
      Raise (OverflowError "timestamp out of range for platform time_t")
  | _ =>
      let intpart := F64.trunc f in
      let floatpart :=
        F64.round_half_even (F64.mul (F64.frac f) (F64.of_Z 1000000)) in
      let '(intpart, floatpart) :=
        if 1000000 <=? floatpart then (intpart + 1, floatpart - 1000000)
        else if floatpart <? 0 then (intpart - 1, floatpart + 1000000)
        else (intpart, floatpart) in
      if (time_t_min P <=? intpart) && (intpart <? - time_t_min P)
      then Ok (intpart, floatpart)
      else Raise (OverflowError "timestamp out of range for platform time_t")
  end.

(** [datetime_from_timet_and_us]: the C library's conversion, then the
    constructor. [off] is the zone offset applied ([0] for UTC). *)
Definition datetime_from_timet_and_us (P : platform) (off : Z) (t us : Z)
  : result datetime :=
  if (gmtime_min P <=? t) && (t <=? gmtime_max P)
  then new_datetime (broken_down (t + off) us)
  else Raise (OSError "Value too large for defined data type").

(** [datetime.datetime.utcfromtimestamp(f)] *)
Definition utcfromtimestamp (P : platform) (f : spec_float) : result datetime :=
  tv <- timeval_of_float P f ;;
  datetime_from_timet_and_us P 0 (fst tv) (snd tv).

(** [datetime.datetime.fromtimestamp(f)]: local time, naive result. *)
Definition fromtimestamp (P : platform) (f : spec_float) : result datetime :=
  tv <- timeval_of_float P f ;;
  datetime_from_timet_and_us P (utc_offset P (fst tv)) (fst tv) (snd tv).

(** [datetime.datetime(1970, 1, 1) + datetime.timedelta(milliseconds=f)]:
    the float's integer part is scaled exactly to microseconds (its
    fractional part is zero for every float that came from an integer); the
    day count of a timedelta is bounded, and so is the sum. *)
Definition epoch_plus_milliseconds (f : spec_float) : result datetime :=
  match f with
  | S754_nan => Raise (ValueError "cannot convert float NaN to integer")
  | S754_infinity _ =>
      Raise (OverflowError "cannot convert float infinity to integer")
  | _ =>
      let us := F64.trunc f * 1000
                + F64.round_half_even (F64.mul (F64.frac f) (F64.of_Z 1000)) in
      let secs := us / 1000000 in
      if 999999999 <? Z.abs (secs / 86400)
      then Raise (OverflowError "days; must have magnitude <= 999999999")
      else
        let d := broken_down secs (us mod 1000000) in
        if (year d <? MINYEAR) || (MAXYEAR <? year d)
        then Raise (OverflowError "date value out of range")
        else Ok d
  end.

(** ** Rendering *)

Definition pad_left (c : ascii) (width : nat) (l : list ascii) : list ascii :=
  (repeat c (width - List.length l) ++ l)%list.

(** ["%0<width>d"] of a non-negative field. *)
Definition zero_padded (width : nat) (n : Z) : list ascii :=
  pad_left "0"%char width (chars (py_str_int n)).

(** [str(d)] of a naive datetime: ISO format with a space separator, the
    microseconds shown only when they are not zero. *)
Definition str_datetime (d : datetime) : string :=
  text (List.concat
    [zero_padded 4 (year d); ["-"%char];
     zero_padded 2 (month d); ["-"%char];
     zero_padded 2 (day d); [" "%char];
     zero_padded 2 (hour d); [":"%char];
     zero_padded 2 (minute d); [":"%char];
     zero_padded 2 (second d);
     if microsecond d =? 0 then []
     else "."%char :: zero_padded 6 (microsecond d)]).

Fixpoint bin_of_pos (p : positive) (acc : list ascii) : list ascii :=
  match p with
  | xH => "1"%char :: acc
  | xO p' => bin_of_pos p' ("0"%char :: acc)
  | xI p' => bin_of_pos p' ("1"%char :: acc)
  end.

(** [f'{x:>0{width}b}']: right-aligned binary digits filled with zeros.  The
    width is spliced into the format specification as text, so a negative
    width leaves a specification the formatter rejects. *)
Definition format_bin (x width : Z) : result string :=
  if width <? 0 then Raise (ValueError "Invalid format specifier")
  else
    let digits :=
      match x with
      | Z0 => ["0"%char]
      | Zpos p => bin_of_pos p []
      | Zneg p => "-"%char :: bin_of_pos p []
      end in
    Ok (text (pad_left "0"%char (Z.to_nat width) digits)).

(** ** [trim_zero_fractional_seconds] (lines 58-68)

    The pattern [\.\d{6-n}0{n}$], read on the reversed text: [n] zeros, then
    [6 - n] digits, then the point.  [$] also matches before a final newline.
    The callers pass 4, 3 and 1. *)
Definition fraction_suffix (number_to_trim : nat) (rev_text : list ascii) : bool :=
  let zeros := firstn number_to_trim rev_text in
  let rest := skipn number_to_trim rev_text in
  let digits := firstn (6 - number_to_trim) rest in
  Nat.eqb (List.length zeros) number_to_trim
  && forallb (fun c => code c =? 48) zeros
  && Nat.eqb (List.length digits) (6 - number_to_trim)
  && forallb is_digit digits
  && match skipn (6 - number_to_trim) rest with
     | c :: _ => code c =? 46
     | [] => false
     end.

Definition trim_zero_fractional_seconds
  (timestamp_string : string) (number_to_trim : nat) : string :=
  let l := chars timestamp_string in
  let r := List.rev l in
  let found :=
    fraction_suffix number_to_trim r
    || match r with
       | c :: r' => (code c =? 10) && fraction_suffix number_to_trim r'
       | [] => false
       end in
  if found then text (firstn (List.length l - number_to_trim) l)
  else timestamp_string.

(** ** Decoders (lines 71-208)

    Each returns the decoded value, a datetime or its text, and the name of
    the format.  The platform is what [datetime] runs on. *)

Inductive pyval : Type :=
| Datetime (d : datetime)
| Str (s : string).

Definition str (v : pyval) : string :=
  match v with
  | Datetime d => str_datetime d
  | Str s => s
  end.

Definition decoded : Type := (pyval * string)%type.

Section Decoders.

Variable P : platform.

Definition decode_epoch_seconds (seconds : Z) : result decoded :=
  f <- py_float seconds ;;
  d <- utcfromtimestamp P f ;;
  Ok (Datetime d, "Epoch seconds").

Definition decode_epoch_centiseconds (centiseconds : Z) : result decoded :=
  f <- py_float centiseconds ;;
  d <- utcfromtimestamp P (F64.div f (F64.of_Z 100)) ;;
  Ok (Str (trim_zero_fractional_seconds (str_datetime d) 4),
      "Epoch centiseconds").

Definition decode_epoch_milliseconds (milliseconds : Z) : result decoded :=
  f <- py_float milliseconds ;;
  converted_dt <- epoch_plus_milliseconds f ;;
  Ok (Str (trim_zero_fractional_seconds (str_datetime converted_dt) 3),
      "Epoch milliseconds").

Definition decode_epoch_ten_microseconds (ten_microseconds : Z)
  : result decoded :=
  f <- py_float ten_microseconds ;;
  d <- utcfromtimestamp P (F64.div f (F64.of_Z 100000)) ;;
  Ok (Str (trim_zero_fractional_seconds (str_datetime d) 1),
      "Epoch ten-microsecond increments").

Definition decode_epoch_microseconds (microseconds : Z) : result decoded :=
  f <- py_float microseconds ;;
  d <- utcfromtimestamp P (F64.div f (F64.of_Z 1000000)) ;;
  Ok (Str (str_datetime d), "Epoch microseconds").

(** [(float(microseconds) / 1000000) - 11644473600] *)
Definition webkit_seconds (microseconds : Z) : result spec_float :=
  f <- py_float microseconds ;;
  Ok (F64.sub (F64.div f (F64.of_Z 1000000)) (F64.of_Z 11644473600)).

Definition decode_webkit (microseconds : Z) : result decoded :=
  t <- webkit_seconds microseconds ;;
  d <- utcfromtimestamp P t ;;
  Ok (Datetime d, "Webkit").

(** [(float(intervals) / 10000000) - 11644473600] *)
Definition windows_filetime_seconds (intervals : Z) : result spec_float :=
  f <- py_float intervals ;;
  Ok (F64.sub (F64.div f (F64.of_Z 10000000)) (F64.of_Z 11644473600)).

Definition decode_windows_filetime (intervals : Z) : result decoded :=
  t <- windows_filetime_seconds intervals ;;
  d <- utcfromtimestamp P t ;;
  Ok (Datetime d, "Windows FileTime").

(** [seconds = (ticks - 621355968000000000) / 10000000] *)
Definition datetime_ticks_seconds (ticks : Z) : result spec_float :=
  py_int_truediv (ticks - 621355968000000000) 10000000.

Definition decode_datetime_ticks (ticks : Z) : result decoded :=
  seconds <- datetime_ticks_seconds ticks ;;
  d <- fromtimestamp P seconds ;;
  Ok (Datetime d, "DateTime ticks").

(** ** [guess_timestamp_format] (lines 211-241) *)

Definition guess_timestamp_format (timestamp : Z) : result decoded :=
  (* Windows FileTime (18 digits) *)
  if (130645440000000000 <=? timestamp) && (timestamp <=? 133801632000000000)
  then decode_windows_filetime timestamp
  (* .Net/C# DateTime ticks (18 digits) *)
  else if (635556672000000000 <=? timestamp) && (timestamp <=? 638712864000000000)
  then decode_datetime_ticks timestamp
  (* WebKit (17 digits) *)
  else if (13064544000000000 <=? timestamp) && (timestamp <=? 13380163200000000)
  then decode_webkit timestamp
  (* Epoch microseconds (16 digits) *)
  else if (1400070400000000 <=? timestamp) && (timestamp <=? 1735689600000000)
  then decode_epoch_microseconds timestamp
  (* Epoch ten microsecond increments (15 digits) *)
  else if (140007040000000 <=? timestamp) && (timestamp <=? 173568960000000)
  then decode_epoch_microseconds timestamp
  (* Epoch milliseconds (13 digits) *)
  else if (1000070400000 <=? timestamp) && (timestamp <=? 1735689600000)
  then decode_epoch_milliseconds timestamp
  (* Epoch seconds (10 digits) *)
  else decode_epoch_seconds timestamp.

End Decoders.

(** ** The script (lines 8-43 and 244-291) *)

(** [--type]: the choices the argument parser accepts. *)
Inductive scheme : Type := twitter | linkedin | discord | manual.

(** The parsed command line; [--ts_bits] is optional, [--offset] defaults
    to 0. *)
Record args : Type := mk_args {
  arg_snowflake : string;
  arg_type : scheme;
  arg_ts_bits : option Z;
  arg_offset : Z
}.

(** [number_of_ts_bits] and [epoch_offset] after lines 19-42; [None] is the
    exit of manual mode when [not number_of_ts_bits] holds, that is when the
    option is absent or zero. *)
Definition configure (a : args) : option (Z * Z) :=
  match arg_type a with
  | twitter => Some (42, 1288834974657)
  | linkedin => Some (42, 0)
  | discord => Some (42, 1420070400000)
  | manual =>
      match arg_ts_bits a with
      | None => None
      | Some number_of_ts_bits =>
          if number_of_ts_bits =? 0 then None
          else Some (number_of_ts_bits, arg_offset a)
      end
  end.

(** How a run ends. *)
Inductive outcome : Type :=
| Exited (message : string)
| Uncaught (e : exn)
| TooBig (epoch_adjusted : Z)
| Shown (epoch_adjusted : Z) (human_ts ts_name : string).

(** Lines 244-283: everything up to the candidate, with the two formatted
    binary lines that can fail. *)
Definition candidate (a : args) (number_of_ts_bits epoch_offset : Z)
  : result Z :=
  sf <- snowflake_int (arg_snowflake a) ;;
  let '(value, snowflake_length) := sf in
  format_bin value snowflake_length ;;;
  t <- ts_bits value snowflake_length number_of_ts_bits ;;
  format_bin t number_of_ts_bits ;;;
  Ok (t + epoch_offset).

(** Lines 287-291: only [OSError] is caught. *)
Definition show (P : platform) (epoch_adjusted : Z) : outcome :=
  match guess_timestamp_format P epoch_adjusted with
  | Ok (human_ts, ts_name) => Shown epoch_adjusted (str human_ts) ts_name
  | Raise (OSError _) => TooBig epoch_adjusted
  | Raise e => Uncaught e
  end.

Definition run (P : platform) (a : args) : outcome :=
  match configure a with
  | None => Exited "In manual mode, --ts_bits is required."
  | Some (number_of_ts_bits, epoch_offset) =>
      match candidate a number_of_ts_bits epoch_offset with
      | Raise e => Uncaught e
      | Ok c => show P c
      end
  end.

(** [number_of_ts_bits] as lines 19-37 leave it, before the check of manual
    mode. *)
Definition requested_ts_bits (a : args) : option Z :=
  match arg_type a with
  | manual => arg_ts_bits a
  | _ => Some 42
  end.

(** The value of a decimal digit sequence read left to right from [acc]. *)
Fixpoint uint_value (d : Decimal.uint) (acc : Z) : Z :=
  match d with
  | Decimal.Nil => acc
  | Decimal.D0 d => uint_value d (acc * 10 + 0)
  | Decimal.D1 d => uint_value d (acc * 10 + 1)
  | Decimal.D2 d => uint_value d (acc * 10 + 2)
  | Decimal.D3 d => uint_value d (acc * 10 + 3)
  | Decimal.D4 d => uint_value d (acc * 10 + 4)
  | Decimal.D5 d => uint_value d (acc * 10 + 5)
  | Decimal.D6 d => uint_value d (acc * 10 + 6)
  | Decimal.D7 d => uint_value d (acc * 10 + 7)
  | Decimal.D8 d => uint_value d (acc * 10 + 8)
  | Decimal.D9 d => uint_value d (acc * 10 + 9)
  end.

(** The values of the alphabet characters of a text, in order: what the
    base64 decoder keeps of it. *)
Fixpoint sextets (l : list ascii) : list Z :=
  match l with
  | [] => []
  | c :: l' =>
      match Base64.table_a2b (Base64.urlsafe_translate c) with
      | Some v => v :: sextets l'
      | None => sextets l'
      end
  end.

(** A character of the URL-safe alphabet, or the padding character. *)
Definition urlsafe_symbol (c : ascii) : bool :=
  let n := code c in
  ((65 <=? n) && (n <=? 90)) || ((97 <=? n) && (n <=? 122))
  || ((48 <=? n) && (n <=? 57)) || (n =? 45) || (n =? 95) || (n =? 61).

Definition is_byte (b : Z) : bool := (0 <=? b) && (b <? 256).

Definition below (n : nat) : list Z := map Z.of_nat (seq 0 n).
(** Byte strings: every element is an octet. *)
Definition bytes (bs : list Z) : Prop := Forall (fun b => 0 <= b < 256) bs.

(** The shift-and-mask identities of the codec, as a decidable check on a
    pair of adjacent bytes. *)
Definition in64 (v : Z) : bool := (0 <=? v) && (v <? 64).

Definition bit_facts (a b : Z) : bool :=
  let s1 := Z.lor (Z.shiftl (Z.land a 3) 4) (Z.shiftr b 4) in
  let s2 := Z.lor (Z.shiftl (Z.land a 15) 2) (Z.shiftr b 6) in
  in64 (Z.shiftr a 2) && in64 s1 && in64 s2 && in64 (Z.land b 63)
  && in64 (Z.shiftl (Z.land a 3) 4) && in64 (Z.shiftl (Z.land a 15) 2)
  && (Base64.byte (Z.lor (Z.shiftl (Z.shiftr a 2) 2) (Z.shiftr s1 4)) =? a)
  && (Base64.byte (Z.lor (Z.shiftl (Z.shiftr a 2) 2)
                  (Z.shiftr (Z.shiftl (Z.land a 3) 4) 4)) =? a)
  && (Z.land s1 15 =? Z.shiftr b 4)
  && (Z.shiftr s2 2 =? Z.land a 15)
  && (Z.shiftr (Z.shiftl (Z.land a 15) 2) 2 =? Z.land a 15)
  && (Base64.byte (Z.lor (Z.shiftl (Z.shiftr a 4) 4) (Z.land a 15)) =? a)
  && (Z.land s2 3 =? Z.shiftr b 6)
  && (Base64.byte (Z.lor (Z.shiftl (Z.shiftr b 6) 6) (Z.land b 63)) =? b).

(** A character other than the pad character. *)
Definition not_pad (c : ascii) : bool := negb (code c =? Base64.PAD).

(** The decoder's invariant after [T] alphabet characters: the position in
    the quad is [T mod 4] and [3T/4] bytes, all octets, are out. *)
Definition decoded_upto (T : Z) (st : Base64.state) : Prop :=
  0 <= T /\ Base64.quad_pos st = T mod 4
  /\ Z.of_nat (List.length (Base64.out st)) = 3 * T / 4
  /\ Base64.pads st = 0
  /\ bytes (Base64.out st).

(** [f] is exactly the rational [num / den], for [den > 0]. *)
Definition is_quotient (f : spec_float) (num den : Z) : bool :=
  match f with
  | S754_zero _ => num =? 0
  | S754_finite s m e =>
      let v := if s then Zneg m else Zpos m in
      if 0 <=? e then v * 2 ^ e * den =? num
      else v * den =? num * 2 ^ (- e)
  | _ => false
  end.

(** A rounding record with nothing shifted out yet. *)
Definition exact_record (m : Z) : shr_record := Build_shr_record m false false.

(** The platform can convert the instant [t]: it fits [time_t] and the C
    library's calendar conversion accepts it. *)
Definition supports (P : platform) (t : Z) : Prop :=
  time_t_min P <= t < - time_t_min P /\ gmtime_min P <= t <= gmtime_max P.

(** The part of [str(d)] down to the seconds: nineteen characters for a
    year of four digits. *)
Definition seconds_chars (d : datetime) : list ascii :=
  (List.concat
     [zero_padded 4 (year d); ["-"%char];
      zero_padded 2 (month d); ["-"%char];
      zero_padded 2 (day d); [" "%char];
      zero_padded 2 (hour d); [":"%char];
      zero_padded 2 (minute d)]
   ++ ":"%char :: zero_padded 2 (second d))%list.

(** Decidable checks on the zero-padded fields, run over all their values. *)
Definition two_digits_check (n : Z) : bool :=
  match zero_padded 2 n with
  | [a; b] => is_digit a && is_digit b
  | _ => false
  end.

Definition millis_digits_check (m : Z) : bool :=
  match zero_padded 3 m with
  | [a; b; c] =>
      is_digit a && is_digit b && is_digit c
      && if list_eq_dec ascii_dec (zero_padded 6 (m * 1000))
              [a; b; c; "0"%char; "0"%char; "0"%char]
         then true else false
  | _ => false
  end.

(** The number a text of binary digits denotes. *)
Definition bin_value (l : list ascii) : Z :=
  fold_left (fun acc c => 2 * acc + (code c - 48)) l 0.

(** The names under which [guess_timestamp_format] can show a result. *)
Definition shown_names : list string :=
  ["Windows FileTime"; "DateTime ticks"; "Webkit"; "Epoch microseconds";
   "Epoch milliseconds"; "Epoch seconds"].

(** ** Console layout (lines 6 and 45-55)

    [f'{line:^{width}}']: a line shorter than the width gets half of the
    missing columns, rounded down, on its left and the rest on its right.
    One element of the text is one column, which holds for ASCII text. *)
Definition CONSOLE_WIDTH : nat := 70.

Definition spaces (n : nat) : list ascii := repeat " "%char n.

Definition center (l : list ascii) (width : nat) : list ascii :=
  let padding := (width - List.length l)%nat in
  (spaces (padding / 2) ++ l ++ spaces (padding - padding / 2))%list.

Definition center_on_console (console_line : string) : string :=
  text (center (chars console_line) CONSOLE_WIDTH).

(** [" " * offset] is empty for a negative offset. *)
Definition center_with_offset (console_line : string) (offset : Z) : string :=
  text (center (chars console_line ++ spaces (Z.to_nat offset)) CONSOLE_WIDTH).


(** A binary digit. *)
Definition is_bit (c : ascii) : Prop := c = "0"%char \/ c = "1"%char.

(** The text does not end with a newline. *)
Definition no_final_newline (s : string) : Prop :=
  match List.rev (chars s) with
  | c :: _ => code c <> 10
  | [] => True
  end.

(** ** The classification table as the specification words it

    Seven rules; six carry an inclusive range and are scanned in the order of
    the table, the seventh is the fallback.  [rule_decoder] names the decoder
    the script defines for each rule. *)

Inductive encoding_rule : Type :=
| DateTimeTicks
| WindowsFileTime
| WebKit
| EpochMicroseconds
| EpochTenMicroseconds
| EpochMilliseconds
| EpochSeconds.

Definition classification_table : list (encoding_rule * Z * Z) :=
  [ (DateTimeTicks, 635556672000000000, 638712864000000000);
    (WindowsFileTime, 130645440000000000, 133801632000000000);
    (WebKit, 13064544000000000, 13380163200000000);
    (EpochMicroseconds, 1400070400000000, 1735689600000000);
    (EpochTenMicroseconds, 140007040000000, 173568960000000);
    (EpochMilliseconds, 1000070400000, 1735689600000) ].

Definition in_range (lo hi c : Z) : bool := (lo <=? c) && (c <=? hi).

Fixpoint first_match (rows : list (encoding_rule * Z * Z)) (c : Z)
  : encoding_rule :=
  match rows with
  | [] => EpochSeconds
  | (r, lo, hi) :: rest => if in_range lo hi c then r else first_match rest c
  end.

Definition classify (c : Z) : encoding_rule :=
  first_match classification_table c.

Definition rule_decoder (P : platform) (r : encoding_rule)
  : Z -> result decoded :=
  match r with
  | DateTimeTicks => decode_datetime_ticks P
  | WindowsFileTime => decode_windows_filetime P
  | WebKit => decode_webkit P
  | EpochMicroseconds => decode_epoch_microseconds P
  | EpochTenMicroseconds => decode_epoch_ten_microseconds P
  | EpochMilliseconds => decode_epoch_milliseconds
  | EpochSeconds => decode_epoch_seconds P
  end.

(** * Properties *)

Section Extraction.

Lemma shiftr_upper_bits_bound value total n :
  0 <= value < 2 ^ total -> 0 <= n <= total ->
  0 <= Z.shiftr value (total - n) < 2 ^ n.
Proof.
  intros [Hlo Hhi] [Hn Hle].
  rewrite Z.shiftr_div_pow2 by lia.
  assert (Hp : 0 < 2 ^ (total - n)) by (apply Z.pow_pos_nonneg; lia).
  split.
  - apply Z.div_pos; lia.
  - apply Z.div_lt_upper_bound; [exact Hp|].
    rewrite <- Z.pow_add_r by lia.
    replace (total - n + n) with total by lia.
    exact Hhi.
Qed.

(** C1. For a value below [2^total_bits] and [1 <= ts_bits <= total_bits],
    extraction returns [(value >> (total_bits - ts_bits)) + epoch_offset],
    and that result lies in [[epoch_offset, epoch_offset + 2^ts_bits)]. *)
Theorem extract_upper_bits_range value total_bits nts epoch_offset :
  0 <= value < 2 ^ total_bits ->
  1 <= nts <= total_bits ->
  epoch_adjusted_ts value total_bits nts epoch_offset
    = Ok (Z.shiftr value (total_bits - nts) + epoch_offset)
  /\ epoch_offset <= Z.shiftr value (total_bits - nts) + epoch_offset
       < epoch_offset + 2 ^ nts.
Proof.
  intros Hv Hn.
  split.
  - unfold epoch_adjusted_ts, ts_bits, py_rshift.
    destruct (Z.ltb_spec (total_bits - nts) 0) as [H|H]; [lia|reflexivity].
  - pose proof (shiftr_upper_bits_bound value total_bits nts Hv) as Hb.
    lia.
Qed.

End Extraction.

Section Classification.

Variable P : platform.

Ltac range_cases :=
  repeat match goal with
  | |- context [Z.leb ?a ?b] =>
      destruct (Z.leb_spec a b); cbn [andb]; try lia
  end; try reflexivity.

(** Outside the ten-microsecond range the conditional chain and the table
    scan agree, although the chain tests Windows FileTime before DateTime
    ticks: the six ranges are pairwise disjoint. *)
Lemma guess_follows_table_elsewhere c :
  classify c <> EpochTenMicroseconds ->
  guess_timestamp_format P c = rule_decoder P (classify c) c.
Proof.
  unfold classify, classification_table, first_match, in_range,
    guess_timestamp_format.
  range_cases; cbn [rule_decoder]; intros Hne; try reflexivity;
    exfalso; apply Hne; reflexivity.
Qed.

(** Candidates that no range contains fall to the seconds decoder. *)
Lemma guess_default_seconds c :
  classify c = EpochSeconds ->
  guess_timestamp_format P c = decode_epoch_seconds P c.
Proof.
  intros H. rewrite guess_follows_table_elsewhere by (rewrite H; discriminate).
  rewrite H. reflexivity.
Qed.

(** In the ten-microsecond range the chain calls the microseconds decoder. *)
Lemma guess_ten_microsecond_branch c :
  140007040000000 <= c <= 173568960000000 ->
  guess_timestamp_format P c = decode_epoch_microseconds P c.
Proof.
  intros Hc. unfold guess_timestamp_format. range_cases.
Qed.

Lemma classify_ten_microsecond_range c :
  140007040000000 <= c <= 173568960000000 ->
  classify c = EpochTenMicroseconds.
Proof.
  intros Hc. unfold classify, classification_table, first_match, in_range.
  range_cases.
Qed.

Lemma decode_epoch_microseconds_name c v name :
  decode_epoch_microseconds P c = Ok (v, name) -> name = "Epoch microseconds".
Proof.
  unfold decode_epoch_microseconds, bind.
  destruct (py_float c); [|discriminate].
  destruct (utcfromtimestamp P _); [|discriminate].
  intros H. injection H as _ H. symmetry. exact H.
Qed.

Lemma decode_epoch_ten_microseconds_name c v name :
  decode_epoch_ten_microseconds P c = Ok (v, name) ->
  name = "Epoch ten-microsecond increments".
Proof.
  unfold decode_epoch_ten_microseconds, bind.
  destruct (py_float c); [|discriminate].
  destruct (utcfromtimestamp P _); [|discriminate].
  intros H. injection H as _ H. symmetry. exact H.
Qed.

(** C3. Every candidate of the inclusive range
    140007040000000-173568960000000 is the table's ten-microsecond rule, yet
    the script decodes it with the microseconds decoder: whenever a result is
    produced it is named "Epoch microseconds", never
    "Epoch ten-microsecond increments". *)
Theorem ten_microsecond_range_uses_microseconds_decoder c :
  140007040000000 <= c <= 173568960000000 ->
  classify c = EpochTenMicroseconds
  /\ guess_timestamp_format P c = decode_epoch_microseconds P c
  /\ forall v name,
       guess_timestamp_format P c = Ok (v, name) ->
       name = "Epoch microseconds"
       /\ rule_decoder P EpochTenMicroseconds c <> Ok (v, name).
Proof.
  intros H. split; [|split].
  - exact (classify_ten_microsecond_range c H).
  - exact (guess_ten_microsecond_branch c H).
  - intros v name Hg.
    rewrite guess_ten_microsecond_branch in Hg by exact H.
    pose proof (decode_epoch_microseconds_name c v name Hg) as Hn.
    split; [exact Hn|].
    cbn [rule_decoder]. intros Ht.
    apply decode_epoch_ten_microseconds_name in Ht.
    rewrite Hn in Ht. discriminate Ht.
Qed.

End Classification.

(** C1, at a Twitter identifier. *)
Lemma extract_upper_bits_range_witness :
  epoch_adjusted_ts 1186101019500929024 64 42 1288834974657
    = Ok (Z.shiftr 1186101019500929024 (64 - 42) + 1288834974657)
  /\ 1288834974657
       <= Z.shiftr 1186101019500929024 (64 - 42) + 1288834974657
       < 1288834974657 + 2 ^ 42.
Proof.
  apply (extract_upper_bits_range 1186101019500929024 64 42 1288834974657).
  - split; [discriminate | reflexivity].
  - split; discriminate.
Defined.

(** C3, at the lower bound of the range on 64-bit Linux: the script shows
    1974-06-09 10:50:40 under the name "Epoch microseconds". *)
Lemma ten_microsecond_range_uses_microseconds_decoder_witness :
  classify 140007040000000 = EpochTenMicroseconds
  /\ guess_timestamp_format linux64 140007040000000
       = decode_epoch_microseconds linux64 140007040000000
  /\ forall v name,
       guess_timestamp_format linux64 140007040000000 = Ok (v, name) ->
       name = "Epoch microseconds"
       /\ rule_decoder linux64 EpochTenMicroseconds 140007040000000
            <> Ok (v, name).
Proof.
  apply (ten_microsecond_range_uses_microseconds_decoder linux64
           140007040000000).
  split; discriminate.
Defined.

(** The two decodings of 140007040000000 side by side. *)
Lemma ten_microsecond_lower_bound_values :
  guess_timestamp_format linux64 140007040000000
    = Ok (Str "1974-06-09 10:50:40", "Epoch microseconds")
  /\ decode_epoch_ten_microseconds linux64 140007040000000
    = Ok (Str "2014-05-14 12:26:40", "Epoch ten-microsecond increments").
Proof. split; vm_compute; reflexivity. Qed.

(** C2. At both bounds of the ten-microsecond range the table selects that
    rule, and the script applies the neighbouring microseconds rule
    instead. *)
Theorem ten_microsecond_bounds_decoded_by_adjacent_rule :
  classify 140007040000000 = EpochTenMicroseconds
  /\ classify 173568960000000 = EpochTenMicroseconds
  /\ guess_timestamp_format linux64 140007040000000
       = rule_decoder linux64 EpochMicroseconds 140007040000000
  /\ guess_timestamp_format linux64 173568960000000
       = rule_decoder linux64 EpochMicroseconds 173568960000000
  /\ guess_timestamp_format linux64 140007040000000
       <> rule_decoder linux64 (classify 140007040000000) 140007040000000
  /\ guess_timestamp_format linux64 173568960000000
       <> rule_decoder linux64 (classify 173568960000000) 173568960000000.
Proof.
  repeat split; try (vm_compute; reflexivity);
    vm_compute; intros H; discriminate H.
Qed.

Section Script.

Variable P : platform.

(** A float with no fractional part converts to whole seconds, subject only
    to the range of [time_t]. *)
Lemma timeval_of_float_whole f t :
  F64.is_finite f = true ->
  F64.trunc f = t ->
  F64.round_half_even (F64.mul (F64.frac f) (F64.of_Z 1000000)) = 0 ->
  timeval_of_float P f =
    if (time_t_min P <=? t) && (t <? - time_t_min P) then Ok (t, 0)
    else Raise (OverflowError "timestamp out of range for platform time_t").
Proof.
  intros Hfin Ht Hr. unfold timeval_of_float.
  rewrite Ht, Hr.
  destruct f; try discriminate Hfin; reflexivity.
Qed.

Lemma run_candidate a n o c :
  configure a = Some (n, o) ->
  candidate a n o = Ok c ->
  run P a = show P c.
Proof.
  intros Hc Hk. unfold run. rewrite Hc, Hk. reflexivity.
Qed.

Lemma run_candidate_raise a n o e :
  configure a = Some (n, o) ->
  candidate a n o = Raise e ->
  run P a = Uncaught e.
Proof.
  intros Hc Hk. unfold run. rewrite Hc, Hk. reflexivity.
Qed.

(** The seconds decoder on 2830650578623 fails on every platform: the year
    would be 91669. *)
Lemma seconds_2830650578623_fails :
  exists e, decode_epoch_seconds P 2830650578623 = Raise e.
Proof.
  unfold decode_epoch_seconds.
  replace (py_float 2830650578623) with (Ok (F64.of_Z 2830650578623))
    by (vm_compute; reflexivity).
  cbn [bind]. unfold utcfromtimestamp.
  rewrite (timeval_of_float_whole _ 2830650578623)
    by (vm_compute; reflexivity).
  destruct (andb _ _); cbn [bind fst snd]; [|eexists; reflexivity].
  unfold datetime_from_timet_and_us.
  destruct (andb _ _); [|eexists; reflexivity].
  replace (new_datetime _)
    with (@Raise datetime (ValueError "year is out of range"))
    by (vm_compute; reflexivity).
  eexists; reflexivity.
Qed.

(** C9, as the script behaves. An identifier whose upper 42 bits are
    1541815603966 gives the candidate 2830650578623 under the Twitter scheme;
    that candidate lies in no listed range, so the seconds fallback decodes
    it, and that decoding fails on every platform. *)
Theorem twitter_scenario_falls_to_seconds value :
  Z.shiftr value 22 = 1541815603966 ->
  epoch_adjusted_ts value 64 42 1288834974657 = Ok 2830650578623
  /\ classify 2830650578623 = EpochSeconds
  /\ guess_timestamp_format P 2830650578623
       = decode_epoch_seconds P 2830650578623
  /\ exists e, guess_timestamp_format P 2830650578623 = Raise e.
Proof.
  intros Hs.
  assert (Hg : guess_timestamp_format P 2830650578623
               = decode_epoch_seconds P 2830650578623)
    by (apply guess_default_seconds; vm_compute; reflexivity).
  split; [|split; [|split]].
  - unfold epoch_adjusted_ts, ts_bits, py_rshift.
    change (64 - 42) with 22. change (22 <? 0) with false.
    cbn [bind]. rewrite Hs. reflexivity.
  - vm_compute. reflexivity.
  - exact Hg.
  - rewrite Hg. exact seconds_2830650578623_fails.
Qed.

(** C8, as the script behaves. Decoding has no hint: two runs that reach the
    same candidate end the same way, whatever scheme, width and offset led
    there, and outside the ten-microsecond range the decoder is the one the
    range table selects. *)
Theorem decode_depends_on_candidate_only a1 a2 n1 o1 n2 o2 c :
  configure a1 = Some (n1, o1) ->
  configure a2 = Some (n2, o2) ->
  candidate a1 n1 o1 = Ok c ->
  candidate a2 n2 o2 = Ok c ->
  run P a1 = run P a2
  /\ (classify c <> EpochTenMicroseconds ->
      guess_timestamp_format P c = rule_decoder P (classify c) c).
Proof.
  intros H1 H2 K1 K2. split.
  - rewrite (run_candidate a1 n1 o1 c H1 K1).
    rewrite (run_candidate a2 n2 o2 c H2 K2). reflexivity.
  - apply guess_follows_table_elsewhere.
Qed.

End Script.

(** C9: the candidate of the scenario is outside the milliseconds range and
    is not decoded as milliseconds. *)
Lemma twitter_scenario_not_milliseconds :
  in_range 1000070400000 1735689600000 2830650578623 = false
  /\ classify 2830650578623 <> EpochMilliseconds
  /\ guess_timestamp_format linux64 2830650578623
       = Raise (ValueError "year is out of range")
  /\ guess_timestamp_format linux64 2830650578623
       <> rule_decoder linux64 EpochMilliseconds 2830650578623.
Proof.
  repeat split; try (vm_compute; reflexivity);
    vm_compute; intros H; discriminate H.
Qed.

Lemma twitter_scenario_falls_to_seconds_witness :
  epoch_adjusted_ts 6466843354977009664 64 42 1288834974657
    = Ok 2830650578623
  /\ classify 2830650578623 = EpochSeconds
  /\ guess_timestamp_format linux64 2830650578623
       = decode_epoch_seconds linux64 2830650578623
  /\ exists e, guess_timestamp_format linux64 2830650578623 = Raise e.
Proof.
  apply (twitter_scenario_falls_to_seconds linux64 6466843354977009664).
  vm_compute. reflexivity.
Defined.

(** C8: with the hint "Epoch seconds" on a candidate of the milliseconds
    range, the script still decodes milliseconds. *)
Lemma hint_is_not_applied :
  guess_timestamp_format linux64 1500000000000
    = Ok (Str "2017-07-14 02:40:00", "Epoch milliseconds")
  /\ guess_timestamp_format linux64 1500000000000
       <> rule_decoder linux64 EpochSeconds 1500000000000.
Proof.
  split; [vm_compute; reflexivity|].
  vm_compute. intros H. discriminate H.
Qed.

Lemma decode_depends_on_candidate_only_witness :
  run linux64 (mk_args "6291456000000000000" manual (Some 42) 0)
    = run linux64 (mk_args "885837659167" manual (Some 64) 614162340833)
  /\ (classify 1500000000000 <> EpochTenMicroseconds ->
      guess_timestamp_format linux64 1500000000000
        = rule_decoder linux64 (classify 1500000000000) 1500000000000).
Proof.
  apply (decode_depends_on_candidate_only linux64
           (mk_args "6291456000000000000" manual (Some 42) 0)
           (mk_args "885837659167" manual (Some 64) 614162340833)
           42 0 64 614162340833 1500000000000);
    vm_compute; reflexivity.
Defined.

Section Widths.

Variable P : platform.

(** The total width is 64 or eight times a byte count: never negative. *)
Lemma snowflake_int_length_nonneg s v total :
  snowflake_int s = Ok (v, total) -> 0 <= total.
Proof.
  unfold snowflake_int. destruct (py_int s).
  - intros H. injection H as _ H. lia.
  - unfold bind. destruct (Base64.urlsafe_b64decode _); [|discriminate].
    intros H. injection H as _ H. lia.
Qed.

Lemma format_bin_ok x width :
  0 <= width -> exists s, format_bin x width = Ok s.
Proof.
  intros H. unfold format_bin.
  destruct (Z.ltb_spec width 0); [lia|]. eexists. reflexivity.
Qed.

Lemma configure_requested a :
  configure a =
    match requested_ts_bits a with
    | None => None
    | Some n =>
        match arg_type a with
        | twitter => Some (n, 1288834974657)
        | linkedin => Some (n, 0)
        | discord => Some (n, 1420070400000)
        | manual => if n =? 0 then None else Some (n, arg_offset a)
        end
    end.
Proof.
  unfold configure, requested_ts_bits.
  destruct (arg_type a); reflexivity.
Qed.

(** C7, as the script behaves. With an identifier that normalises, a width
    that is missing, zero, negative or larger than the total width never
    reaches a decoded result, and never through a width check of its own:
    a missing or zero width (manual mode only) stops at the manual-mode
    message; a width above the total width raises from the negative shift
    count; a negative width passes the shift and raises when the extracted
    bits are formatted. *)
Theorem invalid_width_outcomes a v total :
  snowflake_int (arg_snowflake a) = Ok (v, total) ->
  (requested_ts_bits a = None
   \/ exists n, requested_ts_bits a = Some n
                /\ (total < n \/ n <= 0 \/ total <= 0)) ->
  match requested_ts_bits a with
  | None => run P a = Exited "In manual mode, --ts_bits is required."
  | Some n =>
      if n =? 0 then
        arg_type a = manual
        /\ run P a = Exited "In manual mode, --ts_bits is required."
      else if total <? n then
        run P a = Uncaught (ValueError "negative shift count")
      else
        n < 0
        /\ ts_bits v total n = Ok (Z.shiftr v (total - n))
        /\ run P a = Uncaught (ValueError "Invalid format specifier")
  end.
Proof.
  intros Hsf Hinv.
  pose proof (snowflake_int_length_nonneg _ _ _ Hsf) as Htot.
  pose proof (configure_requested a) as Hcfg.
  destruct (requested_ts_bits a) as [n|] eqn:Hreq.
  - destruct Hinv as [Hinv|[n' [Hn' Hinv]]]; [discriminate|].
    injection Hn' as <-.
    destruct (Z.eqb_spec n 0) as [->|Hnz].
    + assert (Hm : arg_type a = manual).
      { unfold requested_ts_bits in Hreq.
        destruct (arg_type a); try discriminate Hreq; reflexivity. }
      split; [exact Hm|].
      rewrite Hm in Hcfg. cbn in Hcfg. unfold run. rewrite Hcfg. reflexivity.
    + assert (Hc : exists o, configure a = Some (n, o)).
      { rewrite Hcfg. destruct (Z.eqb_spec n 0); [contradiction|].
        destruct (arg_type a); eexists; reflexivity. }
      destruct Hc as [o Hc].
      destruct (format_bin_ok v total Htot) as [s1 Hf1].
      destruct (Z.ltb_spec total n) as [Hlt|Hge].
      * apply (run_candidate_raise P a n o _ Hc).
        unfold candidate. rewrite Hsf. cbn [bind]. rewrite Hf1. cbn [bind].
        unfold ts_bits, py_rshift.
        destruct (Z.ltb_spec (total - n) 0); [reflexivity|lia].
      * assert (Hneg : n < 0) by lia.
        assert (Hts : ts_bits v total n = Ok (Z.shiftr v (total - n))).
        { unfold ts_bits, py_rshift.
          destruct (Z.ltb_spec (total - n) 0); [lia|reflexivity]. }
        split; [exact Hneg|]. split; [exact Hts|].
        apply (run_candidate_raise P a n o _ Hc).
        unfold candidate. rewrite Hsf. cbn [bind]. rewrite Hf1. cbn [bind].
        rewrite Hts. cbn [bind]. unfold format_bin.
        destruct (Z.ltb_spec n 0); [reflexivity|lia].
  - unfold run. rewrite Hcfg. reflexivity.
Qed.

(** C5, as the script behaves. Only [OSError] is caught: with a candidate of
    [2^64 - 1], beyond every [time_t] of at most 64 bits, the seconds decoder
    raises [OverflowError] and the run ends in that exception. *)
Theorem overflow_error_is_not_caught :
  - 2 ^ 64 <= time_t_min P ->
  run P (mk_args "18446744073709551615" manual (Some 64) 0)
    = Uncaught (OverflowError "timestamp out of range for platform time_t").
Proof.
  intros Ht.
  rewrite (run_candidate P _ 64 0 18446744073709551615)
    by (vm_compute; reflexivity).
  unfold show.
  rewrite guess_default_seconds by (vm_compute; reflexivity).
  unfold decode_epoch_seconds.
  replace (py_float 18446744073709551615)
    with (Ok (F64.of_Z 18446744073709551615)) by (vm_compute; reflexivity).
  cbn [bind]. unfold utcfromtimestamp.
  rewrite (timeval_of_float_whole P _ 18446744073709551616)
    by (vm_compute; reflexivity).
  destruct (Z.ltb_spec 18446744073709551616 (- time_t_min P)) as [H|H].
  - change (2 ^ 64) with 18446744073709551616 in Ht. lia.
  - rewrite andb_false_r. reflexivity.
Qed.

End Widths.

(** C7: a negative width is not rejected by the extraction, and a width
    above the total width ends in Python's own error for the shift. *)
Lemma negative_width_not_rejected :
  epoch_adjusted_ts 1 64 (-5) 0 = Ok 0
  /\ run linux64 (mk_args "1" manual (Some (-5)) 0)
       = Uncaught (ValueError "Invalid format specifier")
  /\ run linux64 (mk_args "AAAA" twitter None 0)
       = Uncaught (ValueError "negative shift count").
Proof. repeat split; vm_compute; reflexivity. Qed.

Lemma invalid_width_outcomes_witness :
  match requested_ts_bits (mk_args "AAAA" twitter None 0) with
  | None =>
      run linux64 (mk_args "AAAA" twitter None 0)
        = Exited "In manual mode, --ts_bits is required."
  | Some n =>
      if n =? 0 then
        arg_type (mk_args "AAAA" twitter None 0) = manual
        /\ run linux64 (mk_args "AAAA" twitter None 0)
             = Exited "In manual mode, --ts_bits is required."
      else if 24 <? n then
        run linux64 (mk_args "AAAA" twitter None 0)
          = Uncaught (ValueError "negative shift count")
      else
        n < 0
        /\ ts_bits 0 24 n = Ok (Z.shiftr 0 (24 - n))
        /\ run linux64 (mk_args "AAAA" twitter None 0)
             = Uncaught (ValueError "Invalid format specifier")
  end.
Proof.
  apply (invalid_width_outcomes linux64 (mk_args "AAAA" twitter None 0) 0 24).
  - vm_compute. reflexivity.
  - right. exists 42. split; [reflexivity|]. left. reflexivity.
Defined.

Lemma overflow_error_is_not_caught_witness :
  run linux64 (mk_args "18446744073709551615" manual (Some 64) 0)
    = Uncaught (OverflowError "timestamp out of range for platform time_t").
Proof.
  apply (overflow_error_is_not_caught linux64).
  vm_compute. intros H. discriminate H.
Defined.

Section IntText.

Lemma chars_text l : chars (text l) = l.
Proof. apply list_ascii_of_string_of_list_ascii. Qed.

Lemma text_chars s : text (chars s) = s.
Proof. apply string_of_list_ascii_of_string. Qed.

Lemma chars_app s1 s2 : chars (s1 ++ s2) = (chars s1 ++ chars s2)%list.
Proof.
  induction s1 as [|c s1 IH]; [reflexivity|].
  cbn. unfold chars in IH. rewrite IH. reflexivity.
Qed.

Lemma int_digits_uint d acc :
  int_digits acc (chars (DecimalString.NilEmpty.string_of_uint d))
    = Some (uint_value d acc).
Proof.
  revert acc. induction d; intros acc; [reflexivity| ..];
    cbn [DecimalString.NilEmpty.string_of_uint chars list_ascii_of_string
         int_digits uint_value];
    match goal with
    | |- (if is_digit ?c then _ else _) = _ =>
        change (is_digit c) with true;
        let v := eval vm_compute in (digit_value c) in
        change (digit_value c) with v
    end; cbv iota; apply IHd.
Qed.

Lemma uint_value_pos d acc :
  uint_value d (Zpos acc) = Zpos (Pos.of_uint_acc d acc).
Proof.
  revert acc. induction d; intros acc; cbn [uint_value Pos.of_uint_acc];
    [reflexivity| ..];
    match goal with
    | |- uint_value _ ?z = Zpos (Pos.of_uint_acc _ ?p) =>
        replace z with (Zpos p) by lia
    end; apply IHd.
Qed.

Lemma uint_value_zero d : uint_value d 0 = Z.of_N (Pos.of_uint d).
Proof.
  induction d; cbn [uint_value Pos.of_uint]; [reflexivity|exact IHd| ..];
    cbn [Z.mul Z.add]; rewrite uint_value_pos; reflexivity.
Qed.

Lemma string_of_uint_head d :
  d <> Decimal.Nil ->
  exists c l, chars (DecimalString.NilEmpty.string_of_uint d) = c :: l
              /\ is_digit c = true.
Proof.
  destruct d; intros H; [contradiction| ..];
    eexists; eexists; (split; [reflexivity|reflexivity]).
Qed.

Lemma is_digit_not_space c : is_digit c = true -> is_space c = false.
Proof.
  unfold is_digit, is_space. intros H.
  apply andb_true_iff in H. destruct H as [H1 H2].
  apply Z.leb_le in H1. apply Z.leb_le in H2.
  destruct (Z.leb_spec 9 (code c)), (Z.leb_spec (code c) 13),
    (Z.leb_spec 28 (code c)), (Z.leb_spec (code c) 32); cbn; try reflexivity; lia.
Qed.

Lemma is_digit_not_sign c :
  is_digit c = true -> (code c =? 43) = false /\ (code c =? 45) = false.
Proof.
  unfold is_digit. intros H.
  apply andb_true_iff in H. destruct H as [H1 H2].
  apply Z.leb_le in H1. apply Z.leb_le in H2.
  split; apply Z.eqb_neq; lia.
Qed.

Lemma py_int_digits l c l' n :
  l = c :: l' -> is_digit c = true -> int_digits 0 l = Some n ->
  py_int (text l) = Ok n.
Proof.
  intros -> Hd Hn. unfold py_int. rewrite chars_text.
  cbn [skip_spaces]. rewrite (is_digit_not_space c Hd).
  destruct (is_digit_not_sign c Hd) as [-> ->].
  rewrite Hd, Hn. reflexivity.
Qed.

(** [int] reads back what [str] wrote. *)
Lemma py_int_str_nonneg n : 0 <= n -> py_int (py_str_int n) = Ok n.
Proof.
  intros Hn. unfold py_str_int.
  destruct n as [|p|p]; [vm_compute; reflexivity| |lia].
  cbn [Z.to_int DecimalString.NilZero.string_of_int].
  pose proof (DecimalPos.Unsigned.to_uint_nonnil p) as Hnil.
  assert (Hs : DecimalString.NilZero.string_of_uint (Pos.to_uint p)
               = DecimalString.NilEmpty.string_of_uint (Pos.to_uint p)).
  { unfold DecimalString.NilZero.string_of_uint.
    destruct (Pos.to_uint p); [contradiction|reflexivity..]. }
  rewrite Hs.
  destruct (string_of_uint_head _ Hnil) as [c [l [Hl Hc]]].
  rewrite <- (text_chars (DecimalString.NilEmpty.string_of_uint _)).
  apply (py_int_digits _ c l); [exact Hl|exact Hc|].
  rewrite int_digits_uint, uint_value_zero.
  rewrite DecimalPos.Unsigned.of_to. reflexivity.
Qed.

End IntText.


Section Base64Facts.

Import Base64.

Lemma below_In n z : 0 <= z < Z.of_nat n -> In z (below n).
Proof.
  intros H. unfold below. apply in_map_iff. exists (Z.to_nat z).
  split; [lia|]. apply in_seq. lia.
Qed.

Lemma for_bytes (p : Z -> bool) :
  forallb p (below 256) = true -> forall b, 0 <= b < 256 -> p b = true.
Proof.
  intros H b Hb. rewrite forallb_forall in H. apply H. apply below_In. lia.
Qed.

Lemma for_byte_pairs (p : Z -> Z -> bool) :
  forallb (fun a => forallb (p a) (below 256)) (below 256) = true ->
  forall a b, 0 <= a < 256 -> 0 <= b < 256 -> p a b = true.
Proof.
  intros H a b Ha Hb.
  pose proof (for_bytes _ H a Ha) as H1. cbv beta in H1.
  exact (for_bytes _ H1 b Hb).
Qed.

Lemma for_sextets (p : Z -> bool) :
  forallb p (below 64) = true -> forall v, 0 <= v < 64 -> p v = true.
Proof.
  intros H b Hb. rewrite forallb_forall in H. apply H. apply below_In. lia.
Qed.

(** The decoding table inverts the URL-safe alphabet, through the
    translation to the standard one. *)
Lemma table_urlsafe_char v :
  0 <= v < 64 ->
  table_a2b (urlsafe_translate (urlsafe_char v)) = Some v
  /\ (code (urlsafe_translate (urlsafe_char v)) =? PAD) = false
  /\ is_ascii (urlsafe_char v) = true.
Proof.
  intros Hv.
  pose proof (for_sextets
    (fun v => match table_a2b (urlsafe_translate (urlsafe_char v)) with
              | Some w => (w =? v)
                          && negb (code (urlsafe_translate (urlsafe_char v)) =? PAD)
                          && is_ascii (urlsafe_char v)
              | None => false
              end) eq_refl v Hv) as H.
  cbv beta in H.
  destruct (table_a2b _) as [w|]; [|discriminate].
  apply andb_true_iff in H. destruct H as [H H3].
  apply andb_true_iff in H. destruct H as [H1 H2].
  apply Z.eqb_eq in H1. subst w.
  apply negb_true_iff in H2. auto.
Qed.


Lemma bit_facts_all a b :
  0 <= a < 256 -> 0 <= b < 256 -> bit_facts a b = true.
Proof.
  apply (for_byte_pairs bit_facts). vm_compute. reflexivity.
Qed.

Lemma in64_spec v : in64 v = true -> 0 <= v < 64.
Proof.
  unfold in64. intros H. apply andb_true_iff in H. destruct H as [H1 H2].
  apply Z.leb_le in H1. apply Z.ltb_lt in H2. lia.
Qed.

(** What the shifts and masks of encoder and decoder do to a pair of
    adjacent bytes. *)
Lemma byte_pair_facts a b :
  0 <= a < 256 -> 0 <= b < 256 ->
  let s1 := Z.lor (Z.shiftl (Z.land a 3) 4) (Z.shiftr b 4) in
  let s2 := Z.lor (Z.shiftl (Z.land a 15) 2) (Z.shiftr b 6) in
  (0 <= Z.shiftr a 2 < 64 /\ 0 <= s1 < 64 /\ 0 <= s2 < 64
   /\ 0 <= Z.land b 63 < 64
   /\ 0 <= Z.shiftl (Z.land a 3) 4 < 64
   /\ 0 <= Z.shiftl (Z.land a 15) 2 < 64)
  /\ byte (Z.lor (Z.shiftl (Z.shiftr a 2) 2) (Z.shiftr s1 4)) = a
  /\ byte (Z.lor (Z.shiftl (Z.shiftr a 2) 2)
                 (Z.shiftr (Z.shiftl (Z.land a 3) 4) 4)) = a
  /\ Z.land s1 15 = Z.shiftr b 4
  /\ Z.shiftr s2 2 = Z.land a 15
  /\ Z.shiftr (Z.shiftl (Z.land a 15) 2) 2 = Z.land a 15
  /\ byte (Z.lor (Z.shiftl (Z.shiftr a 4) 4) (Z.land a 15)) = a
  /\ Z.land s2 3 = Z.shiftr b 6
  /\ byte (Z.lor (Z.shiftl (Z.shiftr b 6) 6) (Z.land b 63)) = b.
Proof.
  intros Ha Hb s1 s2. pose proof (bit_facts_all a b Ha Hb) as F.
  unfold bit_facts in F. fold s1 s2 in F.
  repeat (apply andb_true_iff in F; destruct F as [F ?]).
  repeat match goal with
  | H : in64 _ = true |- _ => apply in64_spec in H
  | H : (_ =? _) = true |- _ => apply Z.eqb_eq in H
  end.
  repeat split; assumption || lia.
Qed.

Lemma scan_data c v st rest :
  table_a2b c = Some v -> (code c =? PAD) = false ->
  scan st (c :: rest) = scan (push st v) rest.
Proof. intros Ht Hp. cbn [scan]. rewrite Hp, Ht. reflexivity. Qed.

Lemma scan_urlsafe_char v st rest :
  0 <= v < 64 ->
  scan st (urlsafe_translate (urlsafe_char v) :: rest)
    = scan (push st v) rest.
Proof.
  intros Hv. destruct (table_urlsafe_char v Hv) as [Ht [Hp _]].
  exact (scan_data _ v st rest Ht Hp).
Qed.

Lemma push_0 lc p o v : push (mk_state 0 lc p o) v = mk_state 1 v 0 o.
Proof. reflexivity. Qed.

Lemma push_1 lc p o v :
  push (mk_state 1 lc p o) v
    = mk_state 2 (Z.land v 15) 0
        (byte (Z.lor (Z.shiftl lc 2) (Z.shiftr v 4)) :: o).
Proof. reflexivity. Qed.

Lemma push_2 lc p o v :
  push (mk_state 2 lc p o) v
    = mk_state 3 (Z.land v 3) 0
        (byte (Z.lor (Z.shiftl lc 4) (Z.shiftr v 2)) :: o).
Proof. reflexivity. Qed.

Lemma push_3 lc p o v :
  push (mk_state 3 lc p o) v
    = mk_state 0 0 0 (byte (Z.lor (Z.shiftl lc 6) v) :: o).
Proof. reflexivity. Qed.


(** A full group of three bytes decodes back to the three bytes. *)
Lemma scan_group b0 b1 b2 o rest :
  0 <= b0 < 256 -> 0 <= b1 < 256 -> 0 <= b2 < 256 ->
  scan (mk_state 0 0 0 o)
       (map urlsafe_translate (encode [b0; b1; b2]) ++ rest)
    = scan (mk_state 0 0 0 (b2 :: b1 :: b0 :: o)) rest.
Proof.
  intros H0 H1 H2.
  destruct (byte_pair_facts b0 b1 H0 H1)
    as ((S0 & S1 & _ & _ & _ & _) & E0 & _ & X1 & _ & _ & _ & _ & _).
  destruct (byte_pair_facts b1 b2 H1 H2)
    as ((_ & _ & S2 & S3 & _ & _) & _ & _ & _ & X2 & _ & X3 & X4 & X5).
  cbv zeta in *.
  cbn [encode map app].
  rewrite !scan_urlsafe_char by assumption.
  rewrite push_0, push_1, push_2, push_3.
  rewrite E0, X1, X2, X3, X4, X5. reflexivity.
Qed.

Lemma list3_ind (A : Type) (Q : list A -> Prop) :
  Q [] -> (forall a, Q [a]) -> (forall a b, Q [a; b]) ->
  (forall a b c l, Q l -> Q (a :: b :: c :: l)) ->
  forall l, Q l.
Proof.
  intros H0 H1 H2 H3.
  assert (H : forall n l, (List.length l <= n)%nat -> Q l).
  { induction n as [|n IH]; intros l Hl.
    - destruct l; [exact H0|cbn in Hl; lia].
    - destruct l as [|a [|b [|c l]]]; auto.
      apply H3. apply IH. cbn in Hl. lia. }
  intros l. exact (H (List.length l) l (le_n _)).
Qed.

(** Scanning an encoding followed by two more pad characters ends in a
    complete state holding the encoded bytes. *)
Lemma scan_encode bs :
  bytes bs -> forall o,
  let r := scan (mk_state 0 0 0 o)
                (map urlsafe_translate (encode bs ++ ["="%char; "="%char])) in
  (snd r = true \/ quad_pos (fst r) = 0)
  /\ out (fst r) = (List.rev bs ++ o)%list.
Proof.
  unfold bytes.
  induction bs as [|a|a b|a b c l IH] using list3_ind; intros Hb o.
  - cbn. auto.
  - inversion Hb as [|? ? Ha _]; subst.
    destruct (byte_pair_facts a a Ha Ha)
      as ((S0 & _ & _ & _ & S1 & _) & _ & E0 & _).
    cbn [encode map app].
    rewrite !scan_urlsafe_char by assumption.
    rewrite push_0, push_1, E0. cbn. auto.
  - inversion Hb as [|? ? Ha Hb']; subst.
    inversion Hb' as [|? ? Hb0 _]; subst.
    destruct (byte_pair_facts a b Ha Hb0)
      as ((S0 & S1 & _ & _ & _ & _) & E0 & _ & X1 & _).
    destruct (byte_pair_facts b b Hb0 Hb0)
      as ((_ & _ & _ & _ & _ & S2) & _ & _ & _ & _ & X2 & X3 & _).
    cbv zeta in *.
    cbn [encode map app].
    rewrite !scan_urlsafe_char by assumption.
    rewrite push_0, push_1, push_2, E0, X1, X2, X3. cbn. auto.
  - inversion Hb as [|? ? Ha Hb1]; subst.
    inversion Hb1 as [|? ? Hb0 Hb2]; subst.
    inversion Hb2 as [|? ? Hc Hl]; subst.
    change (encode (a :: b :: c :: l) ++ ["="%char; "="%char])%list
      with (encode [a; b; c] ++ (encode l ++ ["="%char; "="%char]))%list.
    rewrite map_app, scan_group by assumption.
    destruct (IH Hl (c :: b :: a :: o)) as [Hd Ho].
    split; [exact Hd|].
    rewrite Ho. cbn [List.rev]. rewrite <- !app_assoc. reflexivity.
Qed.

Lemma a2b_base64_encode bs :
  bytes bs ->
  a2b_base64 (map urlsafe_translate (encode bs ++ ["="%char; "="%char]))
    = Ok bs.
Proof.
  intros Hb. destruct (scan_encode bs Hb []) as [Hd Ho].
  unfold a2b_base64, init.
  destruct (scan _ _) as [st done]. cbn [fst snd] in Hd, Ho.
  rewrite Ho, app_nil_r, rev_involutive.
  destruct done; [reflexivity|].
  destruct Hd as [Hd|Hd]; [discriminate|]. rewrite Hd. reflexivity.
Qed.

Lemma encode_ascii bs : bytes bs -> forallb is_ascii (encode bs) = true.
Proof.
  unfold bytes.
  induction bs as [|a|a b|a b c l IH] using list3_ind; intros Hb.
  - reflexivity.
  - inversion Hb as [|? ? Ha _]; subst.
    destruct (byte_pair_facts a a Ha Ha) as ((S0 & _ & _ & _ & S1 & _) & _).
    cbn [encode forallb].
    rewrite (proj2 (proj2 (table_urlsafe_char _ S0))).
    rewrite (proj2 (proj2 (table_urlsafe_char _ S1))). reflexivity.
  - inversion Hb as [|? ? Ha Hb']; subst.
    inversion Hb' as [|? ? Hb0 _]; subst.
    destruct (byte_pair_facts a b Ha Hb0) as ((S0 & S1 & _) & _).
    destruct (byte_pair_facts b b Hb0 Hb0)
      as ((_ & _ & _ & _ & _ & S2) & _).
    cbv zeta in *. cbn [encode forallb].
    rewrite (proj2 (proj2 (table_urlsafe_char _ S0))).
    rewrite (proj2 (proj2 (table_urlsafe_char _ S1))).
    rewrite (proj2 (proj2 (table_urlsafe_char _ S2))). reflexivity.
  - inversion Hb as [|? ? Ha Hb1]; subst.
    inversion Hb1 as [|? ? Hb0 Hb2]; subst.
    inversion Hb2 as [|? ? Hc Hl]; subst.
    destruct (byte_pair_facts a b Ha Hb0) as ((S0 & S1 & _) & _).
    destruct (byte_pair_facts b c Hb0 Hc) as ((_ & _ & S2 & S3 & _) & _).
    cbv zeta in *. cbn [encode forallb].
    rewrite (proj2 (proj2 (table_urlsafe_char _ S0))).
    rewrite (proj2 (proj2 (table_urlsafe_char _ S1))).
    rewrite (proj2 (proj2 (table_urlsafe_char _ S2))).
    rewrite (proj2 (proj2 (table_urlsafe_char _ S3))).
    exact (IH Hl).
Qed.

(** Decoding inverts encoding, with or without the two extra pad
    characters the script appends. *)
Lemma urlsafe_b64decode_encode bs :
  bytes bs ->
  urlsafe_b64decode (urlsafe_b64encode bs ++ "==") = Ok bs.
Proof.
  intros Hb. unfold urlsafe_b64decode, urlsafe_b64encode.
  rewrite chars_app, chars_text.
  change (chars "==") with ["="%char; "="%char].
  rewrite forallb_app, (encode_ascii bs Hb). cbn [andb].
  change (forallb is_ascii ["="%char; "="%char]) with true. cbv iota.
  exact (a2b_base64_encode bs Hb).
Qed.

(** An encoding of a byte count that is not a multiple of three ends with
    the pad character. *)
Lemma encode_ends_with_pad bs :
  (List.length bs mod 3 <> 0)%nat ->
  exists l, encode bs = (l ++ ["="%char])%list.
Proof.
  induction bs as [|a|a b|a b c l IH] using list3_ind; intros Hn.
  - cbn in Hn. contradiction.
  - eexists [_; _; _]. reflexivity.
  - eexists [_; _; _]. reflexivity.
  - destruct IH as [l' Hl'].
    { cbn [List.length] in Hn.
      replace (S (S (S (List.length l)))) with (List.length l + 1 * 3)%nat in Hn
        by lia.
      rewrite Nat.Div0.mod_add in Hn. exact Hn. }
    cbn [encode]. rewrite Hl'.
    eexists (_ :: _ :: _ :: _ :: l'). reflexivity.
Qed.

Lemma int_digits_trailing_pad l acc :
  int_digits acc (l ++ ["="%char]) = None.
Proof.
  assert (H : forall n l acc, (List.length l <= n)%nat ->
                int_digits acc (l ++ ["="%char]) = None).
  { induction n as [|n IH]; intros l0 acc0 Hl.
    - destruct l0; [reflexivity|cbn in Hl; lia].
    - destruct l0 as [|c l1]; [reflexivity|].
      cbn [List.length] in Hl. cbn [app int_digits].
      destruct (is_digit c); [apply IH; lia|].
      destruct (code c =? 95).
      + destruct l1 as [|d l2]; [reflexivity|].
        cbn [app List.length] in *. destruct (is_digit d); [|reflexivity].
        apply IH. lia.
      + destruct (is_space c); [|reflexivity].
        rewrite forallb_app. cbn [forallb].
        change (is_space "="%char) with false.
        rewrite andb_false_r. reflexivity. }
  exact (H (List.length l) l acc (le_n _)).
Qed.

Lemma skip_spaces_trailing_pad l :
  exists l', skip_spaces (l ++ ["="%char]) = (l' ++ ["="%char])%list.
Proof.
  induction l as [|c l IH].
  - exists []. reflexivity.
  - cbn [app skip_spaces]. destruct (is_space c); [exact IH|].
    exists (c :: l). reflexivity.
Qed.

(** Text that ends with the pad character is never an integer literal. *)
Lemma py_int_trailing_pad l :
  py_int (text (l ++ ["="%char])) = Raise invalid_literal.
Proof.
  unfold py_int. rewrite chars_text.
  destruct (skip_spaces_trailing_pad l) as [l' ->].
  destruct l' as [|c l'']; [reflexivity|].
  cbn [app].
  destruct (code c =? 43).
  { destruct l'' as [|d l3]; [reflexivity|]. cbn [app].
    destruct (is_digit d); [|reflexivity].
    change (d :: (l3 ++ ["="%char]))%list with ((d :: l3) ++ ["="%char])%list.
    rewrite int_digits_trailing_pad. reflexivity. }
  destruct (code c =? 45).
  { destruct l'' as [|d l3]; [reflexivity|]. cbn [app].
    destruct (is_digit d); [|reflexivity].
    change (d :: (l3 ++ ["="%char]))%list with ((d :: l3) ++ ["="%char])%list.
    rewrite int_digits_trailing_pad. reflexivity. }
  destruct (is_digit c); [|reflexivity].
  change (c :: (l'' ++ ["="%char]))%list with ((c :: l'') ++ ["="%char])%list.
  rewrite int_digits_trailing_pad. reflexivity.
Qed.

Lemma from_bytes_big_bound bs :
  bytes bs -> 0 <= from_bytes_big bs < 2 ^ (8 * Z.of_nat (List.length bs)).
Proof.
  unfold from_bytes_big, bytes. intros Hb.
  assert (H : forall acc n, 0 <= acc < 2 ^ (8 * Z.of_nat n) ->
            0 <= fold_left (fun acc b => acc * 256 + b) bs acc
              < 2 ^ (8 * Z.of_nat (n + List.length bs))).
  { induction Hb as [|b bs Hb0 _ IH]; intros acc n Hacc.
    - cbn [fold_left List.length]. rewrite Nat.add_0_r. exact Hacc.
    - cbn [fold_left List.length].
      replace (n + S (List.length bs))%nat with (S n + List.length bs)%nat
        by lia.
      apply IH.
      replace (8 * Z.of_nat (S n)) with (8 * Z.of_nat n + 8) by lia.
      rewrite Z.pow_add_r by lia. change (2 ^ 8) with 256. lia. }
  apply (H 0 0%nat). cbn. lia.
Qed.

(** The base64 path recovers the bytes: their big-endian value and eight
    bits per byte, whenever the padded encoding is what the script is
    given. *)
Lemma snowflake_int_of_encoding bs :
  bytes bs -> (List.length bs mod 3 <> 0)%nat ->
  snowflake_int (urlsafe_b64encode bs)
    = Ok (from_bytes_big bs, Z.of_nat (List.length bs) * 8).
Proof.
  intros Hb Hn. unfold snowflake_int.
  destruct (encode_ends_with_pad bs Hn) as [l Hl].
  unfold urlsafe_b64encode at 1. rewrite Hl, py_int_trailing_pad.
  rewrite (urlsafe_b64decode_encode bs Hb). reflexivity.
Qed.

Lemma snowflake_int_of_decimal n :
  0 <= n -> snowflake_int (py_str_int n) = Ok (n, 64).
Proof.
  intros Hn. unfold snowflake_int. rewrite (py_int_str_nonneg n Hn).
  reflexivity.
Qed.

(** C10. For every 8-byte value, its URL-safe base64 encoding and its
    decimal literal normalise to the same integer with a total width of 64
    bits. *)
Theorem base64_and_decimal_agree_on_8_bytes bs :
  List.length bs = 8%nat ->
  Forall (fun b => 0 <= b < 256) bs ->
  snowflake_int (urlsafe_b64encode bs) = Ok (from_bytes_big bs, 64)
  /\ snowflake_int (py_str_int (from_bytes_big bs))
       = Ok (from_bytes_big bs, 64).
Proof.
  intros Hlen Hb. split.
  - rewrite (snowflake_int_of_encoding bs Hb) by (rewrite Hlen; discriminate).
    rewrite Hlen. reflexivity.
  - apply snowflake_int_of_decimal.
    exact (proj1 (from_bytes_big_bound bs Hb)).
Qed.
End Base64Facts.

Lemma base64_and_decimal_agree_on_8_bytes_witness :
  snowflake_int (Base64.urlsafe_b64encode [255; 254; 253; 0; 1; 2; 250; 251])
    = Ok (from_bytes_big [255; 254; 253; 0; 1; 2; 250; 251], 64)
  /\ snowflake_int (py_str_int (from_bytes_big [255; 254; 253; 0; 1; 2; 250; 251]))
       = Ok (from_bytes_big [255; 254; 253; 0; 1; 2; 250; 251], 64).
Proof.
  apply (base64_and_decimal_agree_on_8_bytes [255; 254; 253; 0; 1; 2; 250; 251]).
  - reflexivity.
  - repeat constructor; discriminate.
Defined.


Section Malformed.

Import Base64.

Lemma translate_pad c :
  (code (urlsafe_translate c) =? PAD) = (code c =? PAD).
Proof.
  unfold urlsafe_translate, PAD.
  destruct (Z.eqb_spec (code c) 45) as [E|_].
  - rewrite E. reflexivity.
  - destruct (Z.eqb_spec (code c) 95) as [E|_]; [rewrite E|]; reflexivity.
Qed.

Lemma scan_no_pad l st rest :
  forallb not_pad l = true ->
  scan st (map urlsafe_translate l ++ rest)
    = scan (fold_left push (sextets l) st) rest.
Proof.
  revert st. induction l as [|c l IH]; intros st Hl; [reflexivity|].
  cbn [forallb] in Hl. apply andb_true_iff in Hl. destruct Hl as [Hc Hl].
  unfold not_pad in Hc. apply negb_true_iff in Hc.
  cbn [map app scan sextets]. rewrite translate_pad, Hc.
  destruct (table_a2b (urlsafe_translate c)); cbn [fold_left];
    apply IH; exact Hl.
Qed.

Lemma byte_range z : 0 <= byte z < 256.
Proof.
  unfold byte. change 255 with (Z.ones 8). rewrite Z.land_ones by lia.
  apply Z.mod_pos_bound. lia.
Qed.

Lemma push_decoded_upto T st v :
  decoded_upto T st -> decoded_upto (T + 1) (push st v).
Proof.
  unfold decoded_upto, bytes. intros (HT & Hq & Hl & Hp & Hb).
  unfold push.
  destruct (Z.eqb_spec (quad_pos st) 0);
    [|destruct (Z.eqb_spec (quad_pos st) 1);
      [|destruct (Z.eqb_spec (quad_pos st) 2)]];
    cbn [quad_pos out pads List.length];
    repeat split; try lia; try (Z.div_mod_to_equations; lia);
    try (constructor; [apply byte_range|exact Hb]); try exact Hb.
Qed.

Lemma fold_push_decoded_upto vs T st :
  decoded_upto T st ->
  decoded_upto (T + Z.of_nat (List.length vs)) (fold_left push vs st).
Proof.
  revert T st. induction vs as [|v vs IH]; intros T st H.
  - cbn. rewrite Z.add_0_r. exact H.
  - cbn [fold_left List.length].
    replace (T + Z.of_nat (S (List.length vs)))
      with (T + 1 + Z.of_nat (List.length vs)) by lia.
    apply IH. apply push_decoded_upto. exact H.
Qed.

Lemma finish_two_pads T st :
  decoded_upto T st ->
  (let '(st', done) := scan st ["="%char; "="%char] in
   if done then Ok (List.rev (out st'))
   else if quad_pos st' =? 0 then Ok (List.rev (out st'))
   else if quad_pos st' =? 1 then
     Raise (BinasciiError
       "Invalid base64-encoded string: number of data characters cannot be 1 more than a multiple of 4")
   else Raise (BinasciiError "Incorrect padding"))
  = if T mod 4 =? 1 then
      Raise (BinasciiError
        "Invalid base64-encoded string: number of data characters cannot be 1 more than a multiple of 4")
    else Ok (List.rev (out st)).
Proof.
  unfold decoded_upto. intros (HT & Hq & _ & Hp & _).
  destruct st as [q lc p o]. cbn [quad_pos pads out] in *.
  assert (Hr : q = 0 \/ q = 1 \/ q = 2 \/ q = 3)
    by (pose proof (Z.mod_pos_bound T 4); lia).
  rewrite <- Hq, Hp. clear Hq Hp.
  destruct Hr as [E|[E|[E|E]]]; rewrite E; reflexivity.
Qed.

Lemma init_decoded_upto : decoded_upto 0 init.
Proof. unfold decoded_upto, init, bytes. cbn. repeat split; try lia. constructor. Qed.

(** The base64 path on text without pad characters: a failure exactly when
    the alphabet characters number one more than a multiple of four. *)
Lemma urlsafe_b64decode_no_pad s :
  forallb is_ascii (chars s) = true ->
  forallb not_pad (chars s) = true ->
  let n := Z.of_nat (List.length (sextets (chars s))) in
  if n mod 4 =? 1 then
    urlsafe_b64decode (s ++ "==") =
      Raise (BinasciiError
        "Invalid base64-encoded string: number of data characters cannot be 1 more than a multiple of 4")
  else
    exists bs, urlsafe_b64decode (s ++ "==") = Ok bs
               /\ Z.of_nat (List.length bs) = 3 * n / 4 /\ bytes bs.
Proof.
  intros Ha Hp n.
  pose proof (fold_push_decoded_upto (sextets (chars s)) 0 init
                init_decoded_upto) as Hinv.
  rewrite Z.add_0_l in Hinv. fold n in Hinv.
  assert (Hd : urlsafe_b64decode (s ++ "==")
               = if n mod 4 =? 1 then
                   Raise (BinasciiError
                     "Invalid base64-encoded string: number of data characters cannot be 1 more than a multiple of 4")
                 else Ok (List.rev (out (fold_left push (sextets (chars s)) init)))).
  { unfold urlsafe_b64decode. rewrite chars_app.
    change (chars "==") with ["="%char; "="%char].
    rewrite forallb_app, Ha. cbn [andb forallb].
    change (is_ascii "="%char) with true. cbn [andb].
    rewrite map_app. unfold a2b_base64.
    change (map urlsafe_translate ["="%char; "="%char])
      with ["="%char; "="%char].
    rewrite (scan_no_pad _ init _ Hp).
    exact (finish_two_pads n _ Hinv). }
  rewrite Hd. destruct (n mod 4 =? 1); [reflexivity|].
  eexists. split; [reflexivity|].
  destruct Hinv as (_ & _ & Hl & _ & Hb).
  split.
  - rewrite length_rev. exact Hl.
  - unfold bytes in *. apply Forall_rev. exact Hb.
Qed.

(** C6, as the script behaves. Text that is not an integer literal is never
    rejected as malformed: characters outside the base64 alphabet are
    dropped and the [n] alphabet characters decoded, giving a value below
    [2^total_bits] with [total_bits = 8 * (3n/4)]; only when [n] is one more
    than a multiple of four does the decoder raise, and that error is
    [binascii.Error]. *)
Theorem non_integer_text_is_decoded_not_rejected s :
  is_ok (py_int s) = false ->
  forallb is_ascii (chars s) = true ->
  forallb not_pad (chars s) = true ->
  let n := Z.of_nat (List.length (sextets (chars s))) in
  if n mod 4 =? 1 then
    snowflake_int s =
      Raise (BinasciiError
        "Invalid base64-encoded string: number of data characters cannot be 1 more than a multiple of 4")
  else
    exists v, snowflake_int s = Ok (v, 8 * (3 * n / 4))
              /\ 0 <= v < 2 ^ (8 * (3 * n / 4)).
Proof.
  intros Hi Ha Hp n.
  pose proof (urlsafe_b64decode_no_pad s Ha Hp) as Hd. fold n in Hd.
  cbv zeta in Hd.
  unfold snowflake_int.
  destruct (py_int s) as [k|e]; [discriminate Hi|].
  destruct (n mod 4 =? 1).
  - rewrite Hd. reflexivity.
  - destruct Hd as (bs & -> & Hl & Hb). cbn [bind].
    exists (from_bytes_big bs).
    pose proof (from_bytes_big_bound bs Hb) as Hv.
    replace (8 * (3 * n / 4)) with (8 * Z.of_nat (List.length bs)) by lia.
    split; [|exact Hv]. f_equal. f_equal. lia.
Qed.
End Malformed.

(** C6: the malformed example of the specification normalises to a 128-bit
    value, and text with no alphabet character at all to a silent zero. *)
Lemma malformed_example_is_accepted :
  py_int "not-a-number-or-base64!!!" = Raise invalid_literal
  /\ forallb urlsafe_symbol (chars "not-a-number-or-base64!!!") = false
  /\ snowflake_int "not-a-number-or-base64!!!"
       = Ok (210742316730774955639584891827970055915, 128)
  /\ snowflake_int "!!!" = Ok (0, 0).
Proof. repeat split; vm_compute; reflexivity. Qed.

Lemma non_integer_text_is_decoded_not_rejected_witness :
  let n := Z.of_nat
             (List.length (sextets (chars "not-a-number-or-base64!!!"))) in
  if n mod 4 =? 1 then
    snowflake_int "not-a-number-or-base64!!!" =
      Raise (BinasciiError
        "Invalid base64-encoded string: number of data characters cannot be 1 more than a multiple of 4")
  else
    exists v, snowflake_int "not-a-number-or-base64!!!"
                = Ok (v, 8 * (3 * n / 4))
              /\ 0 <= v < 2 ^ (8 * (3 * n / 4)).
Proof.
  apply (non_integer_text_is_decoded_not_rejected
           "not-a-number-or-base64!!!"); vm_compute; reflexivity.
Defined.

Section FloatExact.

Lemma digits2_pos_unique p d :
  2 ^ (d - 1) <= Zpos p < 2 ^ d -> Zpos (digits2_pos p) = d.
Proof.
  revert d. induction p as [p IH|p IH|]; intros d [Hlo Hhi].
  - assert (Hd : 2 <= d).
    { destruct (Z.le_gt_cases 2 d) as [H|H]; [exact H|].
      assert (2 ^ d <= 2 ^ 1) by (destruct (Z.le_gt_cases 0 d);
        [apply Z.pow_le_mono_r; lia | rewrite Z.pow_neg_r by lia; lia]).
      change (2 ^ 1) with 2 in *. lia. }
    cbn [digits2_pos]. rewrite Pos2Z.inj_succ.
    replace d with (Z.succ (d - 1)) in Hhi by lia.
    replace (d - 1) with (Z.succ (d - 1 - 1)) in Hlo by lia.
    rewrite Z.pow_succ_r in Hlo, Hhi by lia.
    rewrite (IH (d - 1)); [lia|]. lia.
  - assert (Hd : 2 <= d).
    { destruct (Z.le_gt_cases 2 d) as [H|H]; [exact H|].
      assert (2 ^ d <= 2 ^ 1) by (destruct (Z.le_gt_cases 0 d);
        [apply Z.pow_le_mono_r; lia | rewrite Z.pow_neg_r by lia; lia]).
      change (2 ^ 1) with 2 in *. lia. }
    cbn [digits2_pos]. rewrite Pos2Z.inj_succ.
    replace d with (Z.succ (d - 1)) in Hhi by lia.
    replace (d - 1) with (Z.succ (d - 1 - 1)) in Hlo by lia.
    rewrite Z.pow_succ_r in Hlo, Hhi by lia.
    rewrite (IH (d - 1)); [lia|]. lia.
  - cbn [digits2_pos].
    destruct (Z.le_gt_cases d 0) as [H|H].
    + assert (2 ^ d <= 2 ^ 0) by (destruct (Z.le_gt_cases 0 d);
        [apply Z.pow_le_mono_r; lia | rewrite Z.pow_neg_r by lia; lia]).
      change (2 ^ 0) with 1 in *. lia.
    + destruct (Z.le_gt_cases 2 d) as [H2|H2]; [|lia].
      assert (2 ^ 1 <= 2 ^ (d - 1)) by (apply Z.pow_le_mono_r; lia).
      change (2 ^ 1) with 2 in *. lia.
Qed.

Lemma iter_pos_nat {A} (f : A -> A) p x :
  iter_pos f p x = Nat.iter (Pos.to_nat p) f x.
Proof.
  revert x. induction p as [p IH|p IH|]; intros x; cbn [iter_pos].
  - rewrite !IH. rewrite Pos2Nat.inj_xI.
    replace (S (2 * Pos.to_nat p)) with (Pos.to_nat p + (Pos.to_nat p + 1))%nat by lia.
    rewrite !Nat.iter_add. reflexivity.
  - rewrite !IH. rewrite Pos2Nat.inj_xO.
    replace (2 * Pos.to_nat p)%nat with (Pos.to_nat p + Pos.to_nat p)%nat by lia.
    rewrite Nat.iter_add. reflexivity.
  - reflexivity.
Qed.

Lemma shr_exact_nat n : forall x u,
  Zpos x = Zpos u * 2 ^ Z.of_nat n ->
  Nat.iter n shr_1 (exact_record (Zpos x)) = exact_record (Zpos u).
Proof.
  induction n as [|n IH]; intros x u H.
  - cbn in H. assert (x = u) by lia. subst. reflexivity.
  - rewrite Nat2Z.inj_succ, Z.pow_succ_r in H by lia.
    rewrite Nat.iter_succ_r.
    destruct x as [x|x|]; [lia| |lia].
    cbn [exact_record shr_1 orb]. apply IH. lia.
Qed.

Lemma F64_fexp e : -1074 <= e - 53 -> fexp F64.prec F64.emax e = e - 53.
Proof. unfold fexp, emin, F64.prec, F64.emax. lia. Qed.

Lemma iter_xO_pow w p : Zpos (Pos.iter xO w p) = Zpos w * 2 ^ Zpos p.
Proof.
  induction p as [|p IH] using Pos.peano_ind.
  - cbn. lia.
  - rewrite Pos.iter_succ, Pos2Z.inj_succ, Z.pow_succ_r by lia.
    rewrite Pos2Z.inj_xO, IH. lia.
Qed.

Lemma shr_exact x u t e :
  Zpos x = Zpos u * 2 ^ t -> 0 <= t ->
  shr (exact_record (Zpos x)) e t = (exact_record (Zpos u), e + t).
Proof.
  intros Hx Ht. unfold shr. destruct t as [|p|p]; [| |lia].
  - cbn in Hx. assert (x = u) by lia. subst. rewrite Z.add_0_r. reflexivity.
  - rewrite iter_pos_nat. rewrite (shr_exact_nat _ x u); [reflexivity|].
    rewrite positive_nat_Z. exact Hx.
Qed.

Lemma digits_scaled x u t :
  Zpos x = Zpos u * 2 ^ t -> 0 <= t ->
  2 ^ 52 <= Zpos u < 2 ^ 53 ->
  Zpos (digits2_pos x) = 53 + t.
Proof.
  intros Hx Ht Hu. apply digits2_pos_unique. rewrite Hx.
  replace (53 + t - 1) with (52 + t) by lia.
  rewrite !Z.pow_add_r by lia.
  assert (0 < 2 ^ t) by (apply Z.pow_pos_nonneg; lia).
  nia.
Qed.

(** Rounding a mantissa that already is a 53-bit number times a power of two
    changes nothing. *)
Lemma binary_round_aux_exact x u t e :
  Zpos x = Zpos u * 2 ^ t -> 0 <= t ->
  2 ^ 52 <= Zpos u < 2 ^ 53 ->
  -1074 <= e + t <= 971 ->
  binary_round_aux F64.prec F64.emax false (Zpos x) e loc_Exact
    = S754_finite false u (e + t).
Proof.
  intros Hx Ht Hu He.
  pose proof (digits_scaled x u t Hx Ht Hu) as Hdx.
  assert (Hdu : Zpos (digits2_pos u) = 53)
    by (apply digits2_pos_unique; exact Hu).
  unfold binary_round_aux, shr_fexp.
  cbn [Zdigits2 shr_record_of_loc]. rewrite Hdx.
  rewrite F64_fexp by lia.
  replace (53 + t + e - 53 - e) with t by lia.
  change (Build_shr_record (Zpos x) false false) with (exact_record (Zpos x)).
  rewrite (shr_exact x u t e Hx Ht).
  cbn [exact_record shr_m loc_of_shr_record round_nearest_even Zdigits2
       shr_record_of_loc].
  rewrite Hdu. rewrite F64_fexp by lia.
  replace (53 + (e + t) - 53 - (e + t)) with 0 by lia.
  cbn [shr shr_m].
  unfold F64.emax, F64.prec.
  destruct (Z.leb_spec (e + t) (1024 - 53)); [reflexivity|lia].
Qed.

(** [float] of a positive integer that is a 53-bit number times a power of
    two is that number, exactly. *)
Lemma of_Z_exact_large w u t :
  Zpos w = Zpos u * 2 ^ t -> 0 <= t <= 971 ->
  2 ^ 52 <= Zpos u < 2 ^ 53 ->
  F64.of_Z (Zpos w) = S754_finite false u t.
Proof.
  intros Hw Ht Hu.
  pose proof (digits_scaled w u t Hw (proj1 Ht) Hu) as Hd.
  unfold F64.of_Z, binary_normalize, binary_round.
  rewrite Z.add_0_r, Hd, F64_fexp by lia.
  unfold shl_align.
  replace (53 + t - 53 - 0) with t by lia.
  destruct t as [|p|p]; [| |lia];
    rewrite (binary_round_aux_exact w u _ 0 Hw) by lia; reflexivity.
Qed.

(** [float] of a positive integer of at most 53 bits: the mantissa is the
    integer shifted up to 53 bits. *)
Lemma of_Z_exact_small w u k :
  Zpos u = Zpos w * 2 ^ k -> 0 <= k <= 1074 ->
  2 ^ 52 <= Zpos u < 2 ^ 53 ->
  forall e, -1074 <= e - k <= 971 ->
  binary_normalize F64.prec F64.emax (Zpos w) e false
    = S754_finite false u (e - k).
Proof.
  intros Hu Hk Hub e He.
  assert (Hd : Zpos (digits2_pos w) = 53 - k).
  { apply digits2_pos_unique.
    assert (0 < 2 ^ k) by (apply Z.pow_pos_nonneg; lia).
    assert (Hk53 : k <= 52).
    { destruct (Z.le_gt_cases k 52) as [H1|H1]; [exact H1|].
      assert (2 ^ 53 <= 2 ^ k) by (apply Z.pow_le_mono_r; lia). nia. }
    replace 52 with (53 - k - 1 + k) in Hub at 1 by lia.
    replace 53 with (53 - k + k) in Hub at 2 by lia.
    rewrite !Z.pow_add_r in Hub by lia. nia. }
  unfold binary_normalize, binary_round.
  rewrite Hd, F64_fexp by lia.
  unfold shl_align.
  replace (53 - k + e - 53 - e) with (- k) by lia.
  destruct k as [|p|p]; [| |lia].
  - cbn [Z.opp]. cbn in Hu. assert (u = w) by lia. subst.
    rewrite (binary_round_aux_exact w w 0 e) by (cbn; lia).
    f_equal; lia.
  - cbn [Z.opp].
    assert (Hm : Pos.iter xO w p = u).
    { apply Pos2Z.inj. rewrite Hu. apply iter_xO_pow. }
    rewrite Hm.
    replace (53 - Zpos p + e - 53) with (e - Zpos p) by lia.
    rewrite (binary_round_aux_exact u u 0 (e - Zpos p)) by (cbn; lia).
    f_equal; lia.
Qed.

Lemma div_eucl_exact a b q :
  b <> 0 -> a = b * q -> Z.div_eucl a b = (q, 0).
Proof.
  intros Hb Ha.
  assert (H : Z.div_eucl a b = (a / b, a mod b)).
  { unfold Z.div, Z.modulo. destruct (Z.div_eucl a b). reflexivity. }
  rewrite H, Ha, Z.mul_comm, Z.div_mul, Z.mod_mul by exact Hb. reflexivity.
Qed.

Lemma new_location_zero m : new_location m 0 = loc_Exact.
Proof.
  unfold new_location, new_location_even, new_location_odd.
  destruct (Z.even m); reflexivity.
Qed.

(** A quotient that is a 53-bit number times a power of two is computed
    exactly. *)
Lemma div_exact m1 e1 m2 e2 d1 d2 s q u t :
  Zpos (digits2_pos m1) = d1 -> Zpos (digits2_pos m2) = d2 ->
  s = 53 + d2 - d1 -> 0 < s ->
  -1074 <= e1 - e2 - s ->
  Zpos m1 * 2 ^ s = Zpos m2 * Zpos q ->
  Zpos q = Zpos u * 2 ^ t -> 0 <= t ->
  2 ^ 52 <= Zpos u < 2 ^ 53 ->
  e1 - e2 - s + t <= 971 ->
  F64.div (S754_finite false m1 e1) (S754_finite false m2 e2)
    = S754_finite false u (e1 - e2 - s + t).
Proof.
  intros H1 H2 Hs Hs0 Hmin Hq Hu Ht Hub Hmax.
  unfold F64.div, SFdiv, SFdiv_core_binary.
  cbn [Zdigits2 xorb]. rewrite H1, H2.
  rewrite F64_fexp by lia.
  replace (Z.min (d1 + e1 - (d2 + e2) - 53) (e1 - e2)) with (e1 - e2 - s)
    by lia.
  replace (e1 - e2 - (e1 - e2 - s)) with s by lia.
  destruct s as [|ps|ps]; [lia| |lia].
  rewrite Z.shiftl_mul_pow2 by lia.
  rewrite (div_eucl_exact _ (Zpos m2) (Zpos q)) by (lia || exact Hq).
  rewrite new_location_zero.
  apply (binary_round_aux_exact q u t); assumption || lia.
Qed.

(** Subtracting two positive floats of the same exponent: the mantissas are
    subtracted and the difference normalised. *)
Lemma sub_same_exponent m1 m2 e :
  F64.sub (S754_finite false m1 e) (S754_finite false m2 e)
    = binary_normalize F64.prec F64.emax (Zpos m1 - Zpos m2) e false.
Proof.
  unfold F64.sub, SFsub, shl_align, cond_Zopp.
  rewrite Z.min_id, Z.sub_diag. reflexivity.
Qed.

(** The double of a whole number of [d] bits, [d <= 53]. *)
Lemma of_Z_whole n j :
  0 <= j <= 52 -> 2 ^ (52 - j) <= n < 2 ^ (53 - j) ->
  F64.of_Z n = S754_finite false (Z.to_pos (n * 2 ^ j)) (- j).
Proof.
  intros Hj Hn.
  assert (0 < 2 ^ (52 - j)) by (apply Z.pow_pos_nonneg; lia).
  assert (0 < 2 ^ j) by (apply Z.pow_pos_nonneg; lia).
  assert (Hb : 2 ^ 52 <= n * 2 ^ j < 2 ^ 53).
  { assert (E52 : 2 ^ 52 = 2 ^ (52 - j) * 2 ^ j)
      by (rewrite <- Z.pow_add_r by lia; f_equal; lia).
    assert (E53 : 2 ^ 53 = 2 ^ (53 - j) * 2 ^ j)
      by (rewrite <- Z.pow_add_r by lia; f_equal; lia).
    rewrite E52, E53. nia. }
  destruct n as [|w|w]; [lia| |lia].
  unfold F64.of_Z.
  rewrite (of_Z_exact_small w (Z.to_pos (Zpos w * 2 ^ j)) j);
    rewrite ?Z2Pos.id by lia; try lia; reflexivity.
Qed.

Section WholeSeconds.

Variable k : Z.
Hypothesis Hk : 1420070400 <= k <= 1735689600.

Lemma whole_seconds_double :
  F64.of_Z k = S754_finite false (Z.to_pos (k * 2 ^ 22)) (-22).
Proof. apply (of_Z_whole k 22); [lia|]. cbn. lia. Qed.

(** The difference of the doubles of [k + 11644473600] and 11644473600,
    both held with exponent -19. *)
Lemma origin_subtraction :
  F64.sub (S754_finite false (Z.to_pos ((k + 11644473600) * 2 ^ 19)) (-19))
          (F64.of_Z 11644473600)
    = F64.of_Z k.
Proof.
  replace (F64.of_Z 11644473600)
    with (S754_finite false (Z.to_pos (11644473600 * 2 ^ 19)) (-19))
    by (vm_compute; reflexivity).
  rewrite sub_same_exponent, whole_seconds_double.
  rewrite !Z2Pos.id by lia.
  replace ((k + 11644473600) * 2 ^ 19 - 11644473600 * 2 ^ 19)
    with (Zpos (Z.to_pos (k * 2 ^ 19))) by (rewrite Z2Pos.id; lia).
  rewrite (of_Z_exact_small _ (Z.to_pos (k * 2 ^ 22)) 3);
    rewrite ?Z2Pos.id by lia; try lia; try reflexivity.
Qed.

Lemma windows_filetime_whole_seconds :
  windows_filetime_seconds ((k + 11644473600) * 10000000) = Ok (F64.of_Z k).
Proof.
  unfold windows_filetime_seconds, py_float.
  set (n := k + 11644473600).
  assert (Hf : F64.of_Z (n * 10000000)
               = S754_finite false (Z.to_pos (n * 625000)) 4).
  { assert (Hc : n * 10000000 = Zpos (Z.to_pos (n * 10000000)))
      by (rewrite Z2Pos.id; lia).
    rewrite Hc.
    apply of_Z_exact_large; rewrite ?Z2Pos.id by lia; lia. }
  rewrite Hf. cbn [bind]. f_equal.
  replace (F64.of_Z 10000000)
    with (S754_finite false 5368709120000000 (-29))
    by (vm_compute; reflexivity).
  assert (Hd : F64.div (S754_finite false (Z.to_pos (n * 625000)) 4)
                       (S754_finite false 5368709120000000 (-29))
               = S754_finite false (Z.to_pos (n * 2 ^ 19)) (-19)).
  { change (-19) with (4 - (-29) - 53 + 1).
    apply (div_exact _ 4 _ (-29) 53 53 53 (Z.to_pos (n * 2 ^ 20))
             (Z.to_pos (n * 2 ^ 19)) 1);
      rewrite ?Z2Pos.id by lia; try reflexivity; try lia.
    apply digits2_pos_unique. rewrite Z2Pos.id by lia. lia. }
  rewrite Hd. exact origin_subtraction.
Qed.

Lemma webkit_whole_seconds :
  webkit_seconds ((k + 11644473600) * 1000000) = Ok (F64.of_Z k).
Proof.
  unfold webkit_seconds, py_float.
  set (n := k + 11644473600).
  assert (Hf : F64.of_Z (n * 1000000)
               = S754_finite false (Z.to_pos (n * 500000)) 1).
  { assert (Hc : n * 1000000 = Zpos (Z.to_pos (n * 1000000)))
      by (rewrite Z2Pos.id; lia).
    rewrite Hc.
    apply of_Z_exact_large; rewrite ?Z2Pos.id by lia; lia. }
  rewrite Hf. cbn [bind]. f_equal.
  replace (F64.of_Z 1000000)
    with (S754_finite false 8589934592000000 (-33))
    by (vm_compute; reflexivity).
  assert (Hd : F64.div (S754_finite false (Z.to_pos (n * 500000)) 1)
                       (S754_finite false 8589934592000000 (-33))
               = S754_finite false (Z.to_pos (n * 2 ^ 19)) (-19)).
  { change (-19) with (1 - (-33) - 53 + 0).
    apply (div_exact _ 1 _ (-33) 53 53 53 (Z.to_pos (n * 2 ^ 19))
             (Z.to_pos (n * 2 ^ 19)) 0);
      rewrite ?Z2Pos.id by lia; try reflexivity; try lia.
    apply digits2_pos_unique. rewrite Z2Pos.id by lia. lia. }
  rewrite Hd. exact origin_subtraction.
Qed.

Lemma datetime_ticks_whole_seconds :
  datetime_ticks_seconds (k * 10000000 + 621355968000000000)
    = Ok (F64.of_Z k).
Proof.
  unfold datetime_ticks_seconds.
  replace (k * 10000000 + 621355968000000000 - 621355968000000000)
    with (Zpos (Z.to_pos (k * 10000000))) by (rewrite Z2Pos.id; lia).
  unfold py_int_truediv. cbn [Z.ltb Z.compare Z.abs Z.to_pos].
  assert (Hd : F64.div (S754_finite false (Z.to_pos (k * 10000000)) 0)
                       (S754_finite false 10000000 0)
               = S754_finite false (Z.to_pos (k * 2 ^ 22)) (-22)).
  { change (-22) with (0 - 0 - 23 + 1).
    apply (div_exact _ 0 _ 0 54 24 23 (Z.to_pos (k * 2 ^ 23))
             (Z.to_pos (k * 2 ^ 22)) 1);
      rewrite ?Z2Pos.id by lia; try reflexivity; try lia.
    apply digits2_pos_unique. rewrite Z2Pos.id by lia. lia. }
  rewrite Hd, whole_seconds_double. reflexivity.
Qed.

Lemma whole_seconds_double_value : is_quotient (F64.of_Z k) k 1 = true.
Proof.
  rewrite whole_seconds_double. unfold is_quotient.
  change (0 <=? -22) with false. cbv iota.
  rewrite Z2Pos.id by lia. apply Z.eqb_eq. change (- -22) with 22. lia.
Qed.

End WholeSeconds.

(** C4, as the script behaves. The three conversions divide in binary64
    floating point.  With the constants 11644473600 and
    621355968000000000 they give exactly the whole number of seconds [k]
    for every candidate that lies on a whole second of its 2015-2025
    range. *)
Theorem whole_second_candidates_convert_exactly k :
  1420070400 <= k <= 1735689600 ->
  windows_filetime_seconds ((k + 11644473600) * 10000000) = Ok (F64.of_Z k)
  /\ webkit_seconds ((k + 11644473600) * 1000000) = Ok (F64.of_Z k)
  /\ datetime_ticks_seconds (k * 10000000 + 621355968000000000)
       = Ok (F64.of_Z k)
  /\ is_quotient (F64.of_Z k) k 1 = true.
Proof.
  intros Hk. repeat split.
  - exact (windows_filetime_whole_seconds k Hk).
  - exact (webkit_whole_seconds k Hk).
  - exact (datetime_ticks_whole_seconds k Hk).
  - exact (whole_seconds_double_value k Hk).
Qed.

End FloatExact.

(** C4: off the whole seconds the division is not exact.  For the FileTime
    candidate 130645440005000001 the script computes 1420070400.5, neither
    the exact quotient 1420070400.5000001 nor the integer quotient
    1420070400. *)
Lemma filetime_division_is_not_exact :
  windows_filetime_seconds 130645440005000001
    = Ok (S754_finite false 5956206961098752 (-22))
  /\ is_quotient (S754_finite false 5956206961098752 (-22))
       14200704005 10 = true
  /\ is_quotient (S754_finite false 5956206961098752 (-22))
       (130645440005000001 - 11644473600 * 10000000) 10000000 = false
  /\ is_quotient (S754_finite false 5956206961098752 (-22))
       ((130645440005000001 - 11644473600 * 10000000) / 10000000) 1 = false.
Proof. repeat split; vm_compute; reflexivity. Qed.

Lemma whole_second_candidates_convert_exactly_witness :
  windows_filetime_seconds ((1500000000 + 11644473600) * 10000000)
    = Ok (F64.of_Z 1500000000)
  /\ webkit_seconds ((1500000000 + 11644473600) * 1000000)
       = Ok (F64.of_Z 1500000000)
  /\ datetime_ticks_seconds (1500000000 * 10000000 + 621355968000000000)
       = Ok (F64.of_Z 1500000000)
  /\ is_quotient (F64.of_Z 1500000000) 1500000000 1 = true.
Proof.
  apply (whole_second_candidates_convert_exactly 1500000000).
  split; discriminate.
Defined.


Section WholeFloats.

Lemma digits2_pos_bounds p :
  2 ^ (Zpos (digits2_pos p) - 1) <= Zpos p < 2 ^ Zpos (digits2_pos p).
Proof.
  induction p as [p IH|p IH|]; cbn [digits2_pos].
  - rewrite Pos2Z.inj_succ.
    replace (Z.succ (Zpos (digits2_pos p)) - 1)
      with (Z.succ (Zpos (digits2_pos p) - 1)) by lia.
    rewrite !Z.pow_succ_r by lia. lia.
  - rewrite Pos2Z.inj_succ.
    replace (Z.succ (Zpos (digits2_pos p)) - 1)
      with (Z.succ (Zpos (digits2_pos p) - 1)) by lia.
    rewrite !Z.pow_succ_r by lia. lia.
  - cbn. lia.
Qed.

(** An integer below [2^53] converts to a double without rounding: the
    double has that integer part and no fraction. *)
Lemma py_float_whole n :
  0 <= n < 2 ^ 53 ->
  exists f, py_float n = Ok f /\ F64.is_finite f = true
            /\ F64.trunc f = n /\ F64.frac f = S754_zero false.
Proof.
  intros [Hlo Hhi]. destruct n as [|w|w]; [| |lia].
  - exists (S754_zero false). repeat split.
  - pose proof (digits2_pos_bounds w) as Hd.
    set (d := Zpos (digits2_pos w)) in *.
    assert (Hd53 : d <= 53).
    { destruct (Z.le_gt_cases d 53) as [H|H]; [exact H|].
      assert (2 ^ 53 <= 2 ^ (d - 1)) by (apply Z.pow_le_mono_r; lia). lia. }
    assert (Hd1 : 1 <= d) by (unfold d; lia).
    set (k := 53 - d).
    assert (Hp : 0 < 2 ^ k) by (apply Z.pow_pos_nonneg; lia).
    assert (Hu : 2 ^ 52 <= Zpos w * 2 ^ k < 2 ^ 53).
    { assert (E52 : 2 ^ 52 = 2 ^ (d - 1) * 2 ^ k)
        by (rewrite <- Z.pow_add_r by lia; f_equal; lia).
      assert (E53 : 2 ^ 53 = 2 ^ d * 2 ^ k)
        by (rewrite <- Z.pow_add_r by lia; f_equal; lia).
      rewrite E52, E53. nia. }
    assert (Hf : F64.of_Z (Zpos w)
                 = S754_finite false (Z.to_pos (Zpos w * 2 ^ k)) (- k)).
    { unfold F64.of_Z.
      rewrite (of_Z_exact_small w (Z.to_pos (Zpos w * 2 ^ k)) k);
        rewrite ?Z2Pos.id by lia; try lia; reflexivity. }
    exists (S754_finite false (Z.to_pos (Zpos w * 2 ^ k)) (- k)).
    unfold py_float. rewrite Hf.
    split; [reflexivity|]. split; [reflexivity|].
    unfold F64.trunc, F64.frac.
    destruct (Z.leb_spec 0 (- k)) as [Hk|Hk].
    + assert (k = 0) by lia.
      replace (- k) with 0 by lia. rewrite Z2Pos.id by lia.
      replace k with 0 by lia. cbn. split; [lia|reflexivity].
    + rewrite Z2Pos.id by lia. rewrite Z.opp_involutive.
      rewrite Z.div_mul, Z.mod_mul by lia. split; reflexivity.
Qed.

End WholeFloats.

Section WholeSecondDecoding.

Variable P : platform.

(** A whole number of seconds below [2^53] that the platform supports is
    converted to its broken-down UTC time, subject to the year check. *)
Lemma utcfromtimestamp_whole t f :
  py_float t = Ok f -> F64.is_finite f = true ->
  F64.trunc f = t -> F64.frac f = S754_zero false ->
  supports P t ->
  utcfromtimestamp P f = new_datetime (broken_down t 0).
Proof.
  intros _ Hfin Ht Hfr [[H1 H2] [H3 H4]].
  unfold utcfromtimestamp.
  rewrite (timeval_of_float_whole P f t Hfin Ht)
    by (rewrite Hfr; reflexivity).
  destruct (Z.leb_spec (time_t_min P) t); [|lia].
  destruct (Z.ltb_spec t (- time_t_min P)); [|lia].
  cbn [andb bind fst snd]. unfold datetime_from_timet_and_us.
  destruct (Z.leb_spec (gmtime_min P) t); [|lia].
  destruct (Z.leb_spec t (gmtime_max P)); [|lia].
  cbn [andb]. rewrite Z.add_0_r. reflexivity.
Qed.

Lemma broken_down_year t us :
  year (broken_down t us) = fst (fst (civil_from_days (t / 86400))).
Proof.
  unfold broken_down. destruct (civil_from_days (t / 86400)) as [[y m] d].
  reflexivity.
Qed.

Ltac civil_bounds :=
  unfold civil_from_days; cbv zeta;
  repeat match goal with
  | |- context [Z.ltb ?a ?b] => destruct (Z.ltb_spec a b)
  | |- context [Z.leb ?a ?b] => destruct (Z.leb_spec a b)
  end; cbn [fst]; Z.div_mod_to_equations; lia.

Lemma year_in_calendar t us :
  0 <= t <= 253402300799 ->
  1970 <= year (broken_down t us) <= 9999.
Proof.
  intros H. rewrite broken_down_year.
  assert (Hd : 0 <= t / 86400 <= 2932896)
    by (Z.div_mod_to_equations; lia).
  revert Hd. generalize (t / 86400). intros days Hd. civil_bounds.
Qed.

Lemma year_beyond_calendar t us :
  253402300800 <= t -> 9999 < year (broken_down t us).
Proof.
  intros H. rewrite broken_down_year.
  assert (Hd : 2932897 <= t / 86400) by (Z.div_mod_to_equations; lia).
  revert Hd. generalize (t / 86400). intros days Hd. civil_bounds.
Qed.

Lemma new_datetime_in_calendar d :
  1 <= year d <= 9999 -> new_datetime d = Ok d.
Proof.
  intros H. unfold new_datetime, MINYEAR, MAXYEAR.
  destruct (Z.ltb_spec (year d) 1); [lia|].
  destruct (Z.ltb_spec 9999 (year d)); [lia|]. reflexivity.
Qed.

Lemma new_datetime_beyond d :
  9999 < year d -> new_datetime d = Raise (ValueError "year is out of range").
Proof.
  intros H. unfold new_datetime, MINYEAR, MAXYEAR.
  destruct (Z.ltb_spec (year d) 1); [reflexivity|].
  destruct (Z.ltb_spec 9999 (year d)); [reflexivity|lia].
Qed.

Lemma utcfromtimestamp_of_Z t :
  0 <= t <= 253402300799 -> supports P t ->
  utcfromtimestamp P (F64.of_Z t) = Ok (broken_down t 0).
Proof.
  intros Ht Hs.
  destruct (py_float_whole t) as (f & Hf & Hfin & Htr & Hfr);
    [change (2 ^ 53) with 9007199254740992; lia|].
  assert (Ef : F64.of_Z t = f).
  { unfold py_float in Hf. destruct (F64.of_Z t); congruence. }
  rewrite Ef.
  rewrite (utcfromtimestamp_whole t f Hf Hfin Htr Hfr Hs).
  apply new_datetime_in_calendar.
  pose proof (year_in_calendar t 0 Ht). lia.
Qed.

(** The seconds decoder on a candidate of the calendar range. *)
Lemma seconds_decoder_exact c :
  0 <= c <= 253402300799 -> supports P c ->
  decode_epoch_seconds P c = Ok (Datetime (broken_down c 0), "Epoch seconds").
Proof.
  intros Hc Hs. unfold decode_epoch_seconds.
  destruct (py_float_whole c) as (f & Hf & Hfin & Htr & Hfr);
    [change (2 ^ 53) with 9007199254740992; lia|].
  rewrite Hf. cbn [bind].
  rewrite (utcfromtimestamp_whole c f Hf Hfin Htr Hfr Hs).
  rewrite new_datetime_in_calendar; [reflexivity|].
  pose proof (year_in_calendar c 0 Hc). lia.
Qed.

(** Beyond the year 9999 the seconds decoder fails on every platform. *)
Lemma seconds_decoder_beyond_calendar c :
  253402300800 <= c < 2 ^ 53 ->
  exists e, decode_epoch_seconds P c = Raise e.
Proof.
  intros Hc. unfold decode_epoch_seconds.
  destruct (py_float_whole c) as (f & Hf & Hfin & Htr & Hfr); [lia|].
  rewrite Hf. cbn [bind]. unfold utcfromtimestamp.
  rewrite (timeval_of_float_whole P f c Hfin Htr)
    by (rewrite Hfr; reflexivity).
  destruct (andb _ _); cbn [bind fst snd]; [|eexists; reflexivity].
  unfold datetime_from_timet_and_us.
  destruct (andb _ _); [|eexists; reflexivity].
  rewrite new_datetime_beyond; [eexists; reflexivity|].
  apply year_beyond_calendar. lia.
Qed.

End WholeSecondDecoding.

Section ShownInstants.

Variable P : platform.

Ltac range_cases :=
  repeat match goal with
  | |- context [Z.leb ?a ?b] =>
      destruct (Z.leb_spec a b); cbn [andb]; try lia
  end; try reflexivity.

Lemma year_2015_2025 k us :
  1420070400 <= k <= 1735689600 ->
  2015 <= year (broken_down k us) <= 2025.
Proof.
  intros H. rewrite broken_down_year.
  assert (Hd : 16436 <= k / 86400 <= 20089)
    by (Z.div_mod_to_equations; lia).
  revert Hd. generalize (k / 86400). intros days Hd.
  unfold civil_from_days; cbv zeta;
  repeat match goal with
  | |- context [Z.ltb ?a ?b] => destruct (Z.ltb_spec a b)
  | |- context [Z.leb ?a ?b] => destruct (Z.leb_spec a b)
  end; cbn [fst]; Z.div_mod_to_equations; lia.
Qed.

(** X5. A Windows FileTime or WebKit candidate on a whole second [k] of
    2015-2025 is shown as exactly the UTC instant [k], under the name of its
    format, on every platform that supports [k]. *)
Theorem whole_second_filetime_and_webkit_shown_exactly k :
  1420070400 <= k <= 1735689600 ->
  supports P k ->
  guess_timestamp_format P ((k + 11644473600) * 10000000)
    = Ok (Datetime (broken_down k 0), "Windows FileTime")
  /\ guess_timestamp_format P ((k + 11644473600) * 1000000)
    = Ok (Datetime (broken_down k 0), "Webkit")
  /\ 2015 <= year (broken_down k 0) <= 2025.
Proof.
  intros Hk Hs.
  assert (Hu : utcfromtimestamp P (F64.of_Z k) = Ok (broken_down k 0))
    by (apply utcfromtimestamp_of_Z; [lia|exact Hs]).
  split; [|split].
  - assert (Hg : guess_timestamp_format P ((k + 11644473600) * 10000000)
                 = decode_windows_filetime P ((k + 11644473600) * 10000000))
      by (unfold guess_timestamp_format; range_cases).
    rewrite Hg. unfold decode_windows_filetime.
    rewrite (windows_filetime_whole_seconds k Hk). cbn [bind].
    rewrite Hu. reflexivity.
  - assert (Hg : guess_timestamp_format P ((k + 11644473600) * 1000000)
                 = decode_webkit P ((k + 11644473600) * 1000000))
      by (unfold guess_timestamp_format; range_cases).
    rewrite Hg. unfold decode_webkit.
    rewrite (webkit_whole_seconds k Hk). cbn [bind].
    rewrite Hu. reflexivity.
  - exact (year_2015_2025 k 0 Hk).
Qed.

(** X6. A DateTime ticks candidate on a whole second [k] of 2015-2025 is
    shown in the local time of the machine, not in UTC like every other
    format: the instant shown is [k] plus the zone's offset. *)
Theorem datetime_ticks_shown_in_local_time k :
  1420070400 <= k <= 1735689600 ->
  supports P k ->
  -86400 <= utc_offset P k <= 86400 ->
  guess_timestamp_format P (k * 10000000 + 621355968000000000)
    = Ok (Datetime (broken_down (k + utc_offset P k) 0), "DateTime ticks").
Proof.
  intros Hk Hs Ho.
  assert (Hg : guess_timestamp_format P (k * 10000000 + 621355968000000000)
               = decode_datetime_ticks P (k * 10000000 + 621355968000000000))
    by (unfold guess_timestamp_format; range_cases).
  rewrite Hg. unfold decode_datetime_ticks.
  rewrite (datetime_ticks_whole_seconds k Hk). cbn [bind].
  destruct (py_float_whole k) as (f & Hf & Hfin & Htr & Hfr);
    [change (2 ^ 53) with 9007199254740992; lia|].
  assert (Ef : F64.of_Z k = f).
  { unfold py_float in Hf. destruct (F64.of_Z k); congruence. }
  rewrite Ef. unfold fromtimestamp.
  rewrite (timeval_of_float_whole P f k Hfin Htr)
    by (rewrite Hfr; reflexivity).
  destruct Hs as [[H1 H2] [H3 H4]].
  destruct (Z.leb_spec (time_t_min P) k); [|lia].
  destruct (Z.ltb_spec k (- time_t_min P)); [|lia].
  cbn [andb bind fst snd]. unfold datetime_from_timet_and_us.
  destruct (Z.leb_spec (gmtime_min P) k); [|lia].
  destruct (Z.leb_spec k (gmtime_max P)); [|lia].
  cbn [andb].
  rewrite new_datetime_in_calendar; [reflexivity|].
  pose proof (year_in_calendar (k + utc_offset P k) 0). lia.
Qed.

(** X9. Every candidate from 0 to 253402300799, the last second of the year
    9999, falls to the seconds decoder and is shown as exactly that UTC
    instant, on every platform that supports it. *)
Theorem seconds_fallback_shown_exactly c :
  0 <= c <= 253402300799 ->
  supports P c ->
  guess_timestamp_format P c
    = Ok (Datetime (broken_down c 0), "Epoch seconds")
  /\ 1970 <= year (broken_down c 0) <= 9999.
Proof.
  intros Hc Hs.
  assert (Hg : guess_timestamp_format P c = decode_epoch_seconds P c)
    by (unfold guess_timestamp_format; range_cases).
  split.
  - rewrite Hg. exact (seconds_decoder_exact P c Hc Hs).
  - exact (year_in_calendar c 0 Hc).
Qed.

End ShownInstants.

Lemma linux64_supports t :
  -67768040609740800 <= t <= 67768036191676799 -> supports linux64 t.
Proof.
  intros H. unfold supports, linux64. cbn [time_t_min gmtime_min gmtime_max].
  change (- 2 ^ 63) with (-9223372036854775808).
  change (- -9223372036854775808) with 9223372036854775808. lia.
Qed.

Lemma whole_second_filetime_and_webkit_shown_exactly_witness :
  guess_timestamp_format linux64 ((1500000000 + 11644473600) * 10000000)
    = Ok (Datetime (broken_down 1500000000 0), "Windows FileTime")
  /\ guess_timestamp_format linux64 ((1500000000 + 11644473600) * 1000000)
    = Ok (Datetime (broken_down 1500000000 0), "Webkit")
  /\ 2015 <= year (broken_down 1500000000 0) <= 2025.
Proof.
  apply (whole_second_filetime_and_webkit_shown_exactly linux64 1500000000).
  - split; discriminate.
  - apply linux64_supports. split; discriminate.
Defined.

Lemma datetime_ticks_shown_in_local_time_witness :
  guess_timestamp_format (mk_platform (- 2 ^ 63) (-67768040609740800)
                            67768036191676799 (fun _ => 3600))
    (1500000000 * 10000000 + 621355968000000000)
    = Ok (Datetime (broken_down (1500000000 + 3600) 0), "DateTime ticks").
Proof.
  apply (datetime_ticks_shown_in_local_time
           (mk_platform (- 2 ^ 63) (-67768040609740800) 67768036191676799
              (fun _ => 3600)) 1500000000).
  - split; discriminate.
  - unfold supports. cbn. repeat split; discriminate.
  - cbn. split; discriminate.
Defined.

Lemma seconds_fallback_shown_exactly_witness :
  guess_timestamp_format linux64 1735689600
    = Ok (Datetime (broken_down 1735689600 0), "Epoch seconds")
  /\ 1970 <= year (broken_down 1735689600 0) <= 9999.
Proof.
  apply (seconds_fallback_shown_exactly linux64 1735689600).
  - split; discriminate.
  - apply linux64_supports. split; discriminate.
Defined.


Section Milliseconds.

Lemma below_all (p : Z -> bool) n :
  forallb p (below n) = true -> forall v, 0 <= v < Z.of_nat n -> p v = true.
Proof.
  intros H v Hv. rewrite forallb_forall in H. apply H. apply below_In. lia.
Qed.

Lemma two_digits n :
  0 <= n < 100 ->
  exists a b, zero_padded 2 n = [a; b]
              /\ is_digit a = true /\ is_digit b = true.
Proof.
  intros Hn.
  assert (H : two_digits_check n = true)
    by (apply (below_all two_digits_check 100);
        [vm_compute; reflexivity|cbn; lia]).
  unfold two_digits_check in H.
  destruct (zero_padded 2 n) as [|a [|b [|c l]]]; try discriminate H.
  apply andb_true_iff in H. destruct H as [Ha Hb].
  exists a, b. auto.
Qed.

Lemma millis_digits m :
  0 <= m < 1000 ->
  exists a b c, zero_padded 3 m = [a; b; c]
    /\ zero_padded 6 (m * 1000) = [a; b; c; "0"%char; "0"%char; "0"%char]
    /\ is_digit a = true /\ is_digit b = true /\ is_digit c = true.
Proof.
  intros Hm.
  assert (H : millis_digits_check m = true)
    by (apply (below_all millis_digits_check 1000);
        [vm_compute; reflexivity|cbn; lia]).
  unfold millis_digits_check in H.
  destruct (zero_padded 3 m) as [|a [|b [|c [|x l]]]]; try discriminate H.
  destruct (list_eq_dec ascii_dec _ _) as [E|_];
    [|rewrite andb_false_r in H; discriminate H].
  rewrite andb_true_r in H.
  apply andb_true_iff in H. destruct H as [H Hc].
  apply andb_true_iff in H. destruct H as [Ha Hb].
  exists a, b, c. auto.
Qed.

Lemma str_datetime_chars d :
  chars (str_datetime d)
    = (seconds_chars d
       ++ if microsecond d =? 0 then []
          else "."%char :: zero_padded 6 (microsecond d))%list.
Proof.
  unfold str_datetime, seconds_chars. rewrite chars_text.
  cbn [List.concat]. rewrite <- !app_assoc. cbn [app].
  rewrite !app_nil_r. reflexivity.
Qed.

Lemma seconds_chars_broken_down t us :
  seconds_chars (broken_down t us) = seconds_chars (broken_down t 0).
Proof.
  unfold broken_down. destruct (civil_from_days (t / 86400)) as [[y m] d].
  reflexivity.
Qed.

Lemma broken_down_fields t us :
  microsecond (broken_down t us) = us
  /\ 0 <= second (broken_down t us) < 60.
Proof.
  unfold broken_down. destruct (civil_from_days (t / 86400)) as [[y m] d].
  cbn [microsecond second]. split; [reflexivity|].
  apply Z.mod_pos_bound. lia.
Qed.

Lemma firstn_drop_suffix (A : Type) (X Y : list A) :
  firstn (List.length (X ++ Y) - List.length Y) (X ++ Y) = X.
Proof.
  rewrite length_app, Nat.add_sub.
  rewrite firstn_app, Nat.sub_diag, firstn_all. cbn. apply app_nil_r.
Qed.

(** Text that stops at the seconds has no fraction to trim. *)
Lemma trim_whole_seconds d :
  0 <= second d < 60 -> microsecond d = 0 ->
  trim_zero_fractional_seconds (str_datetime d) 3 = str_datetime d.
Proof.
  intros Hs Hus. unfold trim_zero_fractional_seconds.
  rewrite str_datetime_chars, Hus. cbn [Z.eqb]. rewrite app_nil_r.
  unfold seconds_chars.
  destruct (two_digits (second d)) as (a & b & E & Ha & Hb); [lia|].
  rewrite E. rewrite rev_app_distr. cbn [List.rev app].
  unfold fraction_suffix. cbn [firstn skipn forallb List.length Nat.eqb].
  change (code ":"%char =? 48) with false.
  rewrite !andb_false_r. cbn [andb orb].
  reflexivity.
Qed.

(** Text with a millisecond fraction loses exactly the three zeros. *)
Lemma trim_milliseconds d a b c :
  microsecond d <> 0 ->
  zero_padded 6 (microsecond d) = [a; b; c; "0"%char; "0"%char; "0"%char] ->
  is_digit a = true -> is_digit b = true -> is_digit c = true ->
  trim_zero_fractional_seconds (str_datetime d) 3
    = text (seconds_chars d ++ ["."%char; a; b; c]).
Proof.
  intros Hus E Ha Hb Hc. unfold trim_zero_fractional_seconds.
  rewrite str_datetime_chars.
  destruct (Z.eqb_spec (microsecond d) 0) as [H0|_]; [contradiction|].
  rewrite E.
  change ("."%char :: [a; b; c; "0"%char; "0"%char; "0"%char])
    with (["."%char; a; b; c] ++ ["0"%char; "0"%char; "0"%char])%list.
  rewrite app_assoc.
  set (X := (seconds_chars d ++ ["."%char; a; b; c])%list).
  assert (Hr : List.rev (X ++ ["0"%char; "0"%char; "0"%char])
               = "0"%char :: "0"%char :: "0"%char :: c :: b :: a
                 :: "."%char :: List.rev (seconds_chars d)).
  { unfold X. rewrite !rev_app_distr. reflexivity. }
  rewrite Hr. unfold fraction_suffix.
  cbn [firstn skipn forallb List.length Nat.eqb Nat.sub].
  rewrite Ha, Hb, Hc.
  change (code "0"%char =? 48) with true.
  change (code "."%char =? 46) with true. cbn [andb orb].
  change 3%nat with (List.length ["0"%char; "0"%char; "0"%char]).
  rewrite firstn_drop_suffix. reflexivity.
Qed.

Lemma epoch_plus_milliseconds_whole f t :
  F64.is_finite f = true -> F64.trunc f = t ->
  F64.frac f = S754_zero false ->
  0 <= t <= 253402300799999 ->
  epoch_plus_milliseconds f
    = Ok (broken_down (t / 1000) (t mod 1000 * 1000)).
Proof.
  intros Hfin Ht Hfr Hr.
  assert (E : epoch_plus_milliseconds f =
    let us := t * 1000 + 0 in
    let secs := us / 1000000 in
    if 999999999 <? Z.abs (secs / 86400)
    then Raise (OverflowError "days; must have magnitude <= 999999999")
    else
      let d := broken_down secs (us mod 1000000) in
      if (year d <? MINYEAR) || (MAXYEAR <? year d)
      then Raise (OverflowError "date value out of range")
      else Ok d).
  { unfold epoch_plus_milliseconds. rewrite Ht, Hfr.
    destruct f; try discriminate Hfin; reflexivity. }
  rewrite E. cbv zeta.
  replace ((t * 1000 + 0) / 1000000) with (t / 1000)
    by (Z.div_mod_to_equations; lia).
  replace ((t * 1000 + 0) mod 1000000) with (t mod 1000 * 1000)
    by (Z.div_mod_to_equations; lia).
  destruct (Z.ltb_spec 999999999 (Z.abs (t / 1000 / 86400))) as [H|_];
    [exfalso; revert H; Z.div_mod_to_equations; lia|].
  pose proof (year_in_calendar (t / 1000) (t mod 1000 * 1000)) as Hy.
  assert (Hy' : 1970 <= year (broken_down (t / 1000) (t mod 1000 * 1000))
                <= 9999)
    by (apply Hy; Z.div_mod_to_equations; lia).
  unfold MINYEAR, MAXYEAR.
  destruct (Z.ltb_spec (year (broken_down (t / 1000) (t mod 1000 * 1000))) 1);
    [lia|].
  destruct (Z.ltb_spec 9999
              (year (broken_down (t / 1000) (t mod 1000 * 1000)))); [lia|].
  reflexivity.
Qed.

(** The milliseconds decoder up to the end of the year 9999: the UTC second,
    then the three millisecond digits unless they are zero. *)
Lemma milliseconds_decoder_exact ms :
  0 <= ms <= 253402300799999 ->
  decode_epoch_milliseconds ms
    = Ok (Str (text (seconds_chars (broken_down (ms / 1000) 0)
                     ++ if ms mod 1000 =? 0 then []
                        else "."%char :: zero_padded 3 (ms mod 1000))),
          "Epoch milliseconds").
Proof.
  intros Hms. unfold decode_epoch_milliseconds.
  destruct (py_float_whole ms) as (f & Hf & Hfin & Htr & Hfr);
    [change (2 ^ 53) with 9007199254740992; lia|].
  rewrite Hf. cbn [bind].
  rewrite (epoch_plus_milliseconds_whole f ms Hfin Htr Hfr) by lia.
  cbn [bind]. do 2 f_equal.
  set (d := broken_down (ms / 1000) (ms mod 1000 * 1000)).
  destruct (broken_down_fields (ms / 1000) (ms mod 1000 * 1000))
    as [Hus Hsec]. fold d in Hus, Hsec.
  assert (Hm : 0 <= ms mod 1000 < 1000) by (apply Z.mod_pos_bound; lia).
  destruct (Z.eqb_spec (ms mod 1000) 0) as [H0|H0].
  - rewrite trim_whole_seconds by (rewrite ?Hus, ?H0; lia).
    rewrite app_nil_r. rewrite <- (text_chars (str_datetime d)).
    rewrite str_datetime_chars, Hus, H0. cbn [Z.mul Z.eqb].
    rewrite app_nil_r. unfold d.
    rewrite seconds_chars_broken_down. reflexivity.
  - destruct (millis_digits (ms mod 1000) Hm)
      as (a & b & c & E3 & E6 & Ha & Hb & Hc).
    rewrite (trim_milliseconds d a b c); rewrite ?Hus; try assumption;
      try lia.
    rewrite E3. unfold d. rewrite seconds_chars_broken_down. reflexivity.
Qed.

End Milliseconds.


Section Identifiers.


(** X2. A byte string given as its URL-safe base64 encoding is normalised
    to its big-endian value with eight bits per byte, provided the encoding
    does not read as an integer; it never does when the length is not a
    multiple of three, the encoding then ending with padding. *)
Theorem base64_identifier_round_trip bs :
  bytes bs ->
  (List.length bs mod 3 <> 0)%nat
  \/ is_ok (py_int (Base64.urlsafe_b64encode bs)) = false ->
  snowflake_int (Base64.urlsafe_b64encode bs)
    = Ok (from_bytes_big bs, Z.of_nat (List.length bs) * 8)
  /\ is_ok (py_int (Base64.urlsafe_b64encode bs)) = false.
Proof.
  intros Hb Hn.
  assert (Hi : is_ok (py_int (Base64.urlsafe_b64encode bs)) = false).
  { destruct Hn as [Hn|Hn]; [|exact Hn].
    destruct (encode_ends_with_pad bs Hn) as [l Hl].
    unfold Base64.urlsafe_b64encode. rewrite Hl, py_int_trailing_pad.
    reflexivity. }
  split; [|exact Hi].
  unfold snowflake_int.
  destruct (py_int (Base64.urlsafe_b64encode bs)); [discriminate Hi|].
  rewrite (urlsafe_b64decode_encode bs Hb). reflexivity.
Qed.

Lemma push_bytes st v :
  bytes (Base64.out st) -> bytes (Base64.out (Base64.push st v)).
Proof.
  unfold bytes, Base64.push. intros H.
  destruct (Base64.quad_pos st =? 0); [exact H|].
  destruct (Base64.quad_pos st =? 1);
    [|destruct (Base64.quad_pos st =? 2)];
    cbn [Base64.out]; constructor; try exact H; apply byte_range.
Qed.

Lemma scan_bytes l : forall st,
  bytes (Base64.out st) -> bytes (Base64.out (fst (Base64.scan st l))).
Proof.
  induction l as [|c l IH]; intros st H; [exact H|].
  cbn [Base64.scan].
  destruct (code c =? Base64.PAD).
  - destruct (2 <=? Base64.quad_pos st); [|apply IH; exact H].
    destruct (4 <=? Base64.quad_pos st + (Base64.pads st + 1));
      [exact H|apply IH; exact H].
  - destruct (Base64.table_a2b c); apply IH; [apply push_bytes|]; exact H.
Qed.

Lemma a2b_base64_bytes l bs : Base64.a2b_base64 l = Ok bs -> bytes bs.
Proof.
  unfold Base64.a2b_base64.
  pose proof (scan_bytes l Base64.init (Forall_nil _)) as H.
  destruct (Base64.scan Base64.init l) as [st done]. cbn [fst] in H.
  assert (Hr : bytes (List.rev (Base64.out st)))
    by (apply Forall_rev; exact H).
  destruct done; [intros E; injection E as <-; exact Hr|].
  destruct (Base64.quad_pos st =? 0);
    [intros E; injection E as <-; exact Hr|].
  destruct (Base64.quad_pos st =? 1); discriminate.
Qed.

(** X3. Whatever text reaches the base64 path, a value it yields fits the
    total width it comes with, and that width is a whole number of bytes. *)
Theorem base64_path_value_fits_width s v total :
  is_ok (py_int s) = false ->
  snowflake_int s = Ok (v, total) ->
  0 <= v < 2 ^ total /\ 0 <= total /\ total mod 8 = 0.
Proof.
  unfold snowflake_int. intros Hi.
  destruct (py_int s); [discriminate Hi|].
  unfold Base64.urlsafe_b64decode.
  destruct (forallb is_ascii _); [|discriminate].
  destruct (Base64.a2b_base64 _) as [bs|] eqn:E; [|discriminate].
  cbn [bind]. intros H. injection H as <- <-.
  pose proof (from_bytes_big_bound bs (a2b_base64_bytes _ _ E)) as Hb.
  replace (Z.of_nat (List.length bs) * 8) with (8 * Z.of_nat (List.length bs))
    by lia.
  split; [exact Hb|]. split; [lia|].
  rewrite Z.mul_comm. apply Z.mod_mul. lia.
Qed.

(** X4. The shift recovers a field placed in the upper bits: whatever the
    lower [total_bits - ts_bits] bits hold, extraction returns the field,
    and the candidate is the field plus the offset. *)
Theorem upper_bits_round_trip field low total n offset :
  0 <= n <= total ->
  0 <= low < 2 ^ (total - n) ->
  ts_bits (field * 2 ^ (total - n) + low) total n = Ok field
  /\ epoch_adjusted_ts (field * 2 ^ (total - n) + low) total n offset
       = Ok (field + offset).
Proof.
  intros Hn Hlow.
  assert (Hp : 0 < 2 ^ (total - n)) by (apply Z.pow_pos_nonneg; lia).
  assert (Hs : Z.shiftr (field * 2 ^ (total - n) + low) (total - n) = field).
  { rewrite Z.shiftr_div_pow2 by lia.
    rewrite Z.div_add_l by lia. rewrite Z.div_small by lia. lia. }
  assert (Ht : ts_bits (field * 2 ^ (total - n) + low) total n = Ok field).
  { unfold ts_bits, py_rshift.
    destruct (Z.ltb_spec (total - n) 0); [lia|]. rewrite Hs. reflexivity. }
  split; [exact Ht|].
  unfold epoch_adjusted_ts. rewrite Ht. reflexivity.
Qed.

End Identifiers.

Lemma base64_identifier_round_trip_witness :
  snowflake_int (Base64.urlsafe_b64encode [18; 52; 86; 120])
    = Ok (from_bytes_big [18; 52; 86; 120],
          Z.of_nat (List.length [18; 52; 86; 120]) * 8)
  /\ is_ok (py_int (Base64.urlsafe_b64encode [18; 52; 86; 120])) = false.
Proof.
  apply (base64_identifier_round_trip [18; 52; 86; 120]).
  - repeat constructor; discriminate.
  - left. discriminate.
Defined.

Lemma base64_path_value_fits_width_witness :
  0 <= 210742316730774955639584891827970055915 < 2 ^ 128
  /\ 0 <= 128 /\ 128 mod 8 = 0.
Proof.
  apply (base64_path_value_fits_width "not-a-number-or-base64!!!");
    vm_compute; reflexivity.
Defined.

Lemma upper_bits_round_trip_witness :
  ts_bits (282788519740 * 2 ^ (64 - 42) + 4194303) 64 42 = Ok 282788519740
  /\ epoch_adjusted_ts (282788519740 * 2 ^ (64 - 42) + 4194303) 64 42
       1288834974657
     = Ok (282788519740 + 1288834974657).
Proof.
  apply (upper_bits_round_trip 282788519740 4194303 64 42 1288834974657).
  - split; discriminate.
  - split; [discriminate|reflexivity].
Defined.

Section Display.

Variable P : platform.

Ltac decoder_name :=
  unfold bind;
  repeat match goal with
  | |- context [match ?r with Ok _ => _ | Raise _ => _ end] =>
      destruct r; [|discriminate]
  end;
  let H := fresh in intros H; injection H as _ H; symmetry; exact H.

Lemma decode_epoch_seconds_name c v name :
  decode_epoch_seconds P c = Ok (v, name) -> name = "Epoch seconds".
Proof. unfold decode_epoch_seconds. decoder_name. Qed.

Lemma decode_epoch_milliseconds_name c v name :
  decode_epoch_milliseconds c = Ok (v, name) -> name = "Epoch milliseconds".
Proof. unfold decode_epoch_milliseconds. decoder_name. Qed.

Lemma decode_webkit_name c v name :
  decode_webkit P c = Ok (v, name) -> name = "Webkit".
Proof. unfold decode_webkit, webkit_seconds. decoder_name. Qed.

Lemma decode_windows_filetime_name c v name :
  decode_windows_filetime P c = Ok (v, name) -> name = "Windows FileTime".
Proof.
  unfold decode_windows_filetime, windows_filetime_seconds. decoder_name.
Qed.

Lemma decode_datetime_ticks_name c v name :
  decode_datetime_ticks P c = Ok (v, name) -> name = "DateTime ticks".
Proof.
  unfold decode_datetime_ticks, datetime_ticks_seconds. decoder_name.
Qed.

(** X10. Whatever the candidate, a result is shown under one of six names;
    "Epoch centiseconds" and "Epoch ten-microsecond increments" never
    appear, their decoders being unreachable from the classification. *)
Theorem shown_name_is_one_of_six c v name :
  guess_timestamp_format P c = Ok (v, name) ->
  In name shown_names
  /\ name <> "Epoch centiseconds"
  /\ name <> "Epoch ten-microsecond increments".
Proof.
  intros H.
  assert (Hin : In name shown_names).
  { unfold guess_timestamp_format in H. unfold shown_names.
    repeat match type of H with
    | (if ?b then _ else _) = _ => destruct b
    end.
    - apply decode_windows_filetime_name in H. subst. cbn. tauto.
    - apply decode_datetime_ticks_name in H. subst. cbn. tauto.
    - apply decode_webkit_name in H. subst. cbn. tauto.
    - apply decode_epoch_microseconds_name in H. subst. cbn. tauto.
    - apply decode_epoch_microseconds_name in H. subst. cbn. tauto.
    - apply decode_epoch_milliseconds_name in H. subst. cbn. tauto.
    - apply decode_epoch_seconds_name in H. subst. cbn. tauto. }
  split; [exact Hin|].
  unfold shown_names in Hin. cbn [In] in Hin.
  split; intros E; subst name;
    repeat (destruct Hin as [Hin|Hin]; [discriminate Hin|]); exact Hin.
Qed.

Lemma bin_of_pos_length p : forall acc,
  List.length (bin_of_pos p acc)
    = (Pos.to_nat (digits2_pos p) + List.length acc)%nat.
Proof.
  induction p as [p IH|p IH|]; intros acc; cbn [bin_of_pos digits2_pos].
  - rewrite IH. cbn [List.length]. lia.
  - rewrite IH. cbn [List.length]. lia.
  - cbn [List.length]. lia.
Qed.

Lemma bin_of_pos_value p : forall acc v0,
  fold_left (fun a c => 2 * a + (code c - 48)) (bin_of_pos p acc) v0
    = fold_left (fun a c => 2 * a + (code c - 48)) acc
        (v0 * 2 ^ Zpos (digits2_pos p) + Zpos p).
Proof.
  induction p as [p IH|p IH|]; intros acc v0; cbn [bin_of_pos digits2_pos].
  - rewrite IH. cbn [fold_left]. f_equal.
    rewrite Pos2Z.inj_succ, Z.pow_succ_r by lia.
    change (code "1"%char - 48) with 1. lia.
  - rewrite IH. cbn [fold_left]. f_equal.
    rewrite Pos2Z.inj_succ, Z.pow_succ_r by lia.
    change (code "0"%char - 48) with 0. lia.
  - cbn [fold_left]. f_equal. change (code "1"%char - 48) with 1.
    change (2 ^ 1) with 2. lia.
Qed.

Lemma zeros_value n v0 :
  fold_left (fun a c => 2 * a + (code c - 48)) (repeat "0"%char n) v0
    = v0 * 2 ^ Z.of_nat n.
Proof.
  revert v0. induction n as [|n IH]; intros v0.
  - cbn. lia.
  - cbn [repeat fold_left]. rewrite IH.
    rewrite Nat2Z.inj_succ, Z.pow_succ_r by lia.
    change (code "0"%char - 48) with 0. lia.
Qed.

(** A value that fits the width is formatted to exactly [width] binary
    digits, which denote it. *)
Lemma format_bin_fits x width :
  1 <= width -> 0 <= x < 2 ^ width ->
  exists s, format_bin x width = Ok s
            /\ List.length (chars s) = Z.to_nat width
            /\ bin_value (chars s) = x.
Proof.
  intros Hw Hx. unfold format_bin.
  destruct (Z.ltb_spec width 0); [lia|].
  eexists. split; [reflexivity|]. rewrite chars_text.
  unfold pad_left, bin_value.
  destruct x as [|p|p]; [| |lia].
  - cbn [List.length]. rewrite length_app, repeat_length. cbn [List.length].
    split; [lia|].
    rewrite fold_left_app, zeros_value. reflexivity.
  - pose proof (digits2_pos_bounds p) as Hd.
    assert (Hdw : Zpos (digits2_pos p) <= width).
    { destruct (Z.le_gt_cases (Zpos (digits2_pos p)) width) as [H1|H1];
        [exact H1|].
      assert (2 ^ width <= 2 ^ (Zpos (digits2_pos p) - 1))
        by (apply Z.pow_le_mono_r; lia). lia. }
    rewrite length_app, repeat_length, bin_of_pos_length.
    cbn [List.length]. split; [lia|].
    rewrite fold_left_app, zeros_value, bin_of_pos_value.
    cbn [fold_left]. lia.
Qed.

(** The candidate of a decimal identifier of at most 64 bits. *)
Lemma decimal_candidate a v n o :
  arg_snowflake a = py_str_int v ->
  0 <= v < 2 ^ 64 -> 0 <= n <= 64 ->
  candidate a n o = Ok (Z.shiftr v (64 - n) + o).
Proof.
  intros Hs Hv Hn.
  unfold candidate. rewrite Hs, snowflake_int_of_decimal by lia.
  cbn [bind].
  destruct (format_bin_ok v 64) as [s1 ->]; [lia|]. cbn [bind].
  unfold ts_bits, py_rshift.
  destruct (Z.ltb_spec (64 - n) 0); [lia|]. cbn [bind].
  destruct (format_bin_ok (Z.shiftr v (64 - n)) n) as [s2 ->]; [lia|].
  reflexivity.
Qed.

(** X15. No candidate lies in two of the six ranges, so the order in which
    the chain tests them never decides the outcome; outside the
    ten-microsecond range the chain, which tests Windows FileTime first,
    decodes as the table that lists DateTime ticks first. *)
Theorem ranges_are_disjoint c :
  (List.length
     (filter (fun row => in_range (snd (fst row)) (snd row) c)
             classification_table) <= 1)%nat
  /\ (in_range 140007040000000 173568960000000 c = false ->
      guess_timestamp_format P c = rule_decoder P (classify c) c).
Proof.
  split.
  - unfold classification_table, in_range. cbn [filter fst snd].
    repeat match goal with
    | |- context [Z.leb ?a ?b] =>
        destruct (Z.leb_spec a b); cbn [andb]; try lia
    end; cbn [List.length]; lia.
  - intros H. apply guess_follows_table_elsewhere. intros E.
    unfold classify, classification_table, first_match in E.
    unfold in_range in *.
    repeat match type of E with
    | context [Z.leb ?a ?b] =>
        destruct (Z.leb_spec a b); cbn [andb] in *; try lia
    end; discriminate.
Qed.

End Display.

Lemma shown_name_is_one_of_six_witness :
  In "Epoch milliseconds" shown_names
  /\ "Epoch milliseconds" <> "Epoch centiseconds"
  /\ "Epoch milliseconds" <> "Epoch ten-microsecond increments".
Proof.
  apply (shown_name_is_one_of_six linux64 1500000000000
           (Str "2017-07-14 02:40:00")).
  vm_compute. reflexivity.
Defined.

Section BinaryLines.

Lemma bin_fold_linear l : forall v0,
  fold_left (fun a c => 2 * a + (code c - 48)) l v0
    = v0 * 2 ^ Z.of_nat (List.length l)
      + fold_left (fun a c => 2 * a + (code c - 48)) l 0.
Proof.
  induction l as [|c l IH]; intros v0.
  - cbn. lia.
  - cbn [fold_left List.length]. rewrite IH, (IH (2 * 0 + (code c - 48))).
    rewrite Nat2Z.inj_succ, Z.pow_succ_r by lia. lia.
Qed.

Lemma bin_value_app l1 l2 :
  bin_value (l1 ++ l2)
    = bin_value l1 * 2 ^ Z.of_nat (List.length l2) + bin_value l2.
Proof.
  unfold bin_value. rewrite fold_left_app. apply bin_fold_linear.
Qed.

Lemma bin_value_bound l :
  Forall is_bit l -> 0 <= bin_value l < 2 ^ Z.of_nat (List.length l).
Proof.
  induction l as [|c l IH]; intros H.
  - cbn. lia.
  - inversion H as [|? ? Hc Hl]; subst. specialize (IH Hl).
    change (c :: l) with ([c] ++ l)%list. rewrite bin_value_app.
    cbn [List.length app]. rewrite Nat2Z.inj_succ, Z.pow_succ_r by lia.
    assert (Hp : 0 < 2 ^ Z.of_nat (List.length l))
      by (apply Z.pow_pos_nonneg; lia).
    destruct Hc as [-> | ->].
    + change (bin_value ["0"%char]) with 0. lia.
    + change (bin_value ["1"%char]) with 1. lia.
Qed.

(** Binary texts of the same length that denote the same number are the
    same text. *)
Lemma bin_value_inj l1 : forall l2,
  Forall is_bit l1 -> Forall is_bit l2 ->
  List.length l1 = List.length l2 ->
  bin_value l1 = bin_value l2 -> l1 = l2.
Proof.
  induction l1 as [|c1 l1 IH]; intros l2 H1 H2 Hlen Hv.
  - destruct l2; [reflexivity|discriminate Hlen].
  - destruct l2 as [|c2 l2]; [discriminate Hlen|].
    inversion H1 as [|? ? Hc1 Hl1]; subst.
    inversion H2 as [|? ? Hc2 Hl2]; subst.
    injection Hlen as Hlen.
    change (c1 :: l1) with ([c1] ++ l1)%list in Hv.
    change (c2 :: l2) with ([c2] ++ l2)%list in Hv.
    rewrite !bin_value_app in Hv. rewrite <- Hlen in Hv.
    pose proof (bin_value_bound l1 Hl1) as B1.
    pose proof (bin_value_bound l2 Hl2) as B2. rewrite <- Hlen in B2.
    assert (Hp : 0 < 2 ^ Z.of_nat (List.length l1))
      by (apply Z.pow_pos_nonneg; lia).
    destruct Hc1 as [-> | ->], Hc2 as [-> | ->];
      change (bin_value ["0"%char]) with 0 in Hv;
      change (bin_value ["1"%char]) with 1 in Hv;
      try (f_equal; apply IH; assumption || lia); exfalso; lia.
Qed.

Lemma bin_of_pos_bits p : forall acc,
  Forall is_bit acc -> Forall is_bit (bin_of_pos p acc).
Proof.
  induction p as [p IH|p IH|]; intros acc H; cbn [bin_of_pos].
  - apply IH. constructor; [right; reflexivity|exact H].
  - apply IH. constructor; [left; reflexivity|exact H].
  - constructor; [right; reflexivity|exact H].
Qed.

Lemma format_bin_bits x width s :
  0 <= x -> format_bin x width = Ok s -> Forall is_bit (chars s).
Proof.
  intros Hx. unfold format_bin.
  destruct (width <? 0); [discriminate|].
  intros H. injection H as <-. rewrite chars_text. unfold pad_left.
  apply Forall_app. split.
  - apply Forall_forall. intros c Hc. apply repeat_spec in Hc.
    left. exact Hc.
  - destruct x as [|p|p]; [| |lia].
    + constructor; [left; reflexivity|constructor].
    + apply bin_of_pos_bits. constructor.
Qed.

Lemma firstn_common_prefix (A : Type) (X Y Z : list A) n :
  (n <= List.length X)%nat -> firstn n (X ++ Y) = firstn n (X ++ Z).
Proof.
  intros H. rewrite !firstn_app.
  replace (n - List.length X)%nat with 0%nat by lia. reflexivity.
Qed.

(** X12. The line of extracted bits is printed exactly under the upper bits
    of the identifier's binary line: it consists of the first [ts_bits]
    digits of that line, and both lines start in the same column. *)
Theorem extracted_bits_sit_under_upper_bits value total n :
  1 <= n <= total -> 0 <= value < 2 ^ total ->
  exists full t bits,
    format_bin value total = Ok full
    /\ ts_bits value total n = Ok t
    /\ format_bin t n = Ok bits
    /\ chars bits = firstn (Z.to_nat n) (chars full)
    /\ forall columns, (columns <= (70 - Z.to_nat total) / 2 + Z.to_nat n)%nat ->
         firstn columns (chars (center_with_offset bits (total - n)))
           = firstn columns (chars (center_on_console full)).
Proof.
  intros Hn Hv.
  destruct (format_bin_fits value total)
    as (full & Hfull & Lfull & Vfull); [lia|exact Hv|].
  pose proof (shiftr_upper_bits_bound value total n Hv) as Hb.
  assert (Ht : ts_bits value total n = Ok (Z.shiftr value (total - n))).
  { unfold ts_bits, py_rshift.
    destruct (Z.ltb_spec (total - n) 0); [lia|reflexivity]. }
  set (t := Z.shiftr value (total - n)) in *.
  destruct (format_bin_fits t n)
    as (bits & Hbits & Lbits & Vbits); [lia|lia|].
  exists full, t, bits.
  split; [exact Hfull|]. split; [exact Ht|]. split; [exact Hbits|].
  pose proof (format_bin_bits value total full (proj1 Hv) Hfull) as Bfull.
  assert (Bbits : Forall is_bit (chars bits))
    by (apply (format_bin_bits t n bits); [lia|exact Hbits]).
  assert (Hprefix : chars bits = firstn (Z.to_nat n) (chars full)).
  { assert (Hsplit : chars full
                     = (firstn (Z.to_nat n) (chars full)
                        ++ skipn (Z.to_nat n) (chars full))%list)
      by (symmetry; apply firstn_skipn).
    assert (B : Forall is_bit (firstn (Z.to_nat n) (chars full)
                               ++ skipn (Z.to_nat n) (chars full)))
      by (rewrite <- Hsplit; exact Bfull).
    apply Forall_app in B. destruct B as [Bf Bs].
    assert (Lf : List.length (firstn (Z.to_nat n) (chars full)) = Z.to_nat n)
      by (rewrite length_firstn; lia).
    assert (Ls : Z.of_nat (List.length (skipn (Z.to_nat n) (chars full)))
                 = total - n)
      by (rewrite length_skipn; lia).
    apply bin_value_inj; try assumption; [lia|].
    rewrite Vbits.
    pose proof (bin_value_bound _ Bs) as B2. rewrite Ls in B2.
    pose proof (bin_value_app (firstn (Z.to_nat n) (chars full))
                  (skipn (Z.to_nat n) (chars full))) as Happ.
    rewrite <- Hsplit, Vfull, Ls in Happ.
    unfold t. rewrite Z.shiftr_div_pow2 by lia.
    assert (Hp : 0 < 2 ^ (total - n)) by (apply Z.pow_pos_nonneg; lia).
    rewrite Happ, Z.div_add_l by lia.
    rewrite (Z.div_small (bin_value _)) by lia. lia. }
  split; [exact Hprefix|].
  intros columns Hc.
  unfold center_with_offset, center_on_console, CONSOLE_WIDTH.
  rewrite !chars_text.
  assert (Hlen : List.length (chars bits ++ spaces (Z.to_nat (total - n)))
                 = Z.to_nat total)
    by (rewrite length_app; unfold spaces; rewrite repeat_length; lia).
  unfold center. rewrite Hlen, Lfull.
  set (left := ((70 - Z.to_nat total) / 2)%nat) in *.
  set (right := (70 - Z.to_nat total - left)%nat).
  assert (Hfull' : chars full
                   = (chars bits ++ skipn (Z.to_nat n) (chars full))%list)
    by (rewrite Hprefix; symmetry; apply firstn_skipn).
  rewrite Hfull' at 1.
  replace (spaces left
           ++ (chars bits ++ spaces (Z.to_nat (total - n))) ++ spaces right)%list
    with ((spaces left ++ chars bits)
          ++ (spaces (Z.to_nat (total - n)) ++ spaces right))%list
    by (rewrite <- !app_assoc; reflexivity).
  replace (spaces left
           ++ (chars bits ++ skipn (Z.to_nat n) (chars full))
           ++ spaces right)%list
    with ((spaces left ++ chars bits)
          ++ (skipn (Z.to_nat n) (chars full) ++ spaces right))%list
    by (rewrite <- !app_assoc; reflexivity).
  apply firstn_common_prefix.
  rewrite length_app. unfold spaces. rewrite repeat_length. lia.
Qed.

End BinaryLines.

Lemma extracted_bits_sit_under_upper_bits_witness :
  exists full t bits,
    format_bin 1186101019500929024 64 = Ok full
    /\ ts_bits 1186101019500929024 64 42 = Ok t
    /\ format_bin t 42 = Ok bits
    /\ chars bits = firstn (Z.to_nat 42) (chars full)
    /\ forall columns,
         (columns <= (70 - Z.to_nat 64) / 2 + Z.to_nat 42)%nat ->
         firstn columns (chars (center_with_offset bits (64 - 42)))
           = firstn columns (chars (center_on_console full)).
Proof.
  apply (extracted_bits_sit_under_upper_bits 1186101019500929024 64 42).
  - split; discriminate.
  - split; [discriminate|reflexivity].
Defined.


Section Trimming.

Variable n : nat.
Hypothesis Hn : (1 <= n <= 6)%nat.

Lemma forallb_nth_error (A : Type) (p : A -> bool) l i x :
  forallb p l = true -> nth_error l i = Some x -> p x = true.
Proof.
  intros H E. rewrite forallb_forall in H. apply H.
  exact (nth_error_In _ _ E).
Qed.

Lemma nth_error_exists (A : Type) (l : list A) i :
  (i < List.length l)%nat -> exists x, nth_error l i = Some x.
Proof.
  intros H. destruct (nth_error l i) as [x|] eqn:E; [exists x; reflexivity|].
  apply nth_error_None in E. lia.
Qed.

(** What a matching suffix looks like on the reversed text: six digit
    characters, then the point. *)
Lemma fraction_suffix_shape x :
  fraction_suffix n x = true ->
  (forall i, (i < 6)%nat ->
     exists c, nth_error x i = Some c /\ 48 <= code c <= 57)
  /\ exists c, nth_error x 6 = Some c /\ code c = 46.
Proof.
  unfold fraction_suffix. intros H.
  apply andb_true_iff in H. destruct H as [H Hpoint].
  apply andb_true_iff in H. destruct H as [H Hdigits].
  apply andb_true_iff in H. destruct H as [H Hlen2].
  apply andb_true_iff in H. destruct H as [Hlen1 Hzeros].
  apply Nat.eqb_eq in Hlen1. apply Nat.eqb_eq in Hlen2.
  split.
  - intros i Hi. destruct (Nat.lt_ge_cases i n) as [Hlt|Hge].
    + destruct (nth_error_exists _ (firstn n x) i) as [c Hc]; [lia|].
      exists c. split.
      * rewrite nth_error_firstn in Hc.
        destruct (Nat.ltb_spec i n); [exact Hc|lia].
      * pose proof (forallb_nth_error _ _ _ _ _ Hzeros Hc) as Hz.
        cbv beta in Hz. apply Z.eqb_eq in Hz. lia.
    + destruct (nth_error_exists _ (firstn (6 - n) (skipn n x)) (i - n))
        as [c Hc]; [lia|].
      exists c. split.
      * rewrite nth_error_firstn in Hc.
        destruct (Nat.ltb_spec (i - n) (6 - n)); [|lia].
        rewrite nth_error_skipn in Hc.
        replace (n + (i - n))%nat with i in Hc by lia. exact Hc.
      * pose proof (forallb_nth_error _ _ _ _ _ Hdigits Hc) as Hd.
        unfold is_digit in Hd. apply andb_true_iff in Hd.
        destruct Hd as [H1 H2]. apply Z.leb_le in H1. apply Z.leb_le in H2.
        lia.
  - destruct (skipn (6 - n) (skipn n x)) as [|c tl] eqn:E; [discriminate|].
    exists c. split; [|apply Z.eqb_eq; exact Hpoint].
    pose proof (hd_error_skipn (6 - n) (skipn n x)) as Hh.
    rewrite E in Hh. cbn [hd_error] in Hh.
    rewrite nth_error_skipn in Hh.
    replace (n + (6 - n))%nat with 6%nat in Hh by lia. symmetry. exact Hh.
Qed.

(** After the cut nothing matches any more: the point now stands among the
    last six characters. *)
Lemma fraction_suffix_after_cut x :
  fraction_suffix n x = true ->
  fraction_suffix n (skipn n x) = false
  /\ match skipn n x with
     | c :: x' => (code c =? 10) && fraction_suffix n x' = false
     | [] => True
     end.
Proof.
  intros H. destruct (fraction_suffix_shape x H) as [Hdig [p [Hp Hp46]]].
  split.
  - destruct (fraction_suffix n (skipn n x)) eqn:E; [|reflexivity].
    destruct (fraction_suffix_shape _ E) as [Hdig' _].
    destruct (Hdig' (6 - n)%nat) as [c [Hc Hr]]; [lia|].
    rewrite nth_error_skipn in Hc.
    replace (n + (6 - n))%nat with 6%nat in Hc by lia.
    rewrite Hp in Hc. injection Hc as <-. lia.
  - destruct (skipn n x) as [|c x'] eqn:E; [exact I|].
    assert (Hc : nth_error x n = Some c).
    { pose proof (hd_error_skipn n x) as Hh. rewrite E in Hh.
      symmetry. exact Hh. }
    assert (Hne : code c <> 10).
    { destruct (Nat.eq_dec n 6) as [E6|E6].
      - rewrite E6 in Hc. rewrite Hp in Hc. injection Hc as <-. lia.
      - destruct (Hdig n) as [c' [Hc' Hr]]; [lia|].
        rewrite Hc in Hc'. injection Hc' as <-. lia. }
    apply Z.eqb_neq in Hne. rewrite Hne. reflexivity.
Qed.

(** X13. Trimming is idempotent on text that does not end with a newline,
    as is every text the decoders build: once the trailing zeros are cut, a
    second pass finds nothing to cut. *)
Theorem trim_is_idempotent s :
  no_final_newline s ->
  trim_zero_fractional_seconds (trim_zero_fractional_seconds s n) n
    = trim_zero_fractional_seconds s n.
Proof.
  intros Hnl.
  destruct (fraction_suffix n (List.rev (chars s))) eqn:Hf.
  - assert (E : trim_zero_fractional_seconds s n
                = text (firstn (List.length (chars s) - n) (chars s))).
    { unfold trim_zero_fractional_seconds. rewrite Hf. reflexivity. }
    rewrite E.
    unfold trim_zero_fractional_seconds at 1. rewrite chars_text.
    rewrite <- skipn_rev.
    destruct (fraction_suffix_after_cut _ Hf) as [H1 H2].
    rewrite H1. cbn [orb].
    destruct (skipn n (List.rev (chars s))) as [|c x']; [reflexivity|].
    rewrite H2. reflexivity.
  - assert (E : trim_zero_fractional_seconds s n = s).
    { unfold trim_zero_fractional_seconds. rewrite Hf. cbn [orb].
      unfold no_final_newline in Hnl.
      destruct (List.rev (chars s)) as [|c r']; [reflexivity|].
      apply Z.eqb_neq in Hnl. rewrite Hnl. reflexivity. }
    rewrite !E. reflexivity.
Qed.

End Trimming.

Lemma trim_is_idempotent_witness :
  trim_zero_fractional_seconds
    (trim_zero_fractional_seconds "2017-07-14 02:40:00.123000" 3) 3
  = trim_zero_fractional_seconds "2017-07-14 02:40:00.123000" 3.
Proof.
  apply (trim_is_idempotent 3).
  - split; [apply le_S, le_S, le_n|apply le_S, le_S, le_S, le_n].
  - unfold no_final_newline. cbn. discriminate.
Defined.


Section WholeQuotients.

(** Every positive integer below [2^53] lies in one binade. *)
Lemma binade n :
  0 < n < 2 ^ 53 ->
  exists j, 0 <= j <= 52 /\ 2 ^ (52 - j) <= n < 2 ^ (53 - j).
Proof.
  intros H. destruct n as [|p|p]; try lia.
  pose proof (digits2_pos_bounds p) as Hd.
  set (d := Zpos (digits2_pos p)) in *.
  assert (Hd53 : d <= 53).
  { destruct (Z.le_gt_cases d 53) as [H1|H1]; [exact H1|].
    assert (2 ^ 53 <= 2 ^ (d - 1)) by (apply Z.pow_le_mono_r; lia). lia. }
  assert (Hd1 : 1 <= d) by (unfold d; lia).
  exists (53 - d). split; [lia|].
  replace (52 - (53 - d)) with (d - 1) by lia.
  replace (53 - (53 - d)) with d by lia. exact Hd.
Qed.

Lemma binade_scaled n j :
  0 <= j <= 52 -> 2 ^ (52 - j) <= n < 2 ^ (53 - j) ->
  2 ^ 52 <= n * 2 ^ j < 2 ^ 53.
Proof.
  intros Hj Hn.
  assert (0 < 2 ^ (52 - j)) by (apply Z.pow_pos_nonneg; lia).
  assert (0 < 2 ^ j) by (apply Z.pow_pos_nonneg; lia).
  assert (E52 : 2 ^ 52 = 2 ^ (52 - j) * 2 ^ j)
    by (rewrite <- Z.pow_add_r by lia; f_equal; lia).
  assert (E53 : 2 ^ 53 = 2 ^ (53 - j) * 2 ^ j)
    by (rewrite <- Z.pow_add_r by lia; f_equal; lia).
  rewrite E52, E53. nia.
Qed.

(** Dividing a multiple by its factor is exact in binary64 as long as the
    multiple is below [2^53]. *)
Lemma div_whole n d :
  0 < n -> 0 < d -> n * d < 2 ^ 53 ->
  F64.div (F64.of_Z (n * d)) (F64.of_Z d) = F64.of_Z n.
Proof.
  intros Hn Hd Hnd.
  assert (Hn53 : n < 2 ^ 53) by nia.
  assert (Hd53 : d < 2 ^ 53) by nia.
  destruct (binade n) as (jn & Hjn & Bn); [lia|].
  destruct (binade d) as (jd & Hjd & Bd); [lia|].
  destruct (binade (n * d)) as (jq & Hjq & Bq); [nia|].
  rewrite (of_Z_whole n jn), (of_Z_whole d jd), (of_Z_whole (n * d) jq)
    by assumption.
  pose proof (binade_scaled n jn Hjn Bn) as Sn.
  pose proof (binade_scaled d jd Hjd Bd) as Sd.
  pose proof (binade_scaled (n * d) jq Hjq Bq) as Sq.
  assert (Pn : 0 < 2 ^ (52 - jn)) by (apply Z.pow_pos_nonneg; lia).
  assert (Pd : 0 < 2 ^ (52 - jd)) by (apply Z.pow_pos_nonneg; lia).
  (* the exponents are tied by the sizes of the three numbers *)
  assert (Hlo : jq + 52 <= jn + jd).
  { assert (L : 2 ^ (52 - jn) * 2 ^ (52 - jd) <= n * d) by nia.
    rewrite <- Z.pow_add_r in L by lia.
    assert (L' : 2 ^ (52 - jn + (52 - jd)) < 2 ^ (53 - jq)) by lia.
    apply Z.pow_lt_mono_r_iff in L'; lia. }
  assert (Hhi : jn + jd <= jq + 53).
  { assert (U : n * d < 2 ^ (53 - jn) * 2 ^ (53 - jd)) by nia.
    rewrite <- Z.pow_add_r in U by lia.
    assert (U' : 2 ^ (52 - jq) < 2 ^ (53 - jn + (53 - jd))) by lia.
    apply Z.pow_lt_mono_r_iff in U'; lia. }
  set (t := jq + 53 - jd - jn).
  assert (Pt : 0 < 2 ^ (jq + 53 - jd)) by (apply Z.pow_pos_nonneg; lia).
  replace (- jn) with (- jq - (- jd) - 53 + t) by (unfold t; lia).
  apply (div_exact _ (- jq) _ (- jd) 53 53 53
           (Z.to_pos (n * 2 ^ (jq + 53 - jd))) (Z.to_pos (n * 2 ^ jn)) t);
    rewrite ?Z2Pos.id by lia; try lia.
  - apply digits2_pos_unique. rewrite Z2Pos.id by lia.
    change (53 - 1) with 52. exact Sq.
  - apply digits2_pos_unique. rewrite Z2Pos.id by lia.
    change (53 - 1) with 52. exact Sd.
  - assert (E : 2 ^ jq * 2 ^ 53 = 2 ^ jd * 2 ^ (jq + 53 - jd))
      by (rewrite <- !Z.pow_add_r by lia; f_equal; lia).
    transitivity (n * d * (2 ^ jq * 2 ^ 53)); [ring|].
    rewrite E. ring.
  - assert (E : 2 ^ (jq + 53 - jd) = 2 ^ jn * 2 ^ t)
      by (rewrite <- Z.pow_add_r by (unfold t; lia); f_equal; unfold t; lia).
    rewrite E. ring.
Qed.

Lemma py_float_value n f : py_float n = Ok f -> f = F64.of_Z n.
Proof.
  unfold py_float. destruct (F64.of_Z n); intros H;
    try (injection H as <-; reflexivity); discriminate H.
Qed.

End WholeQuotients.

(** A text without a fraction is left alone whatever the number of zeros to
    trim. *)
Lemma trim_no_fraction n d :
  (1 <= n <= 6)%nat -> 0 <= second d < 60 -> microsecond d = 0 ->
  trim_zero_fractional_seconds (str_datetime d) n = str_datetime d.
Proof.
  intros Hn Hs Hus. unfold trim_zero_fractional_seconds.
  rewrite str_datetime_chars, Hus. cbn [Z.eqb]. rewrite app_nil_r.
  unfold seconds_chars.
  destruct (two_digits (second d)) as (a & b & E & Ha & Hb); [lia|].
  rewrite E. rewrite rev_app_distr. cbn [List.rev app].
  set (rest := List.rev _).
  assert (H1 : fraction_suffix n (b :: a :: ":"%char :: rest) = false).
  { destruct (fraction_suffix n _) eqn:F; [|reflexivity].
    destruct (fraction_suffix_shape n Hn _ F) as [Hdig _].
    destruct (Hdig 2%nat) as [c [Hc Hr]]; [lia|].
    cbn in Hc. injection Hc as <-. cbn in Hr. lia. }
  rewrite H1. cbn [orb].
  assert (Hb10 : (code b =? 10) = false).
  { unfold is_digit in Hb. apply andb_true_iff in Hb. destruct Hb as [Hb _].
    apply Z.leb_le in Hb. apply Z.eqb_neq. lia. }
  rewrite Hb10. reflexivity.
Qed.

Section DividingDecoders.

Variable P : platform.

Ltac year_bounds :=
  unfold civil_from_days; cbv zeta;
  repeat match goal with
  | |- context [Z.ltb ?a ?b] => destruct (Z.ltb_spec a b)
  | |- context [Z.leb ?a ?b] => destruct (Z.leb_spec a b)
  end; cbn [fst]; Z.div_mod_to_equations; lia.

Ltac branch_of_range :=
  unfold guess_timestamp_format;
  repeat match goal with
  | |- context [Z.leb ?a ?b] =>
      destruct (Z.leb_spec a b); cbn [andb]; try lia
  end; try reflexivity.

(** The text of a whole second has no fraction. *)
Lemma str_whole_second k :
  chars (str_datetime (broken_down k 0)) = seconds_chars (broken_down k 0).
Proof.
  rewrite str_datetime_chars.
  destruct (broken_down_fields k 0) as [-> _]. cbn [Z.eqb].
  apply app_nil_r.
Qed.

Lemma quotient_instant k d :
  0 <= k <= 253402300799 -> 0 < d < 2 ^ 53 -> k * d < 2 ^ 53 ->
  supports P k ->
  forall f, py_float (k * d) = Ok f ->
  utcfromtimestamp P (F64.div f (F64.of_Z d)) = Ok (broken_down k 0).
Proof.
  intros Hk Hd Hkd Hs f Hf.
  apply py_float_value in Hf. subst f.
  destruct (Z.eq_dec k 0) as [->|Hk0].
  - rewrite Z.mul_0_l.
    assert (E : F64.div (F64.of_Z 0) (F64.of_Z d) = F64.of_Z 0).
    { destruct (binade d) as (jd & Hjd & Bd); [lia|].
      rewrite (of_Z_whole d jd) by assumption. reflexivity. }
    rewrite E. apply utcfromtimestamp_of_Z; [lia|exact Hs].
  - rewrite div_whole by lia.
    apply utcfromtimestamp_of_Z; assumption.
Qed.

(** X16. On a whole second the three decoders that divide agree with the
    seconds decoder: centiseconds, ten-microsecond increments and
    microseconds of the same instant are shown as the same text, without a
    fraction, the division being exact. *)
Theorem dividing_decoders_agree_on_whole_seconds k :
  0 <= k <= 9007199254 -> supports P k ->
  decode_epoch_centiseconds P (k * 100)
    = Ok (Str (str_datetime (broken_down k 0)), "Epoch centiseconds")
  /\ decode_epoch_ten_microseconds P (k * 100000)
    = Ok (Str (str_datetime (broken_down k 0)),
          "Epoch ten-microsecond increments")
  /\ decode_epoch_microseconds P (k * 1000000)
    = Ok (Str (str_datetime (broken_down k 0)), "Epoch microseconds")
  /\ decode_epoch_seconds P k
    = Ok (Datetime (broken_down k 0), "Epoch seconds")
  /\ chars (str_datetime (broken_down k 0))
    = seconds_chars (broken_down k 0).
Proof.
  intros Hk Hs.
  destruct (broken_down_fields k 0) as [Hus Hsec].
  assert (H53 : 2 ^ 53 = 9007199254740992) by reflexivity.
  split; [|split; [|split; [|split]]].
  - unfold decode_epoch_centiseconds.
    destruct (py_float_whole (k * 100)) as (f & Hf & _); [lia|].
    rewrite Hf. cbn [bind].
    rewrite (quotient_instant k 100) by (try discriminate; try assumption; lia).
    cbn [bind]. rewrite trim_no_fraction by (assumption || lia).
    reflexivity.
  - unfold decode_epoch_ten_microseconds.
    destruct (py_float_whole (k * 100000)) as (f & Hf & _); [lia|].
    rewrite Hf. cbn [bind].
    rewrite (quotient_instant k 100000)
      by (try discriminate; try assumption; lia).
    cbn [bind]. rewrite trim_no_fraction by (assumption || lia).
    reflexivity.
  - unfold decode_epoch_microseconds.
    destruct (py_float_whole (k * 1000000)) as (f & Hf & _); [lia|].
    rewrite Hf. cbn [bind].
    rewrite (quotient_instant k 1000000)
      by (try discriminate; try assumption; lia).
    reflexivity.
  - apply seconds_decoder_exact; [lia|exact Hs].
  - apply str_whole_second.
Qed.

Lemma microseconds_decoder_whole k :
  0 <= k <= 9007199254 -> supports P k ->
  decode_epoch_microseconds P (k * 1000000)
    = Ok (Str (str_datetime (broken_down k 0)), "Epoch microseconds").
Proof.
  intros Hk Hs. unfold decode_epoch_microseconds.
  destruct (py_float_whole (k * 1000000)) as (f & Hf & _);
    [change (2 ^ 53) with 9007199254740992; lia|].
  rewrite Hf. cbn [bind].
  rewrite (quotient_instant k 1000000);
    try discriminate; try assumption; try reflexivity;
    change (2 ^ 53) with 9007199254740992; lia.
Qed.

Lemma ten_microseconds_decoder_whole k :
  0 <= k <= 9007199254 -> supports P k ->
  decode_epoch_ten_microseconds P (k * 100000)
    = Ok (Str (str_datetime (broken_down k 0)),
          "Epoch ten-microsecond increments").
Proof.
  intros Hk Hs. unfold decode_epoch_ten_microseconds.
  destruct (broken_down_fields k 0) as [Hus Hsec].
  destruct (py_float_whole (k * 100000)) as (f & Hf & _);
    [change (2 ^ 53) with 9007199254740992; lia|].
  rewrite Hf. cbn [bind].
  rewrite (quotient_instant k 100000);
    try discriminate; try assumption;
    try (change (2 ^ 53) with 9007199254740992; lia).
  cbn [bind]. rewrite trim_no_fraction by (assumption || lia).
  reflexivity.
Qed.

Lemma year_2014_2025 k us :
  1400070400 <= k <= 1735689600 ->
  2014 <= year (broken_down k us) <= 2025.
Proof.
  intros H. rewrite broken_down_year.
  assert (Hd : 16204 <= k / 86400 <= 20089)
    by (Z.div_mod_to_equations; lia).
  revert Hd. generalize (k / 86400). intros days Hd. year_bounds.
Qed.

Lemma year_1974_1975 k us :
  140007040 <= k <= 173568960 ->
  1974 <= year (broken_down k us) <= 1975.
Proof.
  intros H. rewrite broken_down_year.
  assert (Hd : 1620 <= k / 86400 <= 2008)
    by (Z.div_mod_to_equations; lia).
  revert Hd. generalize (k / 86400). intros days Hd. year_bounds.
Qed.

(** X17. A candidate of the microseconds range on a whole second [k] is
    shown as exactly the UTC instant [k], without a fraction; the range
    starts on 2014-05-14, not in 2015 like the ranges above it. *)
Theorem whole_second_microseconds_shown_exactly k :
  1400070400 <= k <= 1735689600 -> supports P k ->
  guess_timestamp_format P (k * 1000000)
    = Ok (Str (str_datetime (broken_down k 0)), "Epoch microseconds")
  /\ chars (str_datetime (broken_down k 0))
     = seconds_chars (broken_down k 0)
  /\ 2014 <= year (broken_down k 0) <= 2025.
Proof.
  intros Hk Hs.
  assert (Hg : guess_timestamp_format P (k * 1000000)
               = decode_epoch_microseconds P (k * 1000000))
    by branch_of_range.
  rewrite Hg, microseconds_decoder_whole by (assumption || lia).
  split; [reflexivity|]. split; [apply str_whole_second|].
  apply year_2014_2025. exact Hk.
Qed.

(** X18. What the ten-microsecond branch shows: a ten-microsecond time
    stamp of the instant [10 * k] is shown as the instant [k], a date of
    1974 or 1975, where the decoder written for that format gives the
    instant [10 * k] of 2014-2025. *)
Theorem ten_microsecond_candidates_shown_in_1974_1975 k :
  140007040 <= k <= 173568960 ->
  supports P k -> supports P (10 * k) ->
  guess_timestamp_format P (k * 1000000)
    = Ok (Str (str_datetime (broken_down k 0)), "Epoch microseconds")
  /\ 1974 <= year (broken_down k 0) <= 1975
  /\ decode_epoch_ten_microseconds P (k * 1000000)
    = Ok (Str (str_datetime (broken_down (10 * k) 0)),
          "Epoch ten-microsecond increments")
  /\ 2014 <= year (broken_down (10 * k) 0) <= 2025.
Proof.
  intros Hk Hs Hs10.
  assert (Hg : guess_timestamp_format P (k * 1000000)
               = decode_epoch_microseconds P (k * 1000000))
    by branch_of_range.
  rewrite Hg, microseconds_decoder_whole by (assumption || lia).
  split; [reflexivity|]. split; [apply year_1974_1975; exact Hk|].
  replace (k * 1000000) with (10 * k * 100000) by lia.
  rewrite ten_microseconds_decoder_whole by (assumption || lia).
  split; [reflexivity|]. apply year_2014_2025. lia.
Qed.

(** Beyond the year 9999 the seconds decoder fails: with the calendar's
    error where the platform converts the instant, with the platform's
    error where it does not. *)
Lemma seconds_decoder_year_error c :
  253402300800 <= c < 2 ^ 53 -> supports P c ->
  decode_epoch_seconds P c = Raise (ValueError "year is out of range").
Proof.
  intros Hc [Ht Hg]. unfold decode_epoch_seconds.
  destruct (py_float_whole c) as (f & Hf & Hfin & Htr & Hfr); [lia|].
  rewrite Hf. cbn [bind]. unfold utcfromtimestamp.
  rewrite (timeval_of_float_whole P f c Hfin Htr)
    by (rewrite Hfr; reflexivity).
  destruct (Z.leb_spec (time_t_min P) c); [|lia].
  destruct (Z.ltb_spec c (- time_t_min P)); [|lia].
  cbn [andb bind fst snd]. unfold datetime_from_timet_and_us.
  destruct (Z.leb_spec (gmtime_min P) c); [|lia].
  destruct (Z.leb_spec c (gmtime_max P)); [|lia].
  cbn [andb]. rewrite Z.add_0_r.
  rewrite new_datetime_beyond; [reflexivity|].
  apply year_beyond_calendar. lia.
Qed.

Lemma seconds_decoder_platform_error c :
  0 <= c < 2 ^ 53 ->
  time_t_min P <= c < - time_t_min P ->
  gmtime_max P < c ->
  decode_epoch_seconds P c
    = Raise (OSError "Value too large for defined data type").
Proof.
  intros Hc Ht Hg. unfold decode_epoch_seconds.
  destruct (py_float_whole c) as (f & Hf & Hfin & Htr & Hfr); [lia|].
  rewrite Hf. cbn [bind]. unfold utcfromtimestamp.
  rewrite (timeval_of_float_whole P f c Hfin Htr)
    by (rewrite Hfr; reflexivity).
  destruct (Z.leb_spec (time_t_min P) c); [|lia].
  destruct (Z.ltb_spec c (- time_t_min P)); [|lia].
  cbn [andb bind fst snd]. unfold datetime_from_timet_and_us.
  destruct (Z.leb_spec c (gmtime_max P)); [lia|].
  rewrite andb_false_r. reflexivity.
Qed.

Lemma milliseconds_range_is_milliseconds c :
  1000070400000 <= c <= 1735689600000 ->
  guess_timestamp_format P c = decode_epoch_milliseconds c.
Proof. intros Hc. branch_of_range. Qed.

Lemma above_milliseconds_range_is_seconds c :
  1735689600000 < c < 140007040000000 ->
  guess_timestamp_format P c = decode_epoch_seconds P c.
Proof. intros Hc. branch_of_range. Qed.

End DividingDecoders.

Section AfterTheRanges.

Variable P : platform.

Lemma above_milliseconds_range_supported c :
  1735689600000 < c < 140007040000000 -> supports P c ->
  show P c = Uncaught (ValueError "year is out of range").
Proof.
  intros Hc Hs. unfold show.
  rewrite above_milliseconds_range_is_seconds by exact Hc.
  rewrite seconds_decoder_year_error;
    [reflexivity|change (2 ^ 53) with 9007199254740992; lia|exact Hs].
Qed.

(** X8. A candidate between the milliseconds range and the ten-microsecond
    range, such as a millisecond time stamp after 2025-01-01, is handed to
    the seconds decoder and never shown: where the platform converts the
    instant, as 64-bit Linux does, the run ends in an uncaught ValueError,
    the year exceeding 9999; on 64-bit Windows it prints 'TS too big'. *)
Theorem candidates_above_milliseconds_range_fail c :
  1735689600000 < c < 140007040000000 ->
  guess_timestamp_format P c = decode_epoch_seconds P c
  /\ (exists e, guess_timestamp_format P c = Raise e)
  /\ (supports P c ->
      show P c = Uncaught (ValueError "year is out of range"))
  /\ show linux64 c = Uncaught (ValueError "year is out of range")
  /\ show windows64 c = TooBig c.
Proof.
  intros Hc.
  assert (H53 : 2 ^ 53 = 9007199254740992) by reflexivity.
  split; [apply above_milliseconds_range_is_seconds; exact Hc|].
  split.
  { rewrite above_milliseconds_range_is_seconds by exact Hc.
    apply seconds_decoder_beyond_calendar. lia. }
  split; [intros Hs; unfold show|split; unfold show].
  - rewrite above_milliseconds_range_is_seconds by exact Hc.
    rewrite seconds_decoder_year_error; [reflexivity|lia|exact Hs].
  - rewrite above_milliseconds_range_is_seconds by exact Hc.
    rewrite seconds_decoder_year_error; [reflexivity|lia|].
    apply linux64_supports. lia.
  - rewrite above_milliseconds_range_is_seconds by exact Hc.
    rewrite seconds_decoder_platform_error; [reflexivity|lia| |].
    + change (time_t_min windows64) with (- 9223372036854775808).
      lia.
    + change (gmtime_max windows64) with 32535215999. lia.
Qed.

(** X7. A candidate of the milliseconds range is shown, on every platform,
    as its UTC second followed by exactly its three millisecond digits, or
    by nothing when they are zero: never with six fractional digits. *)
Theorem milliseconds_shown_with_three_digits ms :
  1000070400000 <= ms <= 1735689600000 ->
  guess_timestamp_format P ms
    = Ok (Str (text (seconds_chars (broken_down (ms / 1000) 0)
                     ++ if ms mod 1000 =? 0 then []
                        else "."%char :: zero_padded 3 (ms mod 1000))),
          "Epoch milliseconds").
Proof.
  intros Hms.
  assert (Hg : guess_timestamp_format P ms = decode_epoch_milliseconds ms).
  { unfold guess_timestamp_format.
    repeat match goal with
    | |- context [Z.leb ?a ?b] =>
        destruct (Z.leb_spec a b); cbn [andb]; try lia
    end; reflexivity. }
  rewrite Hg. apply milliseconds_decoder_exact. lia.
Qed.

(** X14. Under a named scheme, a decimal identifier of at most 64 bits
    always reaches the decoder: the candidate is the upper 42 bits plus the
    scheme's offset and lies in [[offset, offset + 2^42)]. *)
Theorem named_scheme_candidate a v :
  arg_type a <> manual ->
  arg_snowflake a = py_str_int v ->
  0 <= v < 2 ^ 64 ->
  exists offset,
    configure a = Some (42, offset)
    /\ candidate a 42 offset = Ok (Z.shiftr v 22 + offset)
    /\ offset <= Z.shiftr v 22 + offset < offset + 2 ^ 42
    /\ run P a = show P (Z.shiftr v 22 + offset).
Proof.
  intros Hm Hs Hv.
  assert (Hc : exists offset, configure a = Some (42, offset)).
  { unfold configure. destruct (arg_type a); try (eexists; reflexivity).
    contradiction. }
  destruct Hc as [offset Hc]. exists offset.
  pose proof (decimal_candidate a v 42 offset Hs Hv) as Hk.
  change (64 - 42) with 22 in Hk. specialize (Hk ltac:(lia)).
  split; [exact Hc|]. split; [exact Hk|]. split.
  - pose proof (shiftr_upper_bits_bound v 64 42 Hv) as Hb.
    change (64 - 42) with 22 in Hb. lia.
  - exact (run_candidate P a 42 offset _ Hc Hk).
Qed.

(** X19. The named schemes end to end, for a decimal identifier of at most
    64 bits: a time stamp from 2001-09-09 to 2025-01-01 00:00:00 UTC, and
    under Twitter and Discord every time stamp up to then, is always shown,
    as its UTC time to the millisecond; a later one is never shown, the run
    ending in an uncaught ValueError where the platform converts the
    instant. *)
Theorem named_schemes_shown_until_2025 a v :
  arg_type a <> manual ->
  arg_snowflake a = py_str_int v ->
  0 <= v < 2 ^ 64 ->
  exists offset c,
    configure a = Some (42, offset)
    /\ c = Z.shiftr v 22 + offset
    /\ (arg_type a <> linkedin -> 1000070400000 <= c)
    /\ (1000070400000 <= c <= 1735689600000 ->
        run P a
          = Shown c
              (text (seconds_chars (broken_down (c / 1000) 0)
                     ++ if c mod 1000 =? 0 then []
                        else "."%char :: zero_padded 3 (c mod 1000)))
              "Epoch milliseconds")
    /\ (1735689600000 < c ->
        (exists e, guess_timestamp_format P c = Raise e)
        /\ (supports P c ->
            run P a = Uncaught (ValueError "year is out of range"))).
Proof.
  intros Ht Hs Hv.
  assert (Hc : exists offset, configure a = Some (42, offset)).
  { unfold configure. destruct (arg_type a); try (eexists; reflexivity).
    contradiction. }
  destruct Hc as [offset Hc].
  pose proof (decimal_candidate a v 42 offset Hs Hv) as Hk.
  change (64 - 42) with 22 in Hk. specialize (Hk ltac:(lia)).
  pose proof (run_candidate P a 42 offset _ Hc Hk) as Hrun.
  pose proof (shiftr_upper_bits_bound v 64 42 Hv) as Hr.
  change (64 - 42) with 22 in Hr. specialize (Hr ltac:(lia)).
  exists offset, (Z.shiftr v 22 + offset).
  split; [exact Hc|]. split; [reflexivity|].
  change (2 ^ 42) with 4398046511104 in Hr.
  assert (Ho : 0 <= offset <= 1420070400000
               /\ (arg_type a <> linkedin -> 1288834974657 <= offset)).
  { unfold configure in Hc.
    destruct (arg_type a); try contradiction;
      injection Hc as <-; (split; [lia|]); intros Hl;
      try contradiction; lia. }
  destruct Ho as [Ho Hnl].
  assert (H53 : 2 ^ 53 = 9007199254740992) by reflexivity.
  split; [intros Hl; specialize (Hnl Hl); lia|].
  split.
  - intros Hle. rewrite Hrun. unfold show.
    rewrite milliseconds_range_is_milliseconds by lia.
    rewrite milliseconds_decoder_exact by lia. reflexivity.
  - intros Hgt. split.
    + rewrite above_milliseconds_range_is_seconds by lia.
      apply seconds_decoder_beyond_calendar. lia.
    + intros Hsup. rewrite Hrun.
      apply above_milliseconds_range_supported; [lia|exact Hsup].
Qed.

(** X20. Manual mode with a decimal identifier of at most 64 bits and a
    width from 1 to 64 always reaches the decoder, with the upper bits plus
    the given offset; with all 64 bits the candidate is the identifier plus
    the offset, so that every time stamp format can be decoded directly. *)
Theorem manual_mode_candidate a v n :
  arg_type a = manual ->
  arg_ts_bits a = Some n ->
  1 <= n <= 64 ->
  arg_snowflake a = py_str_int v ->
  0 <= v < 2 ^ 64 ->
  run P a = show P (Z.shiftr v (64 - n) + arg_offset a)
  /\ arg_offset a <= Z.shiftr v (64 - n) + arg_offset a
       < arg_offset a + 2 ^ n
  /\ (n = 64 -> run P a = show P (v + arg_offset a)).
Proof.
  intros Ht Hb Hn Hs Hv.
  assert (Hc : configure a = Some (n, arg_offset a)).
  { unfold configure. rewrite Ht, Hb.
    destruct (Z.eqb_spec n 0); [lia|reflexivity]. }
  pose proof (decimal_candidate a v n (arg_offset a) Hs Hv) as Hk.
  specialize (Hk ltac:(lia)).
  pose proof (run_candidate P a n (arg_offset a) _ Hc Hk) as Hrun.
  split; [exact Hrun|]. split.
  - pose proof (shiftr_upper_bits_bound v 64 n Hv) as Hr. lia.
  - intros ->. rewrite Hrun. change (64 - 64) with 0.
    rewrite Z.shiftr_0_r. reflexivity.
Qed.

End AfterTheRanges.

Lemma dividing_decoders_agree_on_whole_seconds_witness :
  decode_epoch_centiseconds linux64 (1500000000 * 100)
    = Ok (Str (str_datetime (broken_down 1500000000 0)), "Epoch centiseconds")
  /\ decode_epoch_ten_microseconds linux64 (1500000000 * 100000)
    = Ok (Str (str_datetime (broken_down 1500000000 0)),
          "Epoch ten-microsecond increments")
  /\ decode_epoch_microseconds linux64 (1500000000 * 1000000)
    = Ok (Str (str_datetime (broken_down 1500000000 0)), "Epoch microseconds")
  /\ decode_epoch_seconds linux64 1500000000
    = Ok (Datetime (broken_down 1500000000 0), "Epoch seconds")
  /\ chars (str_datetime (broken_down 1500000000 0))
    = seconds_chars (broken_down 1500000000 0).
Proof.
  apply (dividing_decoders_agree_on_whole_seconds linux64 1500000000).
  - split; discriminate.
  - apply linux64_supports. split; discriminate.
Defined.

Lemma whole_second_microseconds_shown_exactly_witness :
  guess_timestamp_format linux64 (1500000000 * 1000000)
    = Ok (Str (str_datetime (broken_down 1500000000 0)), "Epoch microseconds")
  /\ chars (str_datetime (broken_down 1500000000 0))
     = seconds_chars (broken_down 1500000000 0)
  /\ 2014 <= year (broken_down 1500000000 0) <= 2025.
Proof.
  apply (whole_second_microseconds_shown_exactly linux64 1500000000).
  - split; discriminate.
  - apply linux64_supports. split; discriminate.
Defined.

Lemma ten_microsecond_candidates_shown_in_1974_1975_witness :
  guess_timestamp_format linux64 (150000000 * 1000000)
    = Ok (Str (str_datetime (broken_down 150000000 0)), "Epoch microseconds")
  /\ 1974 <= year (broken_down 150000000 0) <= 1975
  /\ decode_epoch_ten_microseconds linux64 (150000000 * 1000000)
    = Ok (Str (str_datetime (broken_down (10 * 150000000) 0)),
          "Epoch ten-microsecond increments")
  /\ 2014 <= year (broken_down (10 * 150000000) 0) <= 2025.
Proof.
  apply (ten_microsecond_candidates_shown_in_1974_1975 linux64 150000000).
  - split; discriminate.
  - apply linux64_supports. split; discriminate.
  - apply linux64_supports. split; discriminate.
Defined.

Lemma candidates_above_milliseconds_range_fail_witness :
  guess_timestamp_format linux64 1767225600000
    = decode_epoch_seconds linux64 1767225600000
  /\ (exists e, guess_timestamp_format linux64 1767225600000 = Raise e)
  /\ (supports linux64 1767225600000 ->
      show linux64 1767225600000
        = Uncaught (ValueError "year is out of range"))
  /\ show linux64 1767225600000
     = Uncaught (ValueError "year is out of range")
  /\ show windows64 1767225600000 = TooBig 1767225600000.
Proof.
  apply (candidates_above_milliseconds_range_fail linux64 1767225600000).
  split; reflexivity.
Defined.

Lemma milliseconds_shown_with_three_digits_witness :
  guess_timestamp_format linux64 1571623494397
    = Ok (Str (text (seconds_chars (broken_down (1571623494397 / 1000) 0)
                     ++ if 1571623494397 mod 1000 =? 0 then []
                        else "."%char
                             :: zero_padded 3 (1571623494397 mod 1000))),
          "Epoch milliseconds").
Proof.
  apply (milliseconds_shown_with_three_digits linux64 1571623494397).
  split; discriminate.
Defined.

Lemma named_scheme_candidate_witness :
  exists offset,
    configure (mk_args (py_str_int 1186101019500929024) twitter None 0)
      = Some (42, offset)
    /\ candidate (mk_args (py_str_int 1186101019500929024) twitter None 0)
         42 offset
       = Ok (Z.shiftr 1186101019500929024 22 + offset)
    /\ offset <= Z.shiftr 1186101019500929024 22 + offset < offset + 2 ^ 42
    /\ run linux64 (mk_args (py_str_int 1186101019500929024) twitter None 0)
       = show linux64 (Z.shiftr 1186101019500929024 22 + offset).
Proof.
  apply (named_scheme_candidate linux64
           (mk_args (py_str_int 1186101019500929024) twitter None 0)
           1186101019500929024).
  - discriminate.
  - reflexivity.
  - split; [discriminate|reflexivity].
Defined.

Lemma named_schemes_shown_until_2025_witness :
  exists offset c,
    configure (mk_args (py_str_int 1186101019500929024) twitter None 0)
      = Some (42, offset)
    /\ c = Z.shiftr 1186101019500929024 22 + offset
    /\ (arg_type (mk_args (py_str_int 1186101019500929024) twitter None 0)
          <> linkedin -> 1000070400000 <= c)
    /\ (1000070400000 <= c <= 1735689600000 ->
        run linux64 (mk_args (py_str_int 1186101019500929024) twitter None 0)
          = Shown c
              (text (seconds_chars (broken_down (c / 1000) 0)
                     ++ if c mod 1000 =? 0 then []
                        else "."%char :: zero_padded 3 (c mod 1000)))
              "Epoch milliseconds")
    /\ (1735689600000 < c ->
        (exists e, guess_timestamp_format linux64 c = Raise e)
        /\ (supports linux64 c ->
            run linux64
                (mk_args (py_str_int 1186101019500929024) twitter None 0)
              = Uncaught (ValueError "year is out of range"))).
Proof.
  apply (named_schemes_shown_until_2025 linux64
           (mk_args (py_str_int 1186101019500929024) twitter None 0)
           1186101019500929024).
  - discriminate.
  - reflexivity.
  - split; [discriminate|reflexivity].
Defined.

Lemma manual_mode_candidate_witness :
  run linux64 (mk_args (py_str_int 131305536000000000) manual (Some 64) 0)
    = show linux64
        (Z.shiftr 131305536000000000 (64 - 64)
         + arg_offset
             (mk_args (py_str_int 131305536000000000) manual (Some 64) 0))
  /\ arg_offset (mk_args (py_str_int 131305536000000000) manual (Some 64) 0)
       <= Z.shiftr 131305536000000000 (64 - 64)
          + arg_offset
              (mk_args (py_str_int 131305536000000000) manual (Some 64) 0)
       < arg_offset
           (mk_args (py_str_int 131305536000000000) manual (Some 64) 0)
         + 2 ^ 64
  /\ (64 = 64 ->
      run linux64 (mk_args (py_str_int 131305536000000000) manual (Some 64) 0)
        = show linux64
            (131305536000000000
             + arg_offset
                 (mk_args (py_str_int 131305536000000000) manual (Some 64)
                    0))).
Proof.
  apply (manual_mode_candidate linux64
           (mk_args (py_str_int 131305536000000000) manual (Some 64) 0)
           131305536000000000 64).
  - reflexivity.
  - reflexivity.
  - split; discriminate.
  - reflexivity.
  - split; [discriminate|reflexivity].
Defined.

Section BinaryWidth.

(** The number of binary digits of a non-negative integer, one for zero. *)
Lemma format_bin_length x width :
  0 <= x -> 0 <= width ->
  exists s digits,
    format_bin x width = Ok s
    /\ List.length (chars s) = Nat.max (Z.to_nat width) digits
    /\ (x < 2 ^ Z.of_nat digits) /\ (1 <= digits)%nat
    /\ 2 ^ (Z.of_nat digits - 1) <= Z.max x 1
    /\ bin_value (chars s) = x.
Proof.
  intros Hx Hw. unfold format_bin.
  destruct (Z.ltb_spec width 0); [lia|].
  destruct x as [|p|p]; [| |lia].
  - eexists; exists 1%nat. split; [reflexivity|]. rewrite chars_text.
    unfold pad_left, bin_value.
    rewrite length_app, repeat_length. cbn [List.length].
    split; [lia|]. split; [reflexivity|]. split; [lia|].
    split; [discriminate|].
    rewrite fold_left_app, zeros_value. reflexivity.
  - pose proof (digits2_pos_bounds p) as Hd.
    eexists; exists (Pos.to_nat (digits2_pos p)).
    split; [reflexivity|]. rewrite chars_text.
    unfold pad_left, bin_value.
    rewrite length_app, repeat_length, bin_of_pos_length.
    cbn [List.length]. rewrite positive_nat_Z.
    split; [lia|]. split; [lia|]. split; [lia|]. split; [lia|].
    rewrite fold_left_app, zeros_value, bin_of_pos_value.
    cbn [fold_left]. lia.
Qed.

(** X11. The binary line of a non-negative value consists of binary digits
    that denote the value and is never cut: it has at least [width] digits,
    and exactly [width] of them if and only if the value is below
    [2^width]. *)
Theorem binary_line_has_width_and_value x width :
  0 <= x -> 1 <= width ->
  exists s, format_bin x width = Ok s
            /\ bin_value (chars s) = x
            /\ Forall is_bit (chars s)
            /\ (Z.to_nat width <= List.length (chars s))%nat
            /\ (List.length (chars s) = Z.to_nat width <-> x < 2 ^ width).
Proof.
  intros Hx Hw.
  destruct (format_bin_length x width Hx)
    as (s & digits & Hs & Hlen & Hhi & Hd1 & Hlo & Hval); [lia|].
  exists s. split; [exact Hs|]. split; [exact Hval|].
  split; [exact (format_bin_bits x width s Hx Hs)|].
  split; [lia|]. rewrite Hlen. split.
  - intros E. assert (Hdw : Z.of_nat digits <= width) by lia.
    assert (2 ^ Z.of_nat digits <= 2 ^ width)
      by (apply Z.pow_le_mono_r; lia). lia.
  - intros Hfit.
    assert (H2 : 2 ^ 1 <= 2 ^ width) by (apply Z.pow_le_mono_r; lia).
    assert (Hlt : 2 ^ (Z.of_nat digits - 1) < 2 ^ width) by lia.
    apply Z.pow_lt_mono_r_iff in Hlt; lia.
Qed.

End BinaryWidth.

Lemma binary_line_has_width_and_value_witness :
  exists s, format_bin 5 8 = Ok s
            /\ bin_value (chars s) = 5
            /\ Forall is_bit (chars s)
            /\ (Z.to_nat 8 <= List.length (chars s))%nat
            /\ (List.length (chars s) = Z.to_nat 8 <-> 5 < 2 ^ 8).
Proof.
  apply (binary_line_has_width_and_value 5 8); discriminate.
Defined.

(** The condition on the final newline matters when a single zero is
    trimmed: the first pass then removes the newline only, and a second pass
    removes the zero. *)
Example trim_twice_after_newline :
  trim_zero_fractional_seconds
    (text (chars "1.123450" ++ [ascii_of_nat 10])) 1
    = "1.123450"
  /\ trim_zero_fractional_seconds
       (trim_zero_fractional_seconds
          (text (chars "1.123450" ++ [ascii_of_nat 10])) 1) 1
     = "1.12345".
Proof. split; vm_compute; reflexivity. Qed.

Section Arrows.




End Arrows.

